(** * Server.js: the profile service

    A shallow embedding of the four request handlers of [src/Server.js]
    (create, read, delete and update of a profile) together with the parts
    of the JavaScript runtime they rely on: string trimming and case
    mapping, the two [String.prototype.replace] calls, [JSON.parse] and the
    [RegExp] objects built from the path key.

    Conventions.
    - A JavaScript string is a [string]; every [ascii] stands for the UTF-16
      code unit of the same number, so the model covers the strings whose
      code units are below 256 (Latin-1).
    - A value that may be [undefined] is an [option].
    - A handler is a computation over a world made of the collection of the
      store and of the trace of the calls to the two collaborators, the
      store and the image host. It ends with the response it sends, with
      the exception that leaves it uncaught, or beyond the model when the
      path key is a pattern outside the fragment of the pattern syntax that
      is modelled, or when the [socialLinks] of an update is a value whose
      cast through the schema is not modelled. *)

From Stdlib Require Import Bool Arith NArith Lia List Ascii String Permutation.
Import ListNotations.
Local Open Scope string_scope.
Local Open Scope list_scope.

Set Implicit Arguments.

(** ** Code units *)

Module Js.

Definition code (c : ascii) : N := N_of_ascii c.

Definition between (lo hi : N) (c : ascii) : bool :=
  ((lo <=? code c) && (code c <=? hi))%N.

(** WhiteSpace and LineTerminator code units below 256: TAB, LF, VT, FF, CR,
    SP and NBSP. This is the set [trim] removes and [\s] matches. *)
Definition isWhiteSpace (c : ascii) : bool :=
  between 9 13 c || (code c =? 32)%N || (code c =? 160)%N.

(** LineTerminator code units below 256: LF and CR ([.] does not match them). *)
Definition isLineTerminator (c : ascii) : bool :=
  (code c =? 10)%N || (code c =? 13)%N.

(** [toLowerCase] on one code unit: A-Z and the Latin-1 capitals
    (192-222 except the multiplication sign 215). Below 256 the lower-case
    mapping takes one code unit to one code unit; above, it can give more
    code units than it reads (U+0130 gives two), so nothing proved here about
    the length of a lower-cased string carries over to such strings. *)
Definition lowerChar (c : ascii) : ascii :=
  if between 65 90 c || (between 192 222 c && negb (code c =? 215)%N)
  then ascii_of_N (code c + 32) else c.

(** [Canonicalize] of a case-insensitive RegExp without the [u] flag: the
    upper-case mapping of one code unit. Below 256 it shifts a-z and the
    Latin-1 small letters (224-254 except the division sign 247). The sharp
    s (223) stays, its upper case being two code units. The micro sign (181)
    and y-diaeresis (255) go to code units above 255 that no other code unit
    below 256 goes to; they are left in place here, which changes no
    comparison of two canonicalized code units. *)
Definition canonicalize (c : ascii) : ascii :=
  if between 97 122 c || (between 224 254 c && negb (code c =? 247)%N)
  then ascii_of_N (code c - 32) else c.

(** ** Strings *)

Fixpoint toLowerCase (s : string) : string :=
  match s with
  | EmptyString => EmptyString
  | String c t => String (lowerChar c) (toLowerCase t)
  end.

Fixpoint trimStart (s : string) : string :=
  match s with
  | EmptyString => EmptyString
  | String c t => if isWhiteSpace c then trimStart t else s
  end.

Definition isEmpty (s : string) : bool :=
  match s with EmptyString => true | _ => false end.

Fixpoint trimEnd (s : string) : string :=
  match s with
  | EmptyString => EmptyString
  | String c t =>
      let t' := trimEnd t in
      if isWhiteSpace c && isEmpty t' then EmptyString else String c t'
  end.

Definition trim (s : string) : string := trimEnd (trimStart s).

(** [s.replace(/\s+/g, "-")]: the scan of a global replace. At a white-space
    code unit the greedy [\s+] takes the whole run, one hyphen is emitted and
    the scan resumes after the run; any other code unit is copied. [inRun]
    records that the hyphen of the current run is already out. *)
Fixpoint replaceRuns (inRun : bool) (s : string) : string :=
  match s with
  | EmptyString => EmptyString
  | String c t =>
      if isWhiteSpace c
      then (if inRun then replaceRuns true t else String "-" (replaceRuns true t))
      else String c (replaceRuns false t)
  end.

Definition replaceWhitespaceRuns (s : string) : string := replaceRuns false s.

(** [s.replace('-', ' ')]: a string pattern replaces the first occurrence
    only. *)
Fixpoint replaceFirstHyphen (s : string) : string :=
  match s with
  | EmptyString => EmptyString
  | String c t =>
      if Ascii.eqb c "-" then String " " t else String c (replaceFirstHyphen t)
  end.

(** JavaScript truthiness of a possibly undefined string. *)
Definition truthy (v : option string) : bool :=
  match v with
  | None => false
  | Some s => negb (isEmpty s)
  end.

End Js.

(** ** Regular expressions

    [new RegExp(pattern, flags)] for the patterns the handlers build. The
    model covers a fragment of the pattern syntax (without the [u] flag):
    literal code units, [.], [^], [$], [|], capturing groups, the
    quantifiers [*], [+], [?] with their lazy forms, and a backslash before
    a syntax character. Character classes, braces, the other escapes and the
    [(?] groups are outside the fragment: for them the constructor answers
    [Unsupported] and the model says nothing. *)

Module RegExp.

Inductive regex : Type :=
| Empty
| Char (c : ascii)
| Dot
| Bol
| Eol
| Cat (a b : regex)
| Alt (a b : regex)
| Star (a : regex).

Inductive token : Type :=
| TChar (c : ascii)
| TDot | TBol | TEol | TBar | TOpen | TClose
| TStar | TPlus | TQuest.

(** SyntaxCharacter of the pattern grammar. *)
Definition isSyntaxChar (c : ascii) : bool :=
  existsb (Ascii.eqb c)
    ["^"; "$"; "\"; "."; "*"; "+"; "?"; "("; ")"; "["; "]"; "{"; "}"; "|"]%char.

Definition tokenOf (c : ascii) : option token :=
  if Ascii.eqb c "." then Some TDot
  else if Ascii.eqb c "^" then Some TBol
  else if Ascii.eqb c "$" then Some TEol
  else if Ascii.eqb c "|" then Some TBar
  else if Ascii.eqb c "(" then Some TOpen
  else if Ascii.eqb c ")" then Some TClose
  else if Ascii.eqb c "*" then Some TStar
  else if Ascii.eqb c "+" then Some TPlus
  else if Ascii.eqb c "?" then Some TQuest
  else if isSyntaxChar c then None
  else Some (TChar c).

(** The tokens of a pattern; [None] when it leaves the fragment. *)
Fixpoint lex (s : string) : option (list token) :=
  match s with
  | EmptyString => Some []
  | String c t =>
      if Ascii.eqb c "\" then
        match t with
        | String d t' =>
            if isSyntaxChar d || Ascii.eqb d "/"
            then option_map (cons (TChar d)) (lex t')
            else None
        | EmptyString => None
        end
      else if Ascii.eqb c "(" then
        match t with
        | String "?" _ => None
        | _ => option_map (cons TOpen) (lex t)
        end
      else
        match tokenOf c with
        | Some k => option_map (cons k) (lex t)
        | None => None
        end
  end.

(** What the last term of the alternative being read allows after it: a
    quantifier after an atom, the lazy mark [?] after a quantifier, nothing
    after an assertion, a lazy mark or at the start. *)
Inductive lastTerm : Type := NoAtom | Atom | Quantified.

(** A disjunction being read: its finished alternatives and the terms of
    the current one, both most recent first. *)
Record frame : Type := Frame {
  alts : list regex;
  terms : list regex;
  last : lastTerm
}.

Definition emptyFrame : frame := Frame [] [] NoAtom.

Definition seqOf (ts : list regex) : regex :=
  fold_left (fun acc t => Cat t acc) ts Empty.

Definition disjOf (finished : list regex) (current : regex) : regex :=
  fold_left (fun acc a => Alt a acc) finished current.

Definition closeFrame (f : frame) : regex :=
  disjOf (alts f) (seqOf (terms f)).

Definition pushTerm (f : frame) (r : regex) (k : lastTerm) : frame :=
  Frame (alts f) (r :: terms f) k.

Definition quantify (q : token) (r : regex) : regex :=
  match q with
  | TStar => Star r
  | TPlus => Cat r (Star r)
  | _ => Alt r Empty
  end.

Inductive compiled : Type :=
| Pattern (r : regex)
| SyntaxError
| Unsupported.

(** One pass over the tokens with a stack of the enclosing groups. *)
Fixpoint parse (ts : list token) (f : frame) (stack : list frame) : compiled :=
  match ts with
  | [] =>
      match stack with
      | [] => Pattern (closeFrame f)
      | _ :: _ => SyntaxError
      end
  | k :: rest =>
      match k with
      | TChar c => parse rest (pushTerm f (Char c) Atom) stack
      | TDot => parse rest (pushTerm f Dot Atom) stack
      | TBol => parse rest (pushTerm f Bol NoAtom) stack
      | TEol => parse rest (pushTerm f Eol NoAtom) stack
      | TBar =>
          parse rest (Frame (seqOf (terms f) :: alts f) [] NoAtom) stack
      | TOpen => parse rest emptyFrame (f :: stack)
      | TClose =>
          match stack with
          | [] => SyntaxError
          | outer :: stack' =>
              parse rest (pushTerm outer (closeFrame f) Atom) stack'
          end
      | TStar | TPlus | TQuest =>
          match last f, terms f with
          | Atom, r :: before =>
              parse rest (Frame (alts f) (quantify k r :: before) Quantified)
                stack
          | Quantified, _ :: _ =>
              match k with
              | TQuest => parse rest (Frame (alts f) (terms f) NoAtom) stack
              | _ => SyntaxError
              end
          | _, _ => SyntaxError
          end
      end
  end.

(** The object [new RegExp(pattern, flags)] yields: its pattern and whether
    the flags were ["i"]. Only no flag and ["i"] are in the fragment. *)
Definition construct (pattern flags : string) : compiled * bool :=
  let ignoreCase := String.eqb flags "i" in
  if ignoreCase || Js.isEmpty flags then
    match lex pattern with
    | Some ts => (parse ts emptyFrame [], ignoreCase)
    | None => (Unsupported, ignoreCase)
    end
  else (Unsupported, ignoreCase).

(** *** Matching *)

Section Matching.

Variable ignoreCase : bool.
Variable input : list ascii.

Definition sameChar (a b : ascii) : bool :=
  if ignoreCase
  then Ascii.eqb (Js.canonicalize a) (Js.canonicalize b)
  else Ascii.eqb a b.

(** The positions reached by repeating [step] from the positions of
    [frontier], each repetition consuming at least one code unit (an empty
    iteration of a star is rejected by the matcher). *)
Fixpoint iterate (step : nat -> list nat) (fuel : nat) (frontier : list nat)
  : list nat :=
  match fuel with
  | O => frontier
  | S n =>
      frontier ++
      iterate step n
        (flat_map (fun i => filter (fun j => (i <? j)%nat) (step i)) frontier)
  end.

(** [ends r i]: the end positions of the matches of [r] that start at
    position [i] of the input. *)
Fixpoint ends (r : regex) (i : nat) : list nat :=
  match r with
  | Empty => [i]
  | Char c =>
      match nth_error input i with
      | Some d => if sameChar c d then [S i] else []
      | None => []
      end
  | Dot =>
      match nth_error input i with
      | Some d => if Js.isLineTerminator d then [] else [S i]
      | None => []
      end
  | Bol => if (i =? 0)%nat then [i] else []
  | Eol => if (i =? List.length input)%nat then [i] else []
  | Cat a b => flat_map (ends b) (ends a i)
  | Alt a b => ends a i ++ ends b i
  | Star a => iterate (ends a) (List.length input) [i]
  end.

Definition matchesAt (r : regex) (i : nat) : bool :=
  match ends r i with [] => false | _ :: _ => true end.

(** What [ends] computes, as a relation: [Matches r i j] when [r] matches
    the code units of the input from position [i] up to position [j]. *)
Inductive Matches : regex -> nat -> nat -> Prop :=
| MatchEmpty i : Matches Empty i i
| MatchChar c d i :
    nth_error input i = Some d -> sameChar c d = true ->
    Matches (Char c) i (S i)
| MatchDot d i :
    nth_error input i = Some d -> Js.isLineTerminator d = false ->
    Matches Dot i (S i)
| MatchBol : Matches Bol 0 0
| MatchEol : Matches Eol (List.length input) (List.length input)
| MatchCat a b i j k :
    Matches a i j -> Matches b j k -> Matches (Cat a b) i k
| MatchAltLeft a b i j : Matches a i j -> Matches (Alt a b) i j
| MatchAltRight a b i j : Matches b i j -> Matches (Alt a b) i j
| MatchStarDone a i : Matches (Star a) i i
| MatchStarStep a i j k :
    Matches a i j -> Matches (Star a) j k -> Matches (Star a) i k.

(** A pattern is searched for at every start position. *)
Definition search (r : regex) : bool :=
  existsb (matchesAt r) (seq 0 (S (List.length input))).

End Matching.

Definition test (r : regex) (ignoreCase : bool) (s : string) : bool :=
  search ignoreCase (list_ascii_of_string s) r.

(** [new RegExp(pattern, flags).test(s)] for a pattern of the fragment that
    is valid. *)
Definition testPattern (pattern flags s : string) : option bool :=
  match construct pattern flags with
  | (Pattern r, ignoreCase) => Some (test r ignoreCase s)
  | _ => None
  end.

End RegExp.

(** ** JSON.parse

    The JSON grammar of ECMA-404 as [JSON.parse] reads it: a scanner that
    walks the text one code unit at a time and a pushdown reader of its
    tokens. Both are folds over their input, so the parser is total. A string
    is the list of its code units (a [\u] escape may denote one above 255).
    An object holds one member for a name, in the order in which the names
    first come; the object of the runtime lists names that are array indices
    before the others, which is not modelled. A number stands for the Number
    its literal denotes and keeps the literal: two literals of one Number are
    two terms here, and nothing below compares or prints a number. *)

Module JSON.

#[warnings="-register-all"]
Inductive json : Type :=
| JNull
| JBool (b : bool)
| JNumber (literal : string)
| JString (units : list N)
| JArray (elements : list json)
| JObject (members : list (list N * json)).

Inductive token : Type :=
| TLBrace | TRBrace | TLBracket | TRBracket | TColon | TComma
| TString (units : list N)
| TNumber (literal : string)
| TTrue | TFalse | TNull.

Definition quote : ascii := ascii_of_N 34.

Definition isJsonSpace (c : ascii) : bool :=
  existsb (N.eqb (Js.code c)) [9; 10; 13; 32]%N.

Definition isDigit (c : ascii) : bool := Js.between 48 57 c.

Definition hexValue (c : ascii) : option N :=
  if Js.between 48 57 c then Some (Js.code c - 48)%N
  else if Js.between 65 70 c then Some (Js.code c - 55)%N
  else if Js.between 97 102 c then Some (Js.code c - 87)%N
  else None.

(** Where the scanner stands inside a number literal. *)
Inductive numState : Type :=
| NMinus | NZero | NInt | NDot | NFrac | NExp | NExpSign | NExpDigits.

Definition numComplete (n : numState) : bool :=
  match n with
  | NZero | NInt | NFrac | NExpDigits => true
  | _ => false
  end.

Definition numStep (n : numState) (c : ascii) : option numState :=
  let isE := Ascii.eqb c "e" || Ascii.eqb c "E" in
  match n with
  | NMinus =>
      if Ascii.eqb c "0" then Some NZero
      else if isDigit c then Some NInt else None
  | NZero =>
      if Ascii.eqb c "." then Some NDot
      else if isE then Some NExp else None
  | NInt =>
      if isDigit c then Some NInt
      else if Ascii.eqb c "." then Some NDot
      else if isE then Some NExp else None
  | NDot => if isDigit c then Some NFrac else None
  | NFrac =>
      if isDigit c then Some NFrac
      else if isE then Some NExp else None
  | NExp =>
      if Ascii.eqb c "+" || Ascii.eqb c "-" then Some NExpSign
      else if isDigit c then Some NExpDigits else None
  | NExpSign => if isDigit c then Some NExpDigits else None
  | NExpDigits => if isDigit c then Some NExpDigits else None
  end.

(** What the scanner is in the middle of. Text read so far is kept most
    recent first. *)
Inductive mode : Type :=
| Between
| InString (units : list N)
| InEscape (units : list N)
| InUnicode (units : list N) (digits : list N)
| InNumber (n : numState) (text : list ascii)
| InLiteral (expected : list ascii) (t : token).

Definition string_of_rev (text : list ascii) : string :=
  string_of_list_ascii (rev text).

(** The first code unit of a token. *)
Definition startToken (c : ascii) (out : list token)
  : option (mode * list token) :=
  if isJsonSpace c then Some (Between, out)
  else if Ascii.eqb c "{" then Some (Between, TLBrace :: out)
  else if Ascii.eqb c "}" then Some (Between, TRBrace :: out)
  else if Ascii.eqb c "[" then Some (Between, TLBracket :: out)
  else if Ascii.eqb c "]" then Some (Between, TRBracket :: out)
  else if Ascii.eqb c ":" then Some (Between, TColon :: out)
  else if Ascii.eqb c "," then Some (Between, TComma :: out)
  else if Ascii.eqb c quote then Some (InString [], out)
  else if Ascii.eqb c "-" then Some (InNumber NMinus [c], out)
  else if Ascii.eqb c "0" then Some (InNumber NZero [c], out)
  else if isDigit c then Some (InNumber NInt [c], out)
  else if Ascii.eqb c "t" then Some (InLiteral ["r"; "u"; "e"]%char TTrue, out)
  else if Ascii.eqb c "f"
  then Some (InLiteral ["a"; "l"; "s"; "e"]%char TFalse, out)
  else if Ascii.eqb c "n" then Some (InLiteral ["u"; "l"; "l"]%char TNull, out)
  else None.

Definition escapeUnit (c : ascii) : option N :=
  if Ascii.eqb c quote then Some 34%N
  else if Ascii.eqb c "\" then Some 92%N
  else if Ascii.eqb c "/" then Some 47%N
  else if Ascii.eqb c "b" then Some 8%N
  else if Ascii.eqb c "f" then Some 12%N
  else if Ascii.eqb c "n" then Some 10%N
  else if Ascii.eqb c "r" then Some 13%N
  else if Ascii.eqb c "t" then Some 9%N
  else None.

Definition scanStep (st : mode * list token) (c : ascii)
  : option (mode * list token) :=
  let (m, out) := st in
  match m with
  | Between => startToken c out
  | InString us =>
      if Ascii.eqb c quote then Some (Between, TString (rev us) :: out)
      else if Ascii.eqb c "\" then Some (InEscape us, out)
      else if (Js.code c <? 32)%N then None
      else Some (InString (Js.code c :: us), out)
  | InEscape us =>
      if Ascii.eqb c "u" then Some (InUnicode us [], out)
      else option_map (fun u => (InString (u :: us), out)) (escapeUnit c)
  | InUnicode us ds =>
      match hexValue c with
      | Some d =>
          match ds with
          | [d3; d2; d1] =>
              Some (InString ((((d1 * 16 + d2) * 16 + d3) * 16 + d)%N :: us),
                    out)
          | _ => Some (InUnicode us (d :: ds), out)
          end
      | None => None
      end
  | InNumber n text =>
      match numStep n c with
      | Some n' => Some (InNumber n' (c :: text), out)
      | None =>
          if numComplete n
          then startToken c (TNumber (string_of_rev text) :: out)
          else None
      end
  | InLiteral expected t =>
      match expected with
      | [] => startToken c (t :: out)
      | e :: more =>
          if Ascii.eqb c e
          then Some (match more with
                     | [] => (Between, t :: out)
                     | _ => (InLiteral more t, out)
                     end)
          else None
      end
  end.

Fixpoint scanFrom (st : mode * list token) (s : string)
  : option (mode * list token) :=
  match s with
  | EmptyString => Some st
  | String c t =>
      match scanStep st c with
      | Some st' => scanFrom st' t
      | None => None
      end
  end.

(** The tokens of a text, or [None] when a token is ill-formed or cut off. *)
Definition scan (s : string) : option (list token) :=
  match scanFrom (Between, []) s with
  | Some (Between, out) => Some (rev out)
  | Some (InNumber n text, out) =>
      if numComplete n
      then Some (rev (TNumber (string_of_rev text) :: out)) else None
  | _ => None
  end.

(** A container that is being read. *)
Inductive context : Type :=
| InArray (elements : list json)
| InObject (members : list (list N * json)) (key : option (list N)).

Inductive expect : Type :=
| Value | ValueOrEnd | KeyOrEnd | Key | Colon | CommaOrEnd | Done.

Definition config : Type := (expect * list context * option json)%type.

(** The code units of a string of the model. *)
Definition units (s : string) : list N := map Js.code (list_ascii_of_string s).

Fixpoint sameName (a b : list N) : bool :=
  match a, b with
  | [], [] => true
  | x :: a', y :: b' => (x =? y)%N && sameName a' b'
  | _, _ => false
  end.

Definition hasMember (k : list N) (ms : list (list N * json)) : bool :=
  existsb (fun m => sameName k (fst m)) ms.

Fixpoint replaceMember (k : list N) (v : json) (ms : list (list N * json))
  : list (list N * json) :=
  match ms with
  | [] => []
  | (k', v') :: rest =>
      if sameName k k' then (k', v) :: rest
      else (k', v') :: replaceMember k v rest
  end.

(** [CreateDataProperty] on the object being read: a name that comes again
    keeps its place and takes the new value. *)
Definition putMember (k : list N) (v : json) (ms : list (list N * json))
  : list (list N * json) :=
  if hasMember k ms then replaceMember k v ms else (k, v) :: ms.

(** A finished value goes to the innermost open container, or is the result. *)
Definition deliver (v : json) (stack : list context) : option config :=
  match stack with
  | [] => Some (Done, [], Some v)
  | InArray es :: outer => Some (CommaOrEnd, InArray (v :: es) :: outer, None)
  | InObject ms (Some k) :: outer =>
      Some (CommaOrEnd, InObject (putMember k v ms) None :: outer, None)
  | InObject _ None :: _ => None
  end.

Definition scalar (t : token) : option json :=
  match t with
  | TString us => Some (JString us)
  | TNumber lit => Some (JNumber lit)
  | TTrue => Some (JBool true)
  | TFalse => Some (JBool false)
  | TNull => Some JNull
  | _ => None
  end.

Definition readValue (t : token) (stack : list context) : option config :=
  match t with
  | TLBracket => Some (ValueOrEnd, InArray [] :: stack, None)
  | TLBrace => Some (KeyOrEnd, InObject [] None :: stack, None)
  | _ =>
      match scalar t with
      | Some v => deliver v stack
      | None => None
      end
  end.

Definition closeArray (stack : list context) : option config :=
  match stack with
  | InArray es :: outer => deliver (JArray (rev es)) outer
  | _ => None
  end.

Definition closeObject (stack : list context) : option config :=
  match stack with
  | InObject ms None :: outer => deliver (JObject (rev ms)) outer
  | _ => None
  end.

Definition readKey (t : token) (stack : list context) : option config :=
  match t, stack with
  | TString k, InObject ms None :: outer =>
      Some (Colon, InObject ms (Some k) :: outer, None)
  | _, _ => None
  end.

Definition readStep (c : config) (t : token) : option config :=
  let '(e, stack, _) := c in
  match e with
  | Value => readValue t stack
  | ValueOrEnd =>
      match t with
      | TRBracket => closeArray stack
      | _ => readValue t stack
      end
  | KeyOrEnd =>
      match t with
      | TRBrace => closeObject stack
      | _ => readKey t stack
      end
  | Key => readKey t stack
  | Colon =>
      match t with
      | TColon => Some (Value, stack, None)
      | _ => None
      end
  | CommaOrEnd =>
      match t, stack with
      | TComma, InArray _ :: _ => Some (Value, stack, None)
      | TComma, InObject _ _ :: _ => Some (Key, stack, None)
      | TRBracket, _ => closeArray stack
      | TRBrace, _ => closeObject stack
      | _, _ => None
      end
  | Done => None
  end.

Fixpoint readFrom (c : config) (ts : list token) : option config :=
  match ts with
  | [] => Some c
  | t :: rest =>
      match readStep c t with
      | Some c' => readFrom c' rest
      | None => None
      end
  end.

(** [JSON.parse(text)]: the value, or [None] where it throws a
    [SyntaxError]. *)
Definition parse (text : string) : option json :=
  match scan text with
  | Some ts =>
      match readFrom (Value, [], None) ts with
      | Some (Done, _, result) => result
      | _ => None
      end
  | None => None
  end.

(** Test texts are written with ['] for the double quote. *)
Fixpoint text (s : string) : string :=
  match s with
  | EmptyString => EmptyString
  | String c t => String (if Ascii.eqb c "'" then quote else c) (text t)
  end.

End JSON.

(** ** The data model

    The values a request carries are typed as the routes use them: a text
    field is a string or missing, a flag a boolean or missing, a file the
    buffer multer holds in memory. *)

Definition Buffer : Type := list Byte.byte.

(** A stored document, field by field as [ProfileSchema] declares it. A field
    is [None] when the document does not hold it. The [_id] and [__v] the
    store adds are left out. *)
Record Profile : Type := {
  username : option string;
  name : option string;
  jobTitle : option string;
  profileImage : option string;
  headerImage : option string;
  phone : option string;
  email : option string;
  isVerified : option bool;
  isCompany : option bool;
  socialLinks : option JSON.json
}.

(** [req.body] of the create route: the text fields, the two flags and
    [socialLinks] as a structured value. *)
Record CreateBody : Type := {
  create_username : option string;
  create_name : option string;
  create_jobTitle : option string;
  create_phone : option string;
  create_email : option string;
  create_isVerified : option bool;
  create_isCompany : option bool;
  create_socialLinks : option JSON.json
}.

(** [req.body] of the update route: [socialLinks] is the serialized text, and
    the two image fields may carry the URL already stored. *)
Record UpdateBody : Type := {
  update_username : option string;
  update_name : option string;
  update_jobTitle : option string;
  update_phone : option string;
  update_email : option string;
  update_isVerified : option bool;
  update_isCompany : option bool;
  update_socialLinks : option string;
  update_profileImage : option string;
  update_headerImage : option string
}.

(** [req.files]: the buffer of the first file of each field, if one came. *)
Record Files : Type := {
  files_profileImage : option Buffer;
  files_headerImage : option Buffer
}.

(** What a handler can be thrown. *)
Inductive Error : Type :=
| SyntaxError
| UploadError (message : string)
| ValidationError (paths : list string)
| DuplicateKey.

(** [err.code]: only the duplicate-key error of the store has one. *)
Definition code (e : Error) : option N :=
  match e with
  | DuplicateKey => Some 11000%N
  | _ => None
  end.

(** The JSON a handler answers with. [MessageOf e] is [{ message: e.message }]
    and [MessageError m e] is [{ message: m, error: ... }] with the message
    of [e] (create) or [e] itself (read, update). *)
Inductive Payload : Type :=
| Message (message : string)
| MessageOf (e : Error)
| MessageError (message : string) (e : Error)
| Saved (message : string) (profileKey : string) (profile : Profile)
| Document (profile : Profile).

Record Response : Type := {
  status : nat;
  json : Payload
}.

(** ** The collaborators

    Every call a handler makes to the image host or to the store, in the
    order of the calls. *)

Inductive Call : Type :=
| Upload (buffer : Buffer)
| FindOne (name : string)
| Save (doc : Profile)
| FindOneAndDelete (pattern : RegExp.regex)
| FindOneAndUpdate (pattern : RegExp.regex) (update : Profile).

(** The collection, in the order in which the store scans it (new
    documents go to the end), and the calls made so far. *)
Record World : Type := {
  db : list Profile;
  trace : list Call
}.

Definition isUpload (c : Call) : bool :=
  match c with Upload _ => true | _ => false end.

(** The outcome of a computation: a value, an exception, or [Beyond] when
    the run meets a regular expression or an update outside the modelled
    fragment. *)
Inductive result (A : Type) : Type :=
| Val (a : A)
| Exn (e : Error)
| Beyond.

Arguments Val {A} a.
Arguments Exn {A} e.
Arguments Beyond {A}.

Definition M (A : Type) : Type := World -> result A * World.

Definition ret {A} (a : A) : M A := fun w => (Val a, w).

Definition throw {A} (e : Error) : M A := fun w => (Exn e, w).

Definition bind {A B} (m : M A) (k : A -> M B) : M B :=
  fun w =>
    match m w with
    | (Val a, w') => k a w'
    | (Exn e, w') => (Exn e, w')
    | (Beyond, w') => (Beyond, w')
    end.

Definition try_catch {A} (m : M A) (handler : Error -> M A) : M A :=
  fun w =>
    match m w with
    | (Exn e, w') => handler e w'
    | other => other
    end.

Notation "x <- m ;; k" := (bind m (fun x => k))
  (at level 61, m at next level, right associativity).

Definition record (c : Call) (w : World) : World :=
  {| db := db w; trace := trace w ++ [c] |}.

(** *** The document store

    The mongoose model [Profile] over its collection. The library is not
    part of the repository: its four operations are modelled as the handlers
    use them and as [ProfileSchema] declares the fields ([required],
    [unique], the defaults). An exact filter compares [username] as it is; a
    pattern in a filter is read as [RegExp] reads it.

    An update document without an operator is a [$set], as Mongoose sends it
    from version 6 on: a key whose value is [undefined] is stripped, so the
    field keeps what the stored document holds, and every other key takes
    the value given. [socialLinks] is a nested path: its object is cast
    through the schema, which is strict, and set as a whole. An update runs
    no validator, so [required] is not checked.

    The store is taken to be reachable: its calls fail on validation and on
    the unique index only. *)

Module Store.

Definition hasUsername (u : string) (p : Profile) : bool :=
  match username p with
  | Some v => String.eqb u v
  | None => false
  end.

(** A regular expression in a filter selects the documents whose field is a
    string it matches. *)
Definition usernameMatches (r : RegExp.regex) (ignoreCase : bool) (p : Profile)
  : bool :=
  match username p with
  | Some v => RegExp.test r ignoreCase v
  | None => false
  end.

Definition sameUsername (a b : option string) : bool :=
  match a, b with
  | Some x, Some y => String.eqb x y
  | None, None => true
  | _, _ => false
  end.

(** The unique index on [username]. *)
Definition taken (u : option string) (docs : list Profile) : bool :=
  existsb (fun p => sameUsername u (username p)) docs.

(** The first document a filter selects is removed. *)
Fixpoint removeFirst (f : Profile -> bool) (docs : list Profile)
  : option Profile * list Profile :=
  match docs with
  | [] => (None, [])
  | p :: rest =>
      if f p then (Some p, rest)
      else let (found, rest') := removeFirst f rest in (found, p :: rest')
  end.

(** One key of a [$set]: the value given, or what is stored when the key
    is [undefined]. *)
Definition given {A : Type} (value stored : option A) : option A :=
  match value with
  | Some v => Some v
  | None => stored
  end.

(** [$set] of an update document on a stored document. *)
Definition set (update stored : Profile) : Profile :=
  {| username := given (username update) (username stored);
     name := given (name update) (name stored);
     jobTitle := given (jobTitle update) (jobTitle stored);
     profileImage := given (profileImage update) (profileImage stored);
     headerImage := given (headerImage update) (headerImage stored);
     phone := given (phone update) (phone stored);
     email := given (email update) (email stored);
     isVerified := given (isVerified update) (isVerified stored);
     isCompany := given (isCompany update) (isCompany stored);
     socialLinks := given (socialLinks update) (socialLinks stored) |}.

(** The names [ProfileSchema] declares under [socialLinks]. *)
Definition linkPaths : list string :=
  ["website"; "instagram"; "facebook"; "telegram"; "tiktok"; "youtube";
   "whatsapp"; "maps"; "snapchat"].

Definition declared (name : list N) : bool :=
  existsb (fun path => JSON.sameName (JSON.units path) name) linkPaths.

Definition isString (v : JSON.json) : bool :=
  match v with
  | JSON.JString _ => true
  | _ => false
  end.

(** The cast of the [socialLinks] of an update through the schema: a member
    under a name the schema does not declare is dropped, a declared one is
    cast to [String]. It is modelled for an object whose members are all
    strings, which that cast leaves as they are; [None] stands for every
    other value, whose cast (of a number, of a nested object, of a value
    that is no object) is not modelled. *)
Definition castLinks (v : JSON.json) : option JSON.json :=
  match v with
  | JSON.JObject members =>
      if forallb (fun m => isString (snd m)) members
      then Some (JSON.JObject (filter (fun m => declared (fst m)) members))
      else None
  | _ => None
  end.

Definition withSocialLinks (p : Profile) (links : option JSON.json) : Profile :=
  {| username := username p;
     name := name p;
     jobTitle := jobTitle p;
     profileImage := profileImage p;
     headerImage := headerImage p;
     phone := phone p;
     email := email p;
     isVerified := isVerified p;
     isCompany := isCompany p;
     socialLinks := links |}.

(** The cast of an update document. The other fields come typed from the
    request, a string for a [String] and a boolean for a [Boolean], and are
    their own cast. *)
Definition castUpdate (update : Profile) : option Profile :=
  match socialLinks update with
  | Some v =>
      match castLinks v with
      | Some links => Some (withSocialLinks update (Some links))
      | None => None
      end
  | None => Some update
  end.

(** The first document the filter selects takes the fields the update
    holds, unless that gives two documents one [username]. *)
Fixpoint replaceFirst (f : Profile -> bool) (update : Profile)
  (before docs : list Profile) : result (option Profile) * list Profile :=
  match docs with
  | [] => (Val None, [])
  | p :: rest =>
      if f p then
        let new := set update p in
        if taken (username new) (before ++ rest)
        then (Exn DuplicateKey, docs)
        else (Val (Some new), new :: rest)
      else
        let (r, rest') := replaceFirst f update (before ++ [p]) rest in
        (r, p :: rest')
  end.

(** A [required] string is there when it is not empty. *)
Definition present (v : option string) : bool := Js.truthy v.

(** The paths [ProfileSchema] marks [required] that a document lacks. *)
Definition missingPaths (p : Profile) : list string :=
  (if present (username p) then [] else ["username"]) ++
  (if present (name p) then [] else ["name"]) ++
  (if present (jobTitle p) then [] else ["jobTitle"]).

Definition findOne (u : string) : M (option Profile) :=
  fun w => (Val (find (hasUsername u) (db w)), record (FindOne u) w).

(** [doc.save()] of a new document: the schema is validated, then the
    insert is sent and the unique index checked. *)
Definition save (doc : Profile) : M Profile :=
  fun w =>
    let w' := record (Save doc) w in
    match missingPaths doc with
    | (_ :: _) as paths => (Exn (ValidationError paths), w')
    | [] =>
        if taken (username doc) (db w) then (Exn DuplicateKey, w')
        else (Val doc, {| db := db w ++ [doc]; trace := trace w' |})
    end.

Definition findOneAndDelete (r : RegExp.regex) (ignoreCase : bool)
  : M (option Profile) :=
  fun w =>
    let (found, rest) := removeFirst (usernameMatches r ignoreCase) (db w) in
    (Val found, {| db := rest; trace := trace w ++ [FindOneAndDelete r] |}).

(** [findOneAndUpdate(filter, update, { new: true })]: the update is cast,
    then applied to the first document the filter selects; the answer is the
    document as updated, or nothing when the filter selects none (there is
    no upsert). The run is beyond the model when the cast is. *)
Definition findOneAndUpdate (r : RegExp.regex) (ignoreCase : bool)
  (update : Profile) : M (option Profile) :=
  fun w =>
    let calls := trace w ++ [FindOneAndUpdate r update] in
    match castUpdate update with
    | Some cast =>
        let (res, docs) :=
          replaceFirst (usernameMatches r ignoreCase) cast [] (db w) in
        (res, {| db := docs; trace := calls |})
    | None => (Beyond, {| db := db w; trace := calls |})
    end.

End Store.

(** [new Profile({...})]: the schema defaults fill the two flags. *)
Definition newProfile (fields : Profile) : Profile :=
  {| username := username fields;
     name := name fields;
     jobTitle := jobTitle fields;
     profileImage := profileImage fields;
     headerImage := headerImage fields;
     phone := phone fields;
     email := email fields;
     isVerified := Some (match isVerified fields with Some b => b | None => false end);
     isCompany := Some (match isCompany fields with Some b => b | None => false end);
     socialLinks := socialLinks fields |}.

(** [new RegExp(pattern, flags)] inside a handler. *)
Definition newRegExp (pattern flags : string) : M (RegExp.regex * bool) :=
  fun w =>
    match RegExp.construct pattern flags with
    | (RegExp.Pattern r, ic) => (Val (r, ic), w)
    | (RegExp.SyntaxError, _) => (Exn SyntaxError, w)
    | (RegExp.Unsupported, _) => (Beyond, w)
    end.

(** ** The handlers *)

Section Handlers.

(** The image host: what the [n]-th call of a run answers for a buffer, the
    [secure_url] of the stored image or the message of its error. *)
Variable upload_stream : nat -> Buffer -> string + string.

(** The other requests in flight: what they do to the store while the create
    handler is suspended between its pre-check and its insert. *)
Variable others : list Profile -> list Profile.

Definition upload (buffer : Buffer) : M string :=
  fun w =>
    let w' := record (Upload buffer) w in
    match upload_stream (List.length (trace w)) buffer with
    | inl secure_url => (Val secure_url, w')
    | inr message => (Exn (UploadError message), w')
    end.

Definition suspended : M unit :=
  fun w => (Val tt, {| db := others (db w); trace := trace w |}).

Definition respond (code : nat) (body : Payload) : M Response :=
  ret {| status := code; json := body |}.

(** The derived key of the create response. *)
Definition profileKey (username : string) : string :=
  Js.replaceWhitespaceRuns (Js.toLowerCase username).

(** [!username || username.trim().length < 3] *)
Definition usernameRejected (username : option string) : bool :=
  match username with
  | None => true
  | Some u => Js.isEmpty u || (String.length (Js.trim u) <? 3)%nat
  end.

(** The document the create route builds, from the request and the two
    image URLs. *)
Definition createDocument (u : string) (body : CreateBody)
  (profileImageUrl headerImageUrl : string) : Profile :=
  newProfile
    {| username := Some u;
       name := create_name body;
       jobTitle := create_jobTitle body;
       profileImage := Some profileImageUrl;
       headerImage := Some headerImageUrl;
       phone := create_phone body;
       email := create_email body;
       isVerified := create_isVerified body;
       isCompany := create_isCompany body;
       socialLinks := create_socialLinks body |}.

(** POST /api/save-profile *)
Definition save_profile (body : CreateBody) (files : Files) : M Response :=
  match create_username body with
  | None => respond 400 (Message "Username must be at least 3 characters long.")
  | Some u =>
      if usernameRejected (Some u)
      then respond 400 (Message "Username must be at least 3 characters long.")
      else
        let key := profileKey u in
        try_catch
          (existingProfile <- Store.findOne u ;;
           match existingProfile with
           | Some _ => respond 400 (Message "Username is already taken.")
           | None =>
               profileImageUrl <-
                 match files_profileImage files with
                 | Some buffer => upload buffer
                 | None => ret EmptyString
                 end ;;
               headerImageUrl <-
                 match files_headerImage files with
                 | Some buffer => upload buffer
                 | None => ret EmptyString
                 end ;;
               let doc := createDocument u body profileImageUrl headerImageUrl in
               _ <- suspended ;;
               savedProfile <- Store.save doc ;;
               respond 201 (Saved "Profile saved successfully" key savedProfile)
           end)
          (fun err =>
             match code err with
             | Some 11000%N =>
                 respond 400 (Message "Profile key or username already exists.")
             | _ => respond 500 (MessageError "Server error" err)
             end)
  end.

(** GET /:profileKey *)
Definition get_profile (key : string) : M Response :=
  try_catch
    (profile <- Store.findOne key ;;
     match profile with
     | None => respond 404 (Message "Profile not found")
     | Some p => respond 200 (Document p)
     end)
    (fun error => respond 500 (MessageError "Error fetching profile" error)).

(** The source of the filter of the delete route. *)
Definition deletePattern (key : string) : string :=
  "^" ++ Js.replaceFirstHyphen key ++ "$".

(** DELETE /api/profiles/:profileKey *)
Definition delete_profile (key : string) : M Response :=
  try_catch
    (filter <- newRegExp (deletePattern key) "i" ;;
     profile <- Store.findOneAndDelete (fst filter) (snd filter) ;;
     match profile with
     | None => respond 404 (Message "Profile not found")
     | Some _ => respond 200 (Message "Profile deleted successfully")
     end)
    (fun err => respond 500 (MessageOf err)).

(** The source of the filter of the update route. *)
Definition updatePattern (key : string) : string := "^" ++ key ++ "$".

(** The document the update route hands to the store, from the request and
    the two image URLs. *)
Definition updateDocument (body : UpdateBody)
  (profileImageUrl headerImageUrl : option string)
  (parsedSocialLinks : JSON.json) : Profile :=
  {| username := update_username body;
     name := update_name body;
     jobTitle := update_jobTitle body;
     profileImage := profileImageUrl;
     headerImage := headerImageUrl;
     phone := update_phone body;
     email := update_email body;
     isVerified := update_isVerified body;
     isCompany := update_isCompany body;
     socialLinks := Some parsedSocialLinks |}.

(** [let parsedSocialLinks = {}; if (socialLinks) parsedSocialLinks =
    JSON.parse(socialLinks)] *)
Definition parseSocialLinks (socialLinks : option string) : M JSON.json :=
  match socialLinks with
  | Some text =>
      if Js.isEmpty text then ret (JSON.JObject [])
      else
        match JSON.parse text with
        | Some v => ret v
        | None => throw SyntaxError
        end
  | None => ret (JSON.JObject [])
  end.

(** PUT /api/update-profile/:profileKey. The parse of [socialLinks] stands
    before the [try]. *)
Definition update_profile (key : string) (body : UpdateBody) (files : Files)
  : M Response :=
  parsedSocialLinks <- parseSocialLinks (update_socialLinks body) ;;
  try_catch
    (profileImageUrl <-
       match files_profileImage files with
       | Some buffer => (url <- upload buffer ;; ret (Some url))
       | None => ret (update_profileImage body)
       end ;;
     headerImageUrl <-
       match files_headerImage files with
       | Some buffer => (url <- upload buffer ;; ret (Some url))
       | None => ret (update_headerImage body)
       end ;;
     filter <- newRegExp (updatePattern key) "i" ;;
     updatedProfile <-
       Store.findOneAndUpdate (fst filter) (snd filter)
         (updateDocument body profileImageUrl headerImageUrl parsedSocialLinks) ;;
     match updatedProfile with
     | None => respond 404 (Message "Profile not found")
     | Some p => respond 200 (Document p)
     end)
    (fun error => respond 500 (MessageError "Error updating profile" error)).

End Handlers.

(** ** The wording of the specification *)

Module Spec.

(** The maximal runs of a string: consecutive code units that are all white
    space or all not, each run with its kind. *)
Fixpoint runs (s : string) : list (bool * string) :=
  match s with
  | EmptyString => []
  | String c t =>
      match runs t with
      | (kind, run) :: more =>
          if Bool.eqb kind (Js.isWhiteSpace c)
          then (kind, String c run) :: more
          else (Js.isWhiteSpace c, String c EmptyString) :: (kind, run) :: more
      | [] => [(Js.isWhiteSpace c, String c EmptyString)]
      end
  end.

Definition hyphenIfSpace (r : bool * string) : string :=
  if fst r then "-" else snd r.

(** Every run of white space replaced by a single hyphen. *)
Definition hyphenateRuns (s : string) : string :=
  fold_right (fun r acc => (hyphenIfSpace r ++ acc)%string) EmptyString (runs s).

(** "lower-casing and replacing whitespace runs with hyphens" *)
Definition profileKey (username : string) : string :=
  hyphenateRuns (Js.toLowerCase username).

Fixpoint hasHyphen (s : string) : bool :=
  match s with
  | EmptyString => false
  | String c t => Ascii.eqb c "-" || hasHyphen t
  end.

(** [out] is [key] with its first hyphen, and no other, turned into a
    space. *)
Definition firstHyphenReplaced (key out : string) : Prop :=
  (exists pre post,
      key = (pre ++ "-" ++ post)%string /\ hasHyphen pre = false /\
      out = (pre ++ " " ++ post)%string) \/
  (hasHyphen key = false /\ out = key).

(** Equal up to letter case. *)
Definition equalIgnoringCase (a b : string) : Prop :=
  Js.toLowerCase a = Js.toLowerCase b.

End Spec.

(** ** Auxiliary notions *)

Definition startsWithSpace (s : string) : bool :=
  match s with
  | EmptyString => false
  | String c _ => Js.isWhiteSpace c
  end.

(** What the image host answers for the optional file of a create request
    when its upload would be call number [n]; the empty URL without a file. *)
Definition createImage (upload_stream : nat -> Buffer -> string + string)
  (n : nat) (file : option Buffer) : string + string :=
  match file with
  | Some buffer => upload_stream n buffer
  | None => inl EmptyString
  end.

(** The same for an update request, where the URL of the body is kept
    without a file. *)
Definition updateImage (upload_stream : nat -> Buffer -> string + string)
  (n : nat) (file : option Buffer) (kept : option string)
  : option string + string :=
  match file with
  | Some buffer =>
      match upload_stream n buffer with
      | inl url => inl (Some url)
      | inr message => inr message
      end
  | None => inl kept
  end.

Definition uploadCalls (file : option Buffer) : list Call :=
  match file with
  | Some buffer => [Upload buffer]
  | None => []
  end.

(** [docs] splits at the first document a filter selects. *)
Definition firstSelected (f : Profile -> bool) (docs before : list Profile)
  (p : Profile) (after : list Profile) : Prop :=
  docs = before ++ p :: after /\ f p = true /\
  Forall (fun q => f q = false) before.

Definition noneSelected (f : Profile -> bool) (docs : list Profile) : Prop :=
  Forall (fun q => f q = false) docs.

(** A key without a syntax character of the pattern grammar. *)
Fixpoint isPlain (s : string) : bool :=
  match s with
  | EmptyString => true
  | String c t => negb (RegExp.isSyntaxChar c) && isPlain t
  end.

(** The pattern that reads the code units of [s] one after the other and
    then [tail]. *)
Fixpoint literal (s : string) (tail : RegExp.regex) : RegExp.regex :=
  match s with
  | EmptyString => tail
  | String c t => RegExp.Cat (RegExp.Char c) (literal t tail)
  end.

(** What [^s$] parses to when [s] is plain. *)
Definition anchored (s : string) : RegExp.regex :=
  RegExp.Cat RegExp.Bol (literal s (RegExp.Cat RegExp.Eol RegExp.Empty)).

(** Code unit by code unit, equal up to [Canonicalize]. *)
Fixpoint canonicallyEqual (s : string) (input : list ascii) : bool :=
  match s, input with
  | EmptyString, [] => true
  | String c t, d :: rest =>
      Ascii.eqb (Js.canonicalize c) (Js.canonicalize d) && canonicallyEqual t rest
  | _, _ => false
  end.

Definition isSave (c : Call) : bool :=
  match c with Save _ => true | _ => false end.

(** Every code unit of a string passes a test. *)
Fixpoint allChars (f : ascii -> bool) (s : string) : bool :=
  match s with
  | EmptyString => true
  | String c t => f c && allChars f t
  end.

Definition notSpace (c : ascii) : bool := negb (Js.isWhiteSpace c).

Definition notLineTerminator (c : ascii) : bool := negb (Js.isLineTerminator c).

(** What [^.*$] parses to. *)
Definition anything : RegExp.regex :=
  RegExp.Cat RegExp.Bol
    (RegExp.Cat (RegExp.Star RegExp.Dot) (RegExp.Cat RegExp.Eol RegExp.Empty)).

(** The characters that make the pattern [^c...$] ill-formed when they come
    first in the key: a quantifier with nothing to repeat, a group that is
    never closed and a closing parenthesis without its group. *)
Definition breaksPattern (c : ascii) : bool :=
  existsb (Ascii.eqb c) ["*"; "+"; "?"; "("; ")"]%char.

(** No two documents of a collection hold the same [username]. *)
Definition uniqueUsernames (docs : list Profile) : Prop :=
  NoDup (map username docs).

(** ** Sample data *)

Module Sample.

Definition noFiles : Files :=
  {| files_profileImage := None; files_headerImage := None |}.

Definition photo : Buffer := [Byte.xff; Byte.xd8; Byte.xff].

Definition withPhoto : Files :=
  {| files_profileImage := Some photo; files_headerImage := None |}.

(** An image host that stores everything, and one that is down. *)
Definition host : nat -> Buffer -> string + string :=
  fun _ _ => inl "https://img.example/p.jpg".

Definition down : nat -> Buffer -> string + string :=
  fun _ _ => inr "upload failed".

(** No other request in flight. *)
Definition alone (docs : list Profile) : list Profile := docs.

Definition empty : World := {| db := []; trace := [] |}.

Definition jane : CreateBody :=
  {| create_username := Some "jane-doe";
     create_name := Some "Jane";
     create_jobTitle := Some "Eng";
     create_phone := None;
     create_email := None;
     create_isVerified := None;
     create_isCompany := None;
     create_socialLinks := None |}.

Definition janeDoc : Profile :=
  {| username := Some "jane-doe";
     name := Some "Jane";
     jobTitle := Some "Eng";
     profileImage := Some EmptyString;
     headerImage := Some EmptyString;
     phone := None;
     email := None;
     isVerified := Some false;
     isCompany := Some false;
     socialLinks := None |}.

(** The same request without the required [name]. *)
Definition nameless : CreateBody :=
  {| create_username := Some "jane-doe";
     create_name := None;
     create_jobTitle := Some "Eng";
     create_phone := None;
     create_email := None;
     create_isVerified := None;
     create_isCompany := None;
     create_socialLinks := None |}.

Definition short : CreateBody :=
  {| create_username := Some " ab ";
     create_name := Some "Ab";
     create_jobTitle := Some "Eng";
     create_phone := None;
     create_email := None;
     create_isVerified := None;
     create_isCompany := None;
     create_socialLinks := None |}.

Definition spaced : CreateBody :=
  {| create_username := Some "Jane  Van Doe";
     create_name := Some "Jane";
     create_jobTitle := Some "Eng";
     create_phone := None;
     create_email := None;
     create_isVerified := None;
     create_isCompany := None;
     create_socialLinks := None |}.

(** Jane with a phone number, and a profile stored under "john smith". *)
Definition janeWithPhone : Profile :=
  {| username := Some "jane-doe";
     name := Some "Jane";
     jobTitle := Some "Eng";
     profileImage := Some "https://img.example/old.jpg";
     headerImage := Some EmptyString;
     phone := Some "555-0100";
     email := Some "jane@example.org";
     isVerified := Some false;
     isCompany := Some false;
     socialLinks := None |}.

Definition john : Profile :=
  {| username := Some "john smith";
     name := Some "John";
     jobTitle := Some "Ops";
     profileImage := Some EmptyString;
     headerImage := Some EmptyString;
     phone := None;
     email := None;
     isVerified := Some false;
     isCompany := Some false;
     socialLinks := None |}.

Definition stocked : World := {| db := [john; janeWithPhone]; trace := [] |}.

(** An update of Jane that supplies every field but [socialLinks] and keeps
    her image URLs. *)
Definition edit : UpdateBody :=
  {| update_username := Some "jane-doe";
     update_name := Some "Jane D.";
     update_jobTitle := Some "CTO";
     update_phone := Some "555-0199";
     update_email := Some "jane@example.org";
     update_isVerified := Some true;
     update_isCompany := Some false;
     update_socialLinks := None;
     update_profileImage := Some "https://img.example/old.jpg";
     update_headerImage := Some EmptyString |}.

(** The update document of that request, which is also what Jane's profile
    becomes, every field being there. *)
Definition edited : Profile :=
  {| username := Some "jane-doe";
     name := Some "Jane D.";
     jobTitle := Some "CTO";
     profileImage := Some "https://img.example/old.jpg";
     headerImage := Some EmptyString;
     phone := Some "555-0199";
     email := Some "jane@example.org";
     isVerified := Some true;
     isCompany := Some false;
     socialLinks := Some (JSON.JObject []) |}.

(** An update of Jane that leaves out [phone], [email], [isCompany] and the
    header image, with two links of which the schema declares one. *)
Definition partial : UpdateBody :=
  {| update_username := Some "jane-doe";
     update_name := Some "Jane D.";
     update_jobTitle := Some "CTO";
     update_phone := None;
     update_email := None;
     update_isVerified := Some true;
     update_isCompany := None;
     update_socialLinks :=
       Some (JSON.text "{'website':'https://jane.example','blog':'none'}");
     update_profileImage := Some "https://img.example/old.jpg";
     update_headerImage := None |}.

Definition partialLinks : JSON.json :=
  JSON.JObject
    [(JSON.units "website", JSON.JString (JSON.units "https://jane.example"));
     (JSON.units "blog", JSON.JString (JSON.units "none"))].

(** The update document of that request. *)
Definition partialUpdate : Profile :=
  {| username := Some "jane-doe";
     name := Some "Jane D.";
     jobTitle := Some "CTO";
     profileImage := Some "https://img.example/old.jpg";
     headerImage := None;
     phone := None;
     email := None;
     isVerified := Some true;
     isCompany := None;
     socialLinks := Some partialLinks |}.

(** Jane's profile after that update. *)
Definition merged : Profile :=
  {| username := Some "jane-doe";
     name := Some "Jane D.";
     jobTitle := Some "CTO";
     profileImage := Some "https://img.example/old.jpg";
     headerImage := Some EmptyString;
     phone := Some "555-0100";
     email := Some "jane@example.org";
     isVerified := Some true;
     isCompany := Some false;
     socialLinks :=
       Some (JSON.JObject
               [(JSON.units "website",
                 JSON.JString (JSON.units "https://jane.example"))]) |}.

(** An update that supplies a job title and nothing else. *)
Definition retire : UpdateBody :=
  {| update_username := None;
     update_name := None;
     update_jobTitle := Some "Retired";
     update_phone := None;
     update_email := None;
     update_isVerified := None;
     update_isCompany := None;
     update_socialLinks := None;
     update_profileImage := None;
     update_headerImage := None |}.

(** The same update with a [socialLinks] text that is cut off. *)
Definition broken : UpdateBody :=
  {| update_username := Some "jane-doe";
     update_name := Some "Jane D.";
     update_jobTitle := Some "CTO";
     update_phone := Some "555-0199";
     update_email := Some "jane@example.org";
     update_isVerified := Some true;
     update_isCompany := Some false;
     update_socialLinks := Some "{";
     update_profileImage := Some "https://img.example/old.jpg";
     update_headerImage := Some EmptyString |}.

(** And with an empty [socialLinks] text. *)
Definition blank : UpdateBody :=
  {| update_username := Some "jane-doe";
     update_name := Some "Jane D.";
     update_jobTitle := Some "CTO";
     update_phone := Some "555-0199";
     update_email := Some "jane@example.org";
     update_isVerified := Some true;
     update_isCompany := Some false;
     update_socialLinks := Some EmptyString;
     update_profileImage := Some "https://img.example/old.jpg";
     update_headerImage := Some EmptyString |}.

(** A store that holds Jane already. *)
Definition withJane : World := {| db := [janeDoc]; trace := [] |}.

(** Another request that inserts Jane while this one is suspended. *)
Definition racing (docs : list Profile) : list Profile := docs ++ [janeDoc].

End Sample.

(** * Properties *)

Unset Implicit Arguments.

(** ** The runtime on examples *)

Example trim_examples :
  map Js.trim ["  ab "; "a b"; "   "; "ab"] = ["ab"; "a b"; EmptyString; "ab"].
Proof. reflexivity. Qed.

Example toLowerCase_example : Js.toLowerCase "John SMITH-Jr 3" = "john smith-jr 3".
Proof. reflexivity. Qed.

Example profileKey_examples :
  map profileKey ["Jane Doe"; "jane-doe"; " Jane   Van  Doe "; "JANE"] =
  ["jane-doe"; "jane-doe"; "-jane-van-doe-"; "jane"].
Proof. reflexivity. Qed.

Example replaceFirstHyphen_examples :
  map Js.replaceFirstHyphen ["john-smith"; "john-smith-jr"; "john"; "-a-"] =
  ["john smith"; "john smith-jr"; "john"; " a-"].
Proof. reflexivity. Qed.

(** Literal patterns, the dot, quantifiers and the reach of the anchors
    under an alternation. *)
Example testPattern_examples :
  map (fun ps => RegExp.testPattern (fst ps) "i" (snd ps))
    [("^john smith$", "John Smith"); ("^john smith$", "john smiths");
     ("^j.hn$", "john"); ("^a+b$", "a+b"); ("^a+b$", "AAB");
     ("^a|b$", "xxb"); ("^a|b$", "xax"); ("^(ab)*c?$", "ababab");
     ("^a\.b$", "a.b"); ("^a\.b$", "axb"); ("^$", EmptyString)] =
  [Some true; Some false; Some true; Some false; Some true;
   Some true; Some false; Some true; Some true; Some false; Some true].
Proof. vm_compute. reflexivity. Qed.

(** Patterns the constructor throws on: an open group, a closing
    parenthesis without its group, and a quantifier with nothing to
    repeat. *)
Example construct_syntax_errors :
  map (fun p => fst (RegExp.construct p "i")) ["^($"; "^)$"; "^*a$"; "^a**$"] =
  [RegExp.SyntaxError; RegExp.SyntaxError; RegExp.SyntaxError;
   RegExp.SyntaxError].
Proof. reflexivity. Qed.

Example parse_socialLinks_example :
  JSON.parse (JSON.text "{ 'website': 'https://x.org', 'maps': null }") =
  Some (JSON.JObject
          [([119; 101; 98; 115; 105; 116; 101]%N,
            JSON.JString [104; 116; 116; 112; 115; 58; 47; 47; 120; 46; 111;
                          114; 103]%N);
           ([109; 97; 112; 115]%N, JSON.JNull)]).
Proof. reflexivity. Qed.

Example parse_accepts :
  forallb (fun t => match JSON.parse (JSON.text t) with
                    | Some _ => true
                    | None => false
                    end)
    ["{}"; "[]"; " 1 "; "-0.5e+3"; "null"; "[[[]]]"; "{'a':{'b':[true,false]}}";
     "'aé\n'"; "{'a':1,'a':2}"] = true.
Proof. reflexivity. Qed.

Example parse_rejects :
  forallb (fun t => match JSON.parse (JSON.text t) with
                    | Some _ => false
                    | None => true
                    end)
    [EmptyString; "{"; "}"; "[1,]"; "[1 2]"; "{'a':1,}"; "{a:1}"; "'abc";
     "'a\qb'"; "nul"; "01"; "1."; "+1"; ".5"; "1 2"; "[1]]"; "{'a'}";
     "undefined"; "'\u12G4'"] = true.
Proof. reflexivity. Qed.

(** A name that comes twice keeps its first place and takes its last
    value. *)
Example parse_repeated_name :
  JSON.parse (JSON.text "{'a':'x','b':'y','a':'z'}") =
  Some (JSON.JObject
          [(JSON.units "a", JSON.JString (JSON.units "z"));
           (JSON.units "b", JSON.JString (JSON.units "y"))]).
Proof. reflexivity. Qed.

(** The cast of [socialLinks]: the declared links of an object of strings;
    not modelled for a number under a name or for a value that is no
    object. *)
Example castLinks_examples :
  map Store.castLinks
    [Sample.partialLinks; JSON.JObject [];
     JSON.JObject [(JSON.units "maps", JSON.JNumber "1")]; JSON.JArray [];
     JSON.JNull] =
  [Some (JSON.JObject
           [(JSON.units "website",
             JSON.JString (JSON.units "https://jane.example"))]);
   Some (JSON.JObject []); None; None; None].
Proof. reflexivity. Qed.

(** ** Code units and strings *)

Lemma lowerChar_canonicalize (c : ascii) :
  Js.lowerChar (Js.canonicalize c) = Js.lowerChar c.
Proof. destruct c as [[] [] [] [] [] [] [] []]; reflexivity. Qed.

Lemma canonicalize_lowerChar (c : ascii) :
  Js.canonicalize (Js.lowerChar c) = Js.canonicalize c.
Proof. destruct c as [[] [] [] [] [] [] [] []]; reflexivity. Qed.

Lemma canonicalize_eq_lowerChar (a b : ascii) :
  Js.canonicalize a = Js.canonicalize b <-> Js.lowerChar a = Js.lowerChar b.
Proof.
  split; intros H.
  - rewrite <- (lowerChar_canonicalize a), H. apply lowerChar_canonicalize.
  - rewrite <- (canonicalize_lowerChar a), H. apply canonicalize_lowerChar.
Qed.

Lemma runs_head (s : string) kind run more :
  Spec.runs s = (kind, run) :: more -> kind = startsWithSpace s.
Proof.
  destruct s as [| c t]; simpl; [discriminate |].
  destruct (Spec.runs t) as [| [k r] rest].
  - intros [= <- _ _]. reflexivity.
  - destruct (Bool.eqb k (Js.isWhiteSpace c)) eqn:E.
    + intros [= <- _ _]. now apply eqb_prop.
    + intros [= <- _ _]. reflexivity.
Qed.

Lemma runs_nil (s : string) : Spec.runs s = [] -> s = EmptyString.
Proof.
  destruct s as [| c t]; simpl; [reflexivity |].
  destruct (Spec.runs t) as [| [k r] rest]; [discriminate |].
  destruct (Bool.eqb k (Js.isWhiteSpace c)); discriminate.
Qed.

Lemma replaceRuns_inRun (s : string) :
  (if startsWithSpace s
   then String "-" (Js.replaceRuns true s)
   else Js.replaceRuns true s) = Js.replaceRuns false s.
Proof.
  destruct s as [| c t]; simpl; [reflexivity |].
  destruct (Js.isWhiteSpace c); reflexivity.
Qed.

(** The scan of [replace(/\s+/g, "-")] replaces every maximal run of white
    space by one hyphen. *)
Lemma replaceWhitespaceRuns_hyphenateRuns (s : string) :
  Js.replaceWhitespaceRuns s = Spec.hyphenateRuns s.
Proof.
  unfold Js.replaceWhitespaceRuns, Spec.hyphenateRuns.
  induction s as [| c t IH]; [reflexivity |].
  pose proof (replaceRuns_inRun t) as Hin.
  pose proof (@runs_head t) as Hhead.
  pose proof (@runs_nil t) as Hnil.
  simpl. destruct (Spec.runs t) as [| [k r] rest].
  - rewrite (Hnil eq_refl). simpl.
    destruct (Js.isWhiteSpace c); reflexivity.
  - specialize (Hhead k r rest eq_refl). subst k.
    destruct (Js.isWhiteSpace c) eqn:Hc, (startsWithSpace t) eqn:Ht;
      unfold Spec.hyphenIfSpace in *; simpl in *; congruence.
Qed.

Lemma profileKey_spec (u : string) : profileKey u = Spec.profileKey u.
Proof. apply replaceWhitespaceRuns_hyphenateRuns. Qed.

(** ** The matcher *)

Section Matcher.

Variable ignoreCase : bool.
Variable input : list ascii.

Let Matches := RegExp.Matches ignoreCase input.
Let ends := RegExp.ends ignoreCase input.

(** A match ends where it starts or further on, inside the input. *)
Lemma Matches_bounds r i j :
  Matches r i j -> i <= j /\ (j = i \/ j <= List.length input).
Proof.
  induction 1; try (split; lia).
  - assert (i < List.length input) by (apply nth_error_Some; congruence). lia.
  - assert (i < List.length input) by (apply nth_error_Some; congruence). lia.
Qed.

(** Every position [iterate] reaches is reached from its frontier by
    repeated steps. *)
Lemma iterate_sound (a : RegExp.regex) :
  (forall i j, In j (ends a i) -> Matches a i j) ->
  forall fuel frontier k,
    In k (RegExp.iterate (ends a) fuel frontier) ->
    exists i, In i frontier /\ Matches (RegExp.Star a) i k.
Proof.
  intros Ha. induction fuel as [| n IH]; intros frontier k Hk; cbn in Hk.
  - exists k. split; [exact Hk | constructor].
  - apply in_app_or in Hk. destruct Hk as [Hk | Hk].
    + exists k. split; [exact Hk | constructor].
    + apply IH in Hk. destruct Hk as (j & Hj & Hjk).
      apply in_flat_map in Hj. destruct Hj as (i & Hi & Hj).
      apply filter_In in Hj. destruct Hj as [Hj _].
      exists i. split; [exact Hi |].
      apply RegExp.MatchStarStep with (j := j); [now apply Ha | exact Hjk].
Qed.

(** With one unit of fuel for every code unit that is left, [iterate]
    reaches the end of every match of the star. *)
Lemma iterate_complete (a : RegExp.regex) :
  (forall i j, Matches a i j -> In j (ends a i)) ->
  forall r i k,
    Matches r i k -> r = RegExp.Star a ->
    forall fuel frontier,
      In i frontier ->
      List.length input - i <= fuel ->
      In k (RegExp.iterate (ends a) fuel frontier).
Proof.
  intros Ha r i k H.
  induction H as [| | | | | | | | b i | b i j k Hstep _ Hrest IH];
    intros Hr fuel frontier Hi Hfuel; try discriminate.
  - destruct fuel; cbn; [exact Hi | apply in_or_app; left; exact Hi].
  - injection Hr as ->.
    destruct (Matches_bounds _ _ _ Hstep) as [Hij Hj].
    destruct (Nat.eq_dec i j) as [<- | Hneq].
    + now apply IH.
    + destruct fuel as [| n]; [lia |]. cbn. apply in_or_app. right.
      apply IH; [reflexivity | | lia].
      apply in_flat_map. exists i. split; [exact Hi |].
      apply filter_In. split; [now apply Ha |].
      apply Nat.ltb_lt. lia.
Qed.

(** The matcher computes the matches of a pattern, no more and no less. *)
Lemma ends_Matches (r : RegExp.regex) :
  forall i j, In j (ends r i) <-> Matches r i j.
Proof.
  unfold ends, Matches.
  induction r as [| c | | | | a IHa b IHb | a IHa b IHb | a IHa];
    intros i j; cbn [RegExp.ends].
  - split.
    + intros [<- | []]. constructor.
    + inversion 1. now left.
  - split.
    + destruct (nth_error input i) as [d |] eqn:Hd; [| intros []].
      destruct (RegExp.sameChar ignoreCase c d) eqn:Hc; [| intros []].
      intros [<- | []]. now apply RegExp.MatchChar with (d := d).
    + inversion 1 as [| c' d i' Hd Hc | | | | | | | |]; subst.
      rewrite Hd, Hc. now left.
  - split.
    + destruct (nth_error input i) as [d |] eqn:Hd; [| intros []].
      destruct (Js.isLineTerminator d) eqn:Hc; [intros [] |].
      intros [<- | []]. now apply RegExp.MatchDot with (d := d).
    + inversion 1 as [| | d i' Hd Hc | | | | | | |]; subst.
      rewrite Hd, Hc. now left.
  - split.
    + destruct (Nat.eqb_spec i 0) as [-> |]; [| intros []].
      intros [<- | []]. constructor.
    + inversion 1. now left.
  - split.
    + destruct (Nat.eqb_spec i (List.length input)) as [-> |]; [| intros []].
      intros [<- | []]. constructor.
    + inversion 1. rewrite Nat.eqb_refl. now left.
  - split.
    + intros H. apply in_flat_map in H. destruct H as (m & Hm & Hj).
      apply RegExp.MatchCat with (j := m); [now apply IHa | now apply IHb].
    + inversion 1 as [| | | | | a' b' i' m k Hm Hj | | | |]; subst.
      apply in_flat_map. exists m. split; [now apply IHa | now apply IHb].
  - split.
    + intros H. apply in_app_or in H. destruct H as [H | H].
      * apply RegExp.MatchAltLeft. now apply IHa.
      * apply RegExp.MatchAltRight. now apply IHb.
    + inversion 1; subst; apply in_or_app; [left | right];
        [now apply IHa | now apply IHb].
  - split.
    + intros H.
      apply (iterate_sound a (fun i0 j0 => proj1 (IHa i0 j0))) in H.
      destruct H as (i' & [<- | []] & H). exact H.
    + intros H.
      apply (iterate_complete a (fun i0 j0 => proj2 (IHa i0 j0))
               (RegExp.Star a) i j H eq_refl); [now left | lia].
Qed.

End Matcher.

(** ** Plain patterns *)

Lemma isSyntaxChar_false (c : ascii) :
  RegExp.isSyntaxChar c = false ->
  Ascii.eqb c "\" = false /\ Ascii.eqb c "(" = false /\
  RegExp.tokenOf c = Some (RegExp.TChar c).
Proof.
  intros H. unfold RegExp.tokenOf. rewrite H.
  unfold RegExp.isSyntaxChar in H. simpl in H.
  repeat match type of H with
         | (_ || _)%bool = false =>
             apply orb_false_elim in H; destruct H as [? H]
         end.
  repeat match goal with
         | E : Ascii.eqb c _ = false |- _ => rewrite E; clear E
         end.
  auto.
Qed.

Lemma lex_plain (s rest : string) (ts : list RegExp.token) :
  isPlain s = true ->
  RegExp.lex rest = Some ts ->
  RegExp.lex (s ++ rest) =
  Some (map RegExp.TChar (list_ascii_of_string s) ++ ts).
Proof.
  intros Hs Hrest. induction s as [| c t IH]; [exact Hrest |].
  simpl in Hs. apply andb_prop in Hs. destruct Hs as [Hc Ht].
  apply negb_true_iff in Hc.
  destruct (isSyntaxChar_false c Hc) as (E1 & E2 & E3).
  simpl. rewrite E1, E2, E3, (IH Ht). reflexivity.
Qed.

Lemma parse_chars (cs : list ascii) :
  forall (rest : list RegExp.token) (f : RegExp.frame) stack,
    cs <> [] ->
    RegExp.parse (map RegExp.TChar cs ++ rest) f stack =
    RegExp.parse rest
      (RegExp.Frame (RegExp.alts f)
         (rev (map RegExp.Char cs) ++ RegExp.terms f) RegExp.Atom) stack.
Proof.
  induction cs as [| c t IH]; intros rest f stack Hne; [congruence |].
  destruct t as [| d t'].
  - reflexivity.
  - change (map RegExp.TChar (c :: d :: t') ++ rest)
      with (RegExp.TChar c :: (map RegExp.TChar (d :: t') ++ rest)).
    cbn [RegExp.parse]. rewrite IH by discriminate.
    cbn [RegExp.pushTerm RegExp.alts RegExp.terms].
    f_equal. f_equal.
    change (map RegExp.Char (c :: d :: t'))
      with (RegExp.Char c :: map RegExp.Char (d :: t')).
    cbn [rev]. rewrite <- app_assoc. reflexivity.
Qed.

Lemma seqOf_literal (s : string) (before : list RegExp.regex) (acc : RegExp.regex) :
  fold_left (fun a t => RegExp.Cat t a)
    (rev (map RegExp.Char (list_ascii_of_string s)) ++ before) acc =
  fold_left (fun a t => RegExp.Cat t a) before (literal s acc).
Proof.
  revert acc before. induction s as [| c t IH]; intros acc before.
  - reflexivity.
  - simpl. rewrite <- app_assoc. rewrite IH. reflexivity.
Qed.

(** A plain key between [^] and [$] is a valid pattern: the code units of
    the key in a row, anchored at both ends. *)
Lemma construct_plain (s : string) :
  isPlain s = true ->
  RegExp.construct ("^" ++ s ++ "$") "i" = (RegExp.Pattern (anchored s), true).
Proof.
  intros Hs. unfold RegExp.construct.
  change (String.eqb "i" "i") with true. cbn [orb].
  change ("^" ++ s ++ "$")%string with (String "^" (s ++ "$")).
  cbn [RegExp.lex]. change (Ascii.eqb "^" "\") with false.
  change (Ascii.eqb "^" "(") with false. cbn iota.
  change (RegExp.tokenOf "^") with (Some RegExp.TBol).
  rewrite (@lex_plain s "$" [RegExp.TEol] Hs eq_refl).
  cbn [option_map RegExp.parse]. f_equal. unfold anchored.
  destruct (list_ascii_of_string s) as [| c cs] eqn:E.
  - destruct s; [reflexivity | discriminate].
  - rewrite parse_chars by discriminate.
    cbn [RegExp.parse].
    unfold RegExp.closeFrame, RegExp.disjOf, RegExp.seqOf, RegExp.pushTerm.
    cbn [RegExp.alts RegExp.terms RegExp.emptyFrame fold_left].
    rewrite <- E, seqOf_literal. reflexivity.
Qed.

Lemma ends_literal (s : string) :
  forall (pre suf : list ascii),
    RegExp.ends true (pre ++ suf)
      (literal s (RegExp.Cat RegExp.Eol RegExp.Empty)) (List.length pre) =
    if canonicallyEqual s suf then [List.length (pre ++ suf)] else [].
Proof.
  induction s as [| c t IH]; intros pre suf.
  - cbn [literal RegExp.ends canonicallyEqual]. rewrite length_app.
    destruct suf as [| d rest]; cbn [List.length].
    + rewrite Nat.add_0_r, Nat.eqb_refl. reflexivity.
    + destruct (Nat.eqb_spec (List.length pre)
                  (List.length pre + S (List.length rest))); [lia | reflexivity].
  - cbn [literal RegExp.ends canonicallyEqual].
    destruct suf as [| d rest].
    + rewrite app_nil_r.
      rewrite (proj2 (nth_error_None pre (List.length pre)) (Nat.le_refl _)).
      reflexivity.
    + rewrite nth_error_app2 by lia. rewrite Nat.sub_diag. cbn [nth_error].
      unfold RegExp.sameChar.
      destruct (Ascii.eqb (Js.canonicalize c) (Js.canonicalize d)); cbn [andb].
      * cbn [flat_map]. rewrite app_nil_r.
        specialize (IH (pre ++ [d]) rest).
        rewrite length_app in IH. cbn [List.length] in IH.
        rewrite Nat.add_1_r, <- app_assoc in IH. exact IH.
      * reflexivity.
Qed.

Lemma existsb_seq_false (f : nat -> bool) (start len : nat) :
  (forall i, start <= i -> f i = false) -> existsb f (seq start len) = false.
Proof.
  revert start. induction len as [| n IH]; intros start H; [reflexivity |].
  cbn [seq existsb]. rewrite (H start) by lia. apply IH.
  intros i Hi. apply H. lia.
Qed.

(** The anchored literal accepts exactly the inputs that are equal to it up
    to [Canonicalize]. *)
Lemma test_anchored (s u : string) :
  RegExp.test (anchored s) true u = canonicallyEqual s (list_ascii_of_string u).
Proof.
  unfold RegExp.test, RegExp.search. cbn [seq existsb].
  rewrite existsb_seq_false.
  - rewrite orb_false_r. unfold RegExp.matchesAt, anchored.
    cbn [RegExp.ends Nat.eqb flat_map]. rewrite app_nil_r.
    pose proof (ends_literal s [] (list_ascii_of_string u)) as H.
    cbn [app List.length] in H. rewrite H.
    destruct (canonicallyEqual s (list_ascii_of_string u)); reflexivity.
  - intros i Hi. unfold RegExp.matchesAt, anchored. cbn [RegExp.ends].
    destruct i; [lia | reflexivity].
Qed.

Lemma canonicallyEqual_spec (s u : string) :
  canonicallyEqual s (list_ascii_of_string u) = true <->
  Spec.equalIgnoringCase s u.
Proof.
  unfold Spec.equalIgnoringCase. revert u.
  induction s as [| c t IH]; intros [| d u']; cbn; try (split; congruence).
  rewrite andb_true_iff, Ascii.eqb_eq, IH, canonicalize_eq_lowerChar.
  split; [intros [-> ->]; reflexivity | intros [= -> ->]; auto].
Qed.

(** For a plain key the filter [^key$] with the flag [i] selects the
    strings equal to the key up to letter case. *)
Lemma test_plain (s u : string) :
  RegExp.test (anchored s) true u = true <-> Spec.equalIgnoringCase s u.
Proof. rewrite test_anchored. apply canonicallyEqual_spec. Qed.

(** ** The store *)

Lemma find_selected f docs before p after :
  firstSelected f docs before p after -> find f docs = Some p.
Proof.
  intros (-> & Hp & Hb). induction Hb as [| q before Hq _ IH]; cbn.
  - now rewrite Hp.
  - now rewrite Hq.
Qed.

Lemma find_noneSelected f docs : noneSelected f docs -> find f docs = None.
Proof.
  intros H. induction H as [| q rest Hq _ IH]; cbn; [reflexivity |].
  now rewrite Hq.
Qed.

Lemma find_app_last (f : Profile -> bool) docs p :
  find f docs = None -> f p = true -> find f (docs ++ [p]) = Some p.
Proof.
  intros Hnone Hp. induction docs as [| q rest IH]; cbn in *.
  - now rewrite Hp.
  - destruct (f q); [discriminate | auto].
Qed.

Lemma selected_or_none (f : Profile -> bool) docs :
  (exists before p after, firstSelected f docs before p after) \/
  noneSelected f docs.
Proof.
  induction docs as [| q rest IH].
  - right. constructor.
  - destruct (f q) eqn:Hq.
    + left. exists [], q, rest. repeat split; auto.
    + destruct IH as [(before & p & after & -> & Hp & Hb) | Hnone].
      * left. exists (q :: before), p, after. repeat split; auto.
      * right. constructor; assumption.
Qed.

Lemma removeFirst_selected f docs before p after :
  firstSelected f docs before p after ->
  Store.removeFirst f docs = (Some p, before ++ after).
Proof.
  intros (-> & Hp & Hb). induction Hb as [| q before Hq _ IH]; cbn.
  - now rewrite Hp.
  - now rewrite Hq, IH.
Qed.

Lemma removeFirst_none f docs :
  noneSelected f docs -> Store.removeFirst f docs = (None, docs).
Proof.
  intros H. induction H as [| q rest Hq _ IH]; cbn; [reflexivity |].
  now rewrite Hq, IH.
Qed.

Lemma replaceFirst_selected f update docs before p after :
  firstSelected f docs before p after ->
  forall acc,
    Store.replaceFirst f update acc docs =
    if Store.taken (username (Store.set update p)) (acc ++ before ++ after)
    then (Exn DuplicateKey, docs)
    else (Val (Some (Store.set update p)),
          before ++ Store.set update p :: after).
Proof.
  intros (-> & Hp & Hb).
  induction Hb as [| q before Hq _ IH]; intros acc; cbn -[Store.set].
  - now rewrite Hp.
  - rewrite Hq, IH, <- app_assoc. cbn -[Store.set].
    destruct (Store.taken _ (acc ++ q :: before ++ after)); reflexivity.
Qed.

Lemma castUpdate_document (body : UpdateBody)
  (profileImageUrl headerImageUrl : option string) (links cast : JSON.json) :
  Store.castLinks links = Some cast ->
  Store.castUpdate (updateDocument body profileImageUrl headerImageUrl links) =
  Some (updateDocument body profileImageUrl headerImageUrl cast).
Proof.
  intros H. unfold Store.castUpdate, updateDocument. cbn [socialLinks].
  now rewrite H.
Qed.

Lemma castUpdate_cases (body : UpdateBody)
  (profileImageUrl headerImageUrl : option string) (links : JSON.json) :
  (exists cast,
      Store.castLinks links = Some cast /\
      Store.castUpdate (updateDocument body profileImageUrl headerImageUrl links) =
      Some (updateDocument body profileImageUrl headerImageUrl cast)) \/
  Store.castUpdate (updateDocument body profileImageUrl headerImageUrl links) =
  None.
Proof.
  destruct (Store.castLinks links) as [cast |] eqn:H.
  - left. exists cast. split; [reflexivity |]. now apply castUpdate_document.
  - right. unfold Store.castUpdate, updateDocument. cbn [socialLinks].
    now rewrite H.
Qed.

Lemma set_idempotent (update stored : Profile) :
  Store.set update (Store.set update stored) = Store.set update stored.
Proof.
  unfold Store.set. cbn.
  destruct update as [a b c d e f g h i j].
  destruct a, b, c, d, e, f, g, h, i, j; reflexivity.
Qed.

Lemma replaceFirst_none f update docs :
  noneSelected f docs ->
  forall acc, Store.replaceFirst f update acc docs = (Val None, docs).
Proof.
  intros H. induction H as [| q rest Hq _ IH]; intros acc; cbn; [reflexivity |].
  now rewrite Hq, IH.
Qed.

Lemma taken_stored (u : string) docs p :
  In p docs -> username p = Some u -> Store.taken (Some u) docs = true.
Proof.
  intros Hin Hu. apply existsb_exists. exists p. split; [assumption |].
  rewrite Hu. cbn. apply String.eqb_refl.
Qed.

Lemma find_stored (u : string) docs p :
  In p docs -> username p = Some u ->
  exists q, find (Store.hasUsername u) docs = Some q.
Proof.
  intros Hin Hu. destruct (find (Store.hasUsername u) docs) as [q |] eqn:E.
  - now exists q.
  - pose proof (List.find_none _ _ E p Hin) as Hp.
    unfold Store.hasUsername in Hp. rewrite Hu, String.eqb_refl in Hp.
    discriminate Hp.
Qed.

(** ** The create route *)

Section Create.

Variable upload_stream : nat -> Buffer -> string + string.
Variable others : list Profile -> list Profile.

Lemma create_rejected body files w :
  usernameRejected (create_username body) = true ->
  save_profile upload_stream others body files w =
  (Val {| status := 400;
          json := Message "Username must be at least 3 characters long." |}, w).
Proof.
  intros H. unfold save_profile.
  destruct (create_username body) as [u |]; [| reflexivity].
  rewrite H. reflexivity.
Qed.

Lemma create_taken body files w u p :
  create_username body = Some u ->
  usernameRejected (Some u) = false ->
  find (Store.hasUsername u) (db w) = Some p ->
  save_profile upload_stream others body files w =
  (Val {| status := 400; json := Message "Username is already taken." |},
   record (FindOne u) w).
Proof.
  intros Hu Hok Hfind. unfold save_profile. rewrite Hu, Hok.
  unfold try_catch, bind, Store.findOne. rewrite Hfind. reflexivity.
Qed.

(** The run of the create route once the pre-check has passed: both
    uploads, then the insert into the store as the other requests left it. *)
Lemma create_after_precheck body files w u :
  create_username body = Some u ->
  usernameRejected (Some u) = false ->
  find (Store.hasUsername u) (db w) = None ->
  let n := List.length (trace w) + 1 in
  let first := files_profileImage files in
  let second := files_headerImage files in
  save_profile upload_stream others body files w =
  match createImage upload_stream n first with
  | inr message =>
      (Val {| status := 500;
              json := MessageError "Server error" (UploadError message) |},
       {| db := db w; trace := trace w ++ [FindOne u] ++ uploadCalls first |})
  | inl profileImageUrl =>
      match createImage upload_stream (n + List.length (uploadCalls first)) second with
      | inr message =>
          (Val {| status := 500;
                  json := MessageError "Server error" (UploadError message) |},
           {| db := db w;
              trace := trace w ++ [FindOne u] ++ uploadCalls first
                       ++ uploadCalls second |})
      | inl headerImageUrl =>
          let doc := createDocument u body profileImageUrl headerImageUrl in
          let calls := trace w ++ [FindOne u] ++ uploadCalls first
                       ++ uploadCalls second ++ [Save doc] in
          match Store.missingPaths doc with
          | _ :: _ =>
              (Val {| status := 500;
                      json := MessageError "Server error" (ValidationError
                                (Store.missingPaths doc)) |},
               {| db := others (db w); trace := calls |})
          | [] =>
              if Store.taken (Some u) (others (db w))
              then (Val {| status := 400;
                           json := Message
                             "Profile key or username already exists." |},
                    {| db := others (db w); trace := calls |})
              else (Val {| status := 201;
                           json := Saved "Profile saved successfully"
                                     (profileKey u) doc |},
                    {| db := others (db w) ++ [doc]; trace := calls |})
          end
      end
  end.
Proof.
  intros Hu Hok Hfind n first second. unfold save_profile. rewrite Hu, Hok.
  subst n first second.
  unfold try_catch, bind, Store.findOne, upload, suspended, Store.save,
    respond, ret, record.
  rewrite Hfind.
  destruct (files_profileImage files) as [b1 |],
           (files_headerImage files) as [b2 |];
    cbn -[createDocument Store.missingPaths Store.taken profileKey Nat.add];
    rewrite ?length_app;
    cbn -[createDocument Store.missingPaths Store.taken profileKey Nat.add];
    rewrite ?Nat.add_0_r.
  all: repeat match goal with
       | |- context [upload_stream ?n ?b] =>
           destruct (upload_stream n b) eqn:?;
           cbn -[createDocument Store.missingPaths Store.taken profileKey
                 Nat.add];
           rewrite ?length_app;
           cbn -[createDocument Store.missingPaths Store.taken profileKey
                 Nat.add]
       end.
  all: rewrite <- ?app_assoc;
    cbn -[createDocument Store.missingPaths Store.taken profileKey Nat.add].
  all: try reflexivity.
  all: change (username (createDocument u body _ _)) with (Some u).
  all: match goal with
       | |- context [Store.missingPaths ?d] =>
           destruct (Store.missingPaths d) eqn:?
       end.
  all: try reflexivity.
  all: match goal with
       | |- context [Store.taken ?a ?b] => destruct (Store.taken a b) eqn:?
       end.
  all: reflexivity.
Qed.

End Create.

(** ** Claims on the create route *)

(** C3: a create request whose [username] is missing, or shorter than three
    code units once trimmed, is answered with the validation error (400),
    and the run ends in the world it started in: not one upload and not one
    repository call has been made. *)
Theorem create_short_username_rejected
  (upload_stream : nat -> Buffer -> string + string)
  (others : list Profile -> list Profile)
  (body : CreateBody) (files : Files) (w : World) :
  (create_username body = None \/
   exists u, create_username body = Some u /\ String.length (Js.trim u) < 3) ->
  save_profile upload_stream others body files w =
  (Val {| status := 400;
          json := Message "Username must be at least 3 characters long." |}, w).
Proof.
  intros H. apply create_rejected.
  destruct H as [-> | (u & -> & Hlen)]; [reflexivity |].
  unfold usernameRejected. apply orb_true_iff. right.
  now apply Nat.ltb_lt.
Qed.

Lemma create_short_username_rejected_witness :
  (create_username Sample.short = None \/
   exists u, create_username Sample.short = Some u /\
             String.length (Js.trim u) < 3) /\
  save_profile Sample.host Sample.alone Sample.short Sample.withPhoto
    Sample.withJane =
  (Val {| status := 400;
          json := Message "Username must be at least 3 characters long." |},
   Sample.withJane).
Proof.
  assert (H : create_username Sample.short = None \/
              exists u, create_username Sample.short = Some u /\
                        String.length (Js.trim u) < 3).
  { right. exists " ab ". split; [reflexivity | cbn; lia]. }
  split; [exact H |].
  exact (create_short_username_rejected Sample.host Sample.alone Sample.short
           Sample.withPhoto Sample.withJane H).
Defined.

(** C4: a create request whose [username] is that of a stored profile is
    answered 400 without any upload and with the store as it was; when the
    name passes validation the answer is the conflict of the pre-check. And
    when the pre-check passes but another request has inserted the name by
    the time of the insert, the duplicate-key error of the store is answered
    400 as well, and this request inserts nothing. *)
Theorem create_conflict
  (upload_stream : nat -> Buffer -> string + string)
  (others : list Profile -> list Profile)
  (body : CreateBody) (files : Files) (w : World) (u : string) :
  create_username body = Some u ->
  ((exists p, In p (db w) /\ username p = Some u) ->
   exists r w',
     save_profile upload_stream others body files w = (Val r, w') /\
     status r = 400 /\ db w' = db w /\
     filter isUpload (trace w') = filter isUpload (trace w) /\
     (usernameRejected (Some u) = false ->
      json r = Message "Username is already taken." /\
      trace w' = trace w ++ [FindOne u]))
  /\
  (usernameRejected (Some u) = false ->
   find (Store.hasUsername u) (db w) = None ->
   forall profileImageUrl headerImageUrl,
     let n := List.length (trace w) + 1 in
     let first := files_profileImage files in
     let second := files_headerImage files in
     let doc := createDocument u body profileImageUrl headerImageUrl in
     createImage upload_stream n first = inl profileImageUrl ->
     createImage upload_stream (n + List.length (uploadCalls first)) second
       = inl headerImageUrl ->
     Store.missingPaths doc = [] ->
     Store.taken (Some u) (others (db w)) = true ->
     save_profile upload_stream others body files w =
     (Val {| status := 400;
             json := Message "Profile key or username already exists." |},
      {| db := others (db w);
         trace := trace w ++ [FindOne u] ++ uploadCalls first
                  ++ uploadCalls second ++ [Save doc] |})).
Proof.
  intros Hu. split.
  - intros (p & Hin & Hp).
    destruct (usernameRejected (Some u)) eqn:Hrej.
    + exists {| status := 400;
                json := Message "Username must be at least 3 characters long." |}, w.
      split; [apply create_rejected; now rewrite Hu |].
      repeat split; try reflexivity; discriminate.
    + destruct (find_stored u (db w) p Hin Hp) as (q & Hq).
      exists {| status := 400; json := Message "Username is already taken." |},
        (record (FindOne u) w).
      split; [now apply create_taken with (p := q) |].
      repeat split. cbn. rewrite filter_app. cbn. now rewrite app_nil_r.
  - intros Hok Hfind pUrl hUrl n first second doc H1 H2 Hreq Htaken.
    rewrite (create_after_precheck upload_stream others body files w u Hu Hok Hfind).
    fold n first second. rewrite H1, H2. cbv zeta. fold doc.
    rewrite Hreq, Htaken. reflexivity.
Qed.

Lemma create_conflict_witness :
  create_username Sample.jane = Some "jane-doe" /\
  (exists r w',
     save_profile Sample.host Sample.alone Sample.jane Sample.withPhoto
       Sample.withJane = (Val r, w') /\
     status r = 400 /\ db w' = [Sample.janeDoc] /\ trace w' = [FindOne "jane-doe"]) /\
  save_profile Sample.host Sample.racing Sample.jane Sample.noFiles Sample.empty =
  (Val {| status := 400;
          json := Message "Profile key or username already exists." |},
   {| db := [Sample.janeDoc];
      trace := [FindOne "jane-doe"; Save Sample.janeDoc] |}).
Proof.
  split; [reflexivity |]. split.
  - destruct (proj1 (create_conflict Sample.host Sample.alone Sample.jane
                       Sample.withPhoto Sample.withJane "jane-doe" eq_refl))
      as (r & w' & Hrun & Hst & Hdb & _ & Hmsg).
    + exists Sample.janeDoc. split; [left; reflexivity | reflexivity].
    + exists r, w'. destruct (Hmsg eq_refl) as (_ & Htr). auto.
  - exact (proj2 (create_conflict Sample.host Sample.racing Sample.jane
                    Sample.noFiles Sample.empty "jane-doe" eq_refl)
             eq_refl eq_refl EmptyString EmptyString
             eq_refl eq_refl eq_refl eq_refl).
Defined.

(** C6: when the upload of [profileImage] fails, or that of [headerImage]
    after the first image went through, the create request is answered 500
    with the error of the image host, the store is left as it was and no
    document has been handed to it. *)
Theorem create_upload_failure
  (upload_stream : nat -> Buffer -> string + string)
  (others : list Profile -> list Profile)
  (body : CreateBody) (files : Files) (w : World) (u message : string) :
  let n := List.length (trace w) + 1 in
  let first := files_profileImage files in
  let second := files_headerImage files in
  create_username body = Some u ->
  usernameRejected (Some u) = false ->
  find (Store.hasUsername u) (db w) = None ->
  (createImage upload_stream n first = inr message \/
   exists url,
     createImage upload_stream n first = inl url /\
     createImage upload_stream (n + List.length (uploadCalls first)) second
       = inr message) ->
  exists calls,
    save_profile upload_stream others body files w =
    (Val {| status := 500;
            json := MessageError "Server error" (UploadError message) |},
     {| db := db w; trace := trace w ++ calls |}) /\
    existsb isSave calls = false.
Proof.
  intros n first second Hu Hok Hfind Hfail.
  rewrite (create_after_precheck upload_stream others body files w u Hu Hok Hfind).
  fold n first second.
  destruct Hfail as [H1 | (url & H1 & H2)].
  - rewrite H1. exists ([FindOne u] ++ uploadCalls first). split; [reflexivity |].
    destruct first; reflexivity.
  - rewrite H1, H2.
    exists ([FindOne u] ++ uploadCalls first ++ uploadCalls second).
    split; [reflexivity |]. destruct first, second; reflexivity.
Qed.

Lemma create_upload_failure_witness :
  createImage Sample.down 1 (Some Sample.photo) = inr "upload failed" /\
  exists calls,
    save_profile Sample.down Sample.alone Sample.jane Sample.withPhoto
      Sample.empty =
    (Val {| status := 500;
            json := MessageError "Server error" (UploadError "upload failed") |},
     {| db := []; trace := [] ++ calls |}) /\
    existsb isSave calls = false.
Proof.
  split; [reflexivity |].
  exact (create_upload_failure Sample.down Sample.alone Sample.jane
           Sample.withPhoto Sample.empty "jane-doe" "upload failed"
           eq_refl eq_refl eq_refl (or_introl eq_refl)).
Defined.

(** C7: in a store that does not hold the name yet and with no other request
    in flight, creating the profile "jane-doe" / "Jane" / "Eng" without
    images is answered 201, and reading the key "jane-doe" afterwards returns
    the record with both image fields empty and every other field as it was
    supplied (the two flags [false] where none was given). *)
Theorem create_then_read
  (upload_stream : nat -> Buffer -> string + string) (w : World)
  (phone email : option string) (verified company : option bool)
  (links : option JSON.json) :
  let body :=
    {| create_username := Some "jane-doe";
       create_name := Some "Jane";
       create_jobTitle := Some "Eng";
       create_phone := phone;
       create_email := email;
       create_isVerified := verified;
       create_isCompany := company;
       create_socialLinks := links |} in
  let stored :=
    {| username := Some "jane-doe";
       name := Some "Jane";
       jobTitle := Some "Eng";
       profileImage := Some EmptyString;
       headerImage := Some EmptyString;
       phone := phone;
       email := email;
       isVerified := Some (match verified with Some b => b | None => false end);
       isCompany := Some (match company with Some b => b | None => false end);
       socialLinks := links |} in
  find (Store.hasUsername "jane-doe") (db w) = None ->
  exists created read,
    save_profile upload_stream Sample.alone body Sample.noFiles w =
    (Val {| status := 201;
            json := Saved "Profile saved successfully" "jane-doe" stored |},
     created) /\
    get_profile "jane-doe" created =
    (Val {| status := 200; json := Document stored |}, read) /\
    db read = db w ++ [stored].
Proof.
  intros body stored Hfind.
  pose proof (create_after_precheck upload_stream Sample.alone body
                Sample.noFiles w "jane-doe" eq_refl eq_refl Hfind) as Hrun.
  cbn [Sample.noFiles files_profileImage files_headerImage createImage
       uploadCalls] in Hrun. cbv zeta in Hrun.
  change (createDocument "jane-doe" body EmptyString EmptyString)
    with stored in Hrun.
  change (Store.missingPaths stored) with (@nil string) in Hrun.
  cbv iota in Hrun. unfold Sample.alone in Hrun.
  assert (Hfree : Store.taken (Some "jane-doe") (db w) = false).
  { unfold Store.taken. apply not_true_is_false. intros Hex.
    apply existsb_exists in Hex. destruct Hex as (p & Hin & Hp).
    pose proof (List.find_none _ _ Hfind p Hin) as Hno.
    unfold Store.hasUsername in Hno. unfold Store.sameUsername in Hp.
    destruct (username p); congruence. }
  rewrite Hfree in Hrun.
  eexists _, _. split; [exact Hrun |].
  unfold get_profile, try_catch, bind, Store.findOne. cbn [db trace].
  rewrite (find_app_last (Store.hasUsername "jane-doe") (db w) stored Hfind eq_refl).
  split; reflexivity.
Qed.

Lemma create_then_read_witness :
  find (Store.hasUsername "jane-doe") (db Sample.empty) = None /\
  exists created read,
    save_profile Sample.host Sample.alone Sample.jane Sample.noFiles
      Sample.empty =
    (Val {| status := 201;
            json := Saved "Profile saved successfully" "jane-doe" Sample.janeDoc |},
     created) /\
    get_profile "jane-doe" created =
    (Val {| status := 200; json := Document Sample.janeDoc |}, read) /\
    db read = db Sample.empty ++ [Sample.janeDoc].
Proof.
  split; [reflexivity |].
  exact (create_then_read Sample.host Sample.empty None None None None None
           eq_refl).
Defined.

(** C8, as the code has it: a create request without [name] or without
    [jobTitle], whose [username] is valid and free and whose uploads went
    through, is refused by the validation of the store at the insert; the
    handler answers 500 "Server error" with that error, and the request
    inserts nothing. *)
Theorem create_missing_required_field
  (upload_stream : nat -> Buffer -> string + string)
  (others : list Profile -> list Profile)
  (body : CreateBody) (files : Files) (w : World) (u : string)
  (profileImageUrl headerImageUrl : string) :
  let n := List.length (trace w) + 1 in
  let first := files_profileImage files in
  let second := files_headerImage files in
  let doc := createDocument u body profileImageUrl headerImageUrl in
  create_username body = Some u ->
  usernameRejected (Some u) = false ->
  find (Store.hasUsername u) (db w) = None ->
  createImage upload_stream n first = inl profileImageUrl ->
  createImage upload_stream (n + List.length (uploadCalls first)) second
    = inl headerImageUrl ->
  (create_name body = None \/ create_jobTitle body = None) ->
  Store.missingPaths doc <> [] /\
  save_profile upload_stream others body files w =
  (Val {| status := 500;
          json := MessageError "Server error"
                    (ValidationError (Store.missingPaths doc)) |},
   {| db := others (db w);
      trace := trace w ++ [FindOne u] ++ uploadCalls first
               ++ uploadCalls second ++ [Save doc] |}).
Proof.
  intros n first second doc Hu Hok Hfind H1 H2 Hmissing.
  assert (Hpaths : Store.missingPaths doc <> []).
  { unfold Store.missingPaths, doc. cbn [createDocument newProfile name jobTitle username].
    destruct Hmissing as [-> | ->]; cbn [Store.present Js.truthy];
      intros E; apply app_eq_nil in E; destruct E as [_ E].
    - discriminate E.
    - apply app_eq_nil in E. destruct E as [_ E]. discriminate E. }
  split; [exact Hpaths |].
  rewrite (create_after_precheck upload_stream others body files w u Hu Hok Hfind).
  fold n first second. rewrite H1, H2. cbv zeta. fold doc.
  destruct (Store.missingPaths doc); [congruence | reflexivity].
Qed.

Lemma create_missing_required_field_witness :
  (create_name Sample.nameless = None \/ create_jobTitle Sample.nameless = None) /\
  save_profile Sample.host Sample.alone Sample.nameless Sample.noFiles
    Sample.empty =
  (Val {| status := 500;
          json := MessageError "Server error" (ValidationError ["name"]) |},
   {| db := [];
      trace := [FindOne "jane-doe";
                Save (createDocument "jane-doe" Sample.nameless
                        EmptyString EmptyString)] |}).
Proof.
  split; [left; reflexivity |].
  exact (proj2 (create_missing_required_field Sample.host Sample.alone
                  Sample.nameless Sample.noFiles Sample.empty "jane-doe"
                  EmptyString EmptyString
                  eq_refl eq_refl eq_refl eq_refl eq_refl (or_introl eq_refl))).
Defined.

(** C8, as the claim has it, fails: the create request "jane-doe" / "Eng"
    without [name], sent to an empty store, is answered 500 and not 400. *)
Lemma create_missing_name_is_not_400 :
  create_name Sample.nameless = None /\
  fst (save_profile Sample.host Sample.alone Sample.nameless Sample.noFiles
         Sample.empty) =
  Val {| status := 500;
         json := MessageError "Server error" (ValidationError ["name"]) |} /\
  ~ (exists r w',
       save_profile Sample.host Sample.alone Sample.nameless Sample.noFiles
         Sample.empty = (Val r, w') /\ status r = 400).
Proof.
  split; [reflexivity |]. split; [reflexivity |].
  intros (r & w' & Hrun & Hstatus).
  vm_compute in Hrun. injection Hrun as <- _. discriminate Hstatus.
Qed.

(** C9: a create request that passes validation and is saved is answered
    with the key derived from its [username]: the name in lower case with
    every run of white space replaced by one hyphen. The key is part of the
    answer only: the document that was stored is the one built from the
    fields of the request, under the [username] as it was given. *)
Theorem create_returns_profileKey
  (upload_stream : nat -> Buffer -> string + string)
  (others : list Profile -> list Profile)
  (body : CreateBody) (files : Files) (w : World) (u : string)
  (profileImageUrl headerImageUrl : string) :
  let n := List.length (trace w) + 1 in
  let first := files_profileImage files in
  let second := files_headerImage files in
  let doc := createDocument u body profileImageUrl headerImageUrl in
  create_username body = Some u ->
  usernameRejected (Some u) = false ->
  find (Store.hasUsername u) (db w) = None ->
  createImage upload_stream n first = inl profileImageUrl ->
  createImage upload_stream (n + List.length (uploadCalls first)) second
    = inl headerImageUrl ->
  Store.missingPaths doc = [] ->
  Store.taken (Some u) (others (db w)) = false ->
  save_profile upload_stream others body files w =
  (Val {| status := 201;
          json := Saved "Profile saved successfully" (Spec.profileKey u) doc |},
   {| db := others (db w) ++ [doc];
      trace := trace w ++ [FindOne u] ++ uploadCalls first
               ++ uploadCalls second ++ [Save doc] |}) /\
  username doc = Some u /\
  doc =
  {| username := Some u;
     name := create_name body;
     jobTitle := create_jobTitle body;
     profileImage := Some profileImageUrl;
     headerImage := Some headerImageUrl;
     phone := create_phone body;
     email := create_email body;
     isVerified :=
       Some (match create_isVerified body with Some b => b | None => false end);
     isCompany :=
       Some (match create_isCompany body with Some b => b | None => false end);
     socialLinks := create_socialLinks body |}.
Proof.
  intros n first second doc Hu Hok Hfind H1 H2 Hreq Hfree.
  split; [| split; reflexivity].
  rewrite (create_after_precheck upload_stream others body files w u Hu Hok Hfind).
  fold n first second. rewrite H1, H2. cbv zeta. fold doc.
  rewrite Hreq, Hfree, profileKey_spec. reflexivity.
Qed.

Lemma create_returns_profileKey_witness :
  usernameRejected (Some "Jane  Van Doe") = false /\
  save_profile Sample.host Sample.alone Sample.spaced Sample.noFiles
    Sample.withJane =
  (Val {| status := 201;
          json := Saved "Profile saved successfully" "jane-van-doe"
                    (createDocument "Jane  Van Doe" Sample.spaced
                       EmptyString EmptyString) |},
   {| db := [Sample.janeDoc;
             createDocument "Jane  Van Doe" Sample.spaced
               EmptyString EmptyString];
      trace := [FindOne "Jane  Van Doe";
                Save (createDocument "Jane  Van Doe" Sample.spaced
                        EmptyString EmptyString)] |}).
Proof.
  split; [reflexivity |].
  exact (proj1 (create_returns_profileKey Sample.host Sample.alone
                  Sample.spaced Sample.noFiles Sample.withJane "Jane  Van Doe"
                  EmptyString EmptyString
                  eq_refl eq_refl eq_refl eq_refl eq_refl eq_refl eq_refl)).
Defined.

(** ** The delete and update routes *)

Lemma replaceFirstHyphen_spec (key : string) :
  Spec.firstHyphenReplaced key (Js.replaceFirstHyphen key).
Proof.
  induction key as [| c t IH].
  - right. split; reflexivity.
  - cbn [Js.replaceFirstHyphen]. destruct (Ascii.eqb c "-") eqn:Hc.
    + apply Ascii.eqb_eq in Hc. subst c. left. exists EmptyString, t.
      repeat split.
    + destruct IH as [(pre & post & Hkey & Hpre & Hout) | (Hnone & Hout)].
      * left. exists (String c pre), post. cbn. rewrite Hc, Hpre, Hout.
        repeat split. now rewrite Hkey.
      * right. cbn. rewrite Hc, Hnone, Hout. split; reflexivity.
Qed.

Lemma isPlain_replaceFirstHyphen (key : string) :
  isPlain key = true -> isPlain (Js.replaceFirstHyphen key) = true.
Proof.
  induction key as [| c t IH]; [reflexivity |]. cbn.
  intros H. apply andb_prop in H. destruct H as [Hc Ht].
  destruct (Ascii.eqb c "-"); cbn.
  - exact Ht.
  - now rewrite Hc, IH.
Qed.

Lemma delete_run (key : string) (w : World) :
  delete_profile key w =
  match RegExp.construct (deletePattern key) "i" with
  | (RegExp.Pattern r, ic) =>
      let (found, rest) :=
        Store.removeFirst (Store.usernameMatches r ic) (db w) in
      (Val match found with
           | Some _ =>
               {| status := 200; json := Message "Profile deleted successfully" |}
           | None => {| status := 404; json := Message "Profile not found" |}
           end,
       {| db := rest; trace := trace w ++ [FindOneAndDelete r] |})
  | (RegExp.SyntaxError, _) =>
      (Val {| status := 500; json := MessageOf SyntaxError |}, w)
  | (RegExp.Unsupported, _) => (Beyond, w)
  end.
Proof.
  unfold delete_profile, try_catch, bind, newRegExp, Store.findOneAndDelete.
  destruct (RegExp.construct (deletePattern key) "i") as [[r | |] ic];
    try reflexivity.
  cbn [fst snd].
  destruct (Store.removeFirst (Store.usernameMatches r ic) (db w)) as [[p |] rest];
    reflexivity.
Qed.

(** C2: the delete route turns the first hyphen of the path key, and no
    other, into a space and matches the result, between [^] and [$] and
    ignoring case, against the stored usernames. For a key that makes a valid
    pattern the first stored profile it matches is the one record deleted
    (answer 200), and when it matches none the answer is 404 and the store is
    left as it was; for a key without pattern syntax the match is equality up
    to letter case. So "john-smith" deletes the profile named "john smith",
    and "john-smith-jr" gives the pattern "john smith-jr". *)
Theorem delete_first_hyphen_only :
  (forall (key : string) (r : RegExp.regex) (w : World),
      RegExp.construct (deletePattern key) "i" = (RegExp.Pattern r, true) ->
      (Spec.firstHyphenReplaced key (Js.replaceFirstHyphen key) /\
       deletePattern key = ("^" ++ Js.replaceFirstHyphen key ++ "$")%string /\
       (isPlain key = true ->
        forall u, RegExp.test r true u = true <->
                  Spec.equalIgnoringCase (Js.replaceFirstHyphen key) u)) /\
      ((exists before p after,
           firstSelected (Store.usernameMatches r true) (db w) before p after /\
           delete_profile key w =
           (Val {| status := 200;
                   json := Message "Profile deleted successfully" |},
            {| db := before ++ after;
               trace := trace w ++ [FindOneAndDelete r] |})) \/
       (noneSelected (Store.usernameMatches r true) (db w) /\
        delete_profile key w =
        (Val {| status := 404; json := Message "Profile not found" |},
         {| db := db w; trace := trace w ++ [FindOneAndDelete r] |})))) /\
  delete_profile "john-smith" Sample.stocked =
  (Val {| status := 200; json := Message "Profile deleted successfully" |},
   {| db := [Sample.janeWithPhone];
      trace := [FindOneAndDelete (anchored "john smith")] |}) /\
  deletePattern "john-smith-jr" = "^john smith-jr$".
Proof.
  split; [| split; reflexivity].
  intros key r w Hre. split.
  - split; [apply replaceFirstHyphen_spec |]. split; [reflexivity |].
    intros Hplain u.
    pose proof (construct_plain (Js.replaceFirstHyphen key)
                  (isPlain_replaceFirstHyphen key Hplain)) as Hc.
    unfold deletePattern in Hre. rewrite Hc in Hre.
    injection Hre as <-. apply test_plain.
  - rewrite delete_run, Hre.
    destruct (selected_or_none (Store.usernameMatches r true) (db w))
      as [(before & p & after & Hsel) | Hnone].
    + left. exists before, p, after. split; [exact Hsel |].
      now rewrite (removeFirst_selected _ _ _ _ _ Hsel).
    + right. split; [exact Hnone |].
      now rewrite (removeFirst_none _ _ Hnone).
Qed.

Lemma delete_first_hyphen_only_witness :
  RegExp.construct (deletePattern "John-Smith") "i" =
  (RegExp.Pattern (anchored "John Smith"), true) /\
  (RegExp.test (anchored "John Smith") true "john smith" = true <->
   Spec.equalIgnoringCase "John Smith" "john smith") /\
  delete_profile "John-Smith" Sample.stocked =
  (Val {| status := 200; json := Message "Profile deleted successfully" |},
   {| db := [Sample.janeWithPhone];
      trace := [FindOneAndDelete (anchored "John Smith")] |}).
Proof.
  split; [reflexivity |].
  destruct (proj1 delete_first_hyphen_only "John-Smith" (anchored "John Smith")
              Sample.stocked eq_refl)
    as ((_ & _ & Hci) & _).
  split; [exact (Hci eq_refl "john smith") | reflexivity].
Defined.

Section Update.

Variable upload_stream : nat -> Buffer -> string + string.

(** The parse of [socialLinks] touches neither collaborator. *)
Lemma parseSocialLinks_world (socialLinks : option string) (w : World) :
  snd (parseSocialLinks socialLinks w) = w.
Proof.
  unfold parseSocialLinks. destruct socialLinks as [text |]; [| reflexivity].
  destruct (Js.isEmpty text); [reflexivity |].
  destruct (JSON.parse text); reflexivity.
Qed.

(** The run of the update route once [socialLinks] is parsed: both uploads,
    the pattern, then the one call to the store. *)
Lemma update_run (key : string) (body : UpdateBody) (files : Files)
  (w : World) (links : JSON.json) :
  parseSocialLinks (update_socialLinks body) w = (Val links, w) ->
  let n := List.length (trace w) in
  let first := files_profileImage files in
  let second := files_headerImage files in
  let failed (e : Error) : result Response :=
    Val {| status := 500; json := MessageError "Error updating profile" e |} in
  update_profile upload_stream key body files w =
  match updateImage upload_stream n first (update_profileImage body) with
  | inr message =>
      (failed (UploadError message),
       {| db := db w; trace := trace w ++ uploadCalls first |})
  | inl profileImageUrl =>
      match updateImage upload_stream (n + List.length (uploadCalls first))
              second (update_headerImage body) with
      | inr message =>
          (failed (UploadError message),
           {| db := db w;
              trace := trace w ++ uploadCalls first ++ uploadCalls second |})
      | inl headerImageUrl =>
          let doc := updateDocument body profileImageUrl headerImageUrl links in
          let calls := trace w ++ uploadCalls first ++ uploadCalls second in
          match RegExp.construct (updatePattern key) "i" with
          | (RegExp.Pattern r, ic) =>
              match Store.castUpdate doc with
              | Some cast =>
                  let (res, docs) :=
                    Store.replaceFirst (Store.usernameMatches r ic) cast []
                      (db w) in
                  (match res with
                   | Val (Some p) => Val {| status := 200; json := Document p |}
                   | Val None =>
                       Val {| status := 404;
                              json := Message "Profile not found" |}
                   | Exn e => failed e
                   | Beyond => Beyond
                   end,
                   {| db := docs; trace := calls ++ [FindOneAndUpdate r doc] |})
              | None =>
                  (Beyond,
                   {| db := db w; trace := calls ++ [FindOneAndUpdate r doc] |})
              end
          | (RegExp.SyntaxError, _) =>
              (failed SyntaxError, {| db := db w; trace := calls |})
          | (RegExp.Unsupported, _) => (Beyond, {| db := db w; trace := calls |})
          end
      end
  end.
Proof.
  intros Hparse n first second failed. subst n first second failed.
  unfold update_profile. unfold bind at 1. rewrite Hparse.
  unfold try_catch, bind, upload, newRegExp, Store.findOneAndUpdate, respond,
    ret, record.
  destruct w as [docs calls].
  destruct (files_profileImage files) as [b1 |],
           (files_headerImage files) as [b2 |];
    cbn -[updateDocument RegExp.construct Store.replaceFirst Store.castUpdate
          Nat.add updatePattern];
    rewrite ?length_app, ?Nat.add_0_r, ?app_nil_r;
    cbn -[updateDocument RegExp.construct Store.replaceFirst Store.castUpdate
          Nat.add updatePattern].
  all: repeat match goal with
       | |- context [upload_stream ?n ?b] =>
           destruct (upload_stream n b) eqn:?;
           cbn -[updateDocument RegExp.construct Store.replaceFirst
                 Store.castUpdate Nat.add updatePattern];
           rewrite ?length_app;
           cbn -[updateDocument RegExp.construct Store.replaceFirst
                 Store.castUpdate Nat.add updatePattern]
       end.
  all: rewrite <- ?app_assoc;
    cbn -[updateDocument RegExp.construct Store.replaceFirst Store.castUpdate
          Nat.add updatePattern].
  all: try reflexivity.
  all: destruct (RegExp.construct (updatePattern key) "i") as [[r | |] ic];
    cbn -[updateDocument Store.replaceFirst Store.castUpdate]; try reflexivity.
  all: match goal with
       | |- context [Store.castUpdate ?d] =>
           destruct (Store.castUpdate d) as [cast |]
       end; cbn -[updateDocument Store.replaceFirst]; try reflexivity.
  all: match goal with
       | |- context [Store.replaceFirst ?f ?d ?a ?l] =>
           destruct (Store.replaceFirst f d a l) as [[[p |] | e |] rest]
       end; reflexivity.
Qed.

End Update.

(** The run of the update route when the filter selects a stored profile:
    the profile takes the fields of the update document as cast, unless its
    [username] then is that of another stored profile. *)
Lemma update_selected
  (upload_stream : nat -> Buffer -> string + string)
  (key : string) (body : UpdateBody) (files : Files) (w : World)
  (links declaredLinks : JSON.json) (r : RegExp.regex)
  (profileImageUrl headerImageUrl : option string)
  (before : list Profile) (old : Profile) (after : list Profile) :
  let n := List.length (trace w) in
  let first := files_profileImage files in
  let second := files_headerImage files in
  let update := updateDocument body profileImageUrl headerImageUrl links in
  let new :=
    Store.set (updateDocument body profileImageUrl headerImageUrl declaredLinks)
      old in
  let calls :=
    trace w ++ uploadCalls first ++ uploadCalls second
    ++ [FindOneAndUpdate r update] in
  parseSocialLinks (update_socialLinks body) w = (Val links, w) ->
  Store.castLinks links = Some declaredLinks ->
  updateImage upload_stream n first (update_profileImage body)
    = inl profileImageUrl ->
  updateImage upload_stream (n + List.length (uploadCalls first)) second
    (update_headerImage body) = inl headerImageUrl ->
  RegExp.construct (updatePattern key) "i" = (RegExp.Pattern r, true) ->
  firstSelected (Store.usernameMatches r true) (db w) before old after ->
  update_profile upload_stream key body files w =
  if Store.taken (username new) (before ++ after)
  then (Val {| status := 500;
               json := MessageError "Error updating profile" DuplicateKey |},
        {| db := db w; trace := calls |})
  else (Val {| status := 200; json := Document new |},
        {| db := before ++ new :: after; trace := calls |}).
Proof.
  intros n first second update new calls Hparse Hcast H1 H2 Hre Hsel.
  rewrite (update_run upload_stream key body files w links Hparse).
  cbv zeta. fold n first second. rewrite H1, H2, Hre.
  rewrite (castUpdate_document body _ _ links _ Hcast).
  rewrite (replaceFirst_selected _ _ _ _ _ _ Hsel []).
  cbn [app]. fold new. subst calls. rewrite <- !app_assoc.
  destruct (Store.taken (username new) (before ++ after)); [| reflexivity].
  destruct Hsel as (-> & _). reflexivity.
Qed.

(** What the parse of [socialLinks] gives: the empty object for a missing or
    empty text, and what [JSON.parse] reads from any other. *)
Lemma parseSocialLinks_value (socialLinks : option string) (w : World)
  (links : JSON.json) :
  parseSocialLinks socialLinks w = (Val links, w) ->
  (Js.truthy socialLinks = false /\ links = JSON.JObject []) \/
  (exists text, socialLinks = Some text /\ JSON.parse text = Some links).
Proof.
  unfold parseSocialLinks, ret, throw.
  destruct socialLinks as [text |]; [| intros [= <-]; left; split; reflexivity].
  destruct text as [| c t] eqn:Htext; [intros [= <-]; left; split; reflexivity |].
  cbn [Js.isEmpty]. rewrite <- Htext.
  destruct (JSON.parse text) as [v |] eqn:Hparse; [| discriminate].
  intros [= <-]. right. exists text. subst text. split; [reflexivity | exact Hparse].
Qed.

(** C1, as the code has it: when [socialLinks] parses to an object of
    strings, the uploads go through and the filter [^key$] (ignoring case)
    selects a stored profile, the update route sets, in the first profile
    selected, each field the request supplies and leaves each field the
    request omits as it is stored; the answer is 200 with the profile as
    updated. In particular a request without [phone] leaves the stored
    [phone] in place. [socialLinks] is always written: it becomes the links
    of the request that the schema declares (what [JSON.parse] read from the
    text, none for a missing or empty text). For a key without pattern
    syntax the filter selects the usernames equal to the key up to letter
    case. *)
Theorem update_sets_supplied_fields
  (upload_stream : nat -> Buffer -> string + string)
  (key : string) (body : UpdateBody) (files : Files) (w : World)
  (links declaredLinks : JSON.json) (r : RegExp.regex)
  (profileImageUrl headerImageUrl : option string)
  (before : list Profile) (old : Profile) (after : list Profile) :
  let n := List.length (trace w) in
  let first := files_profileImage files in
  let second := files_headerImage files in
  let update := updateDocument body profileImageUrl headerImageUrl links in
  let new :=
    {| username := Store.given (update_username body) (username old);
       name := Store.given (update_name body) (name old);
       jobTitle := Store.given (update_jobTitle body) (jobTitle old);
       profileImage := Store.given profileImageUrl (profileImage old);
       headerImage := Store.given headerImageUrl (headerImage old);
       phone := Store.given (update_phone body) (phone old);
       email := Store.given (update_email body) (email old);
       isVerified := Store.given (update_isVerified body) (isVerified old);
       isCompany := Store.given (update_isCompany body) (isCompany old);
       socialLinks := Some declaredLinks |} in
  parseSocialLinks (update_socialLinks body) w = (Val links, w) ->
  Store.castLinks links = Some declaredLinks ->
  updateImage upload_stream n first (update_profileImage body)
    = inl profileImageUrl ->
  updateImage upload_stream (n + List.length (uploadCalls first)) second
    (update_headerImage body) = inl headerImageUrl ->
  RegExp.construct (updatePattern key) "i" = (RegExp.Pattern r, true) ->
  firstSelected (Store.usernameMatches r true) (db w) before old after ->
  Store.taken (username new) (before ++ after) = false ->
  update_profile upload_stream key body files w =
  (Val {| status := 200; json := Document new |},
   {| db := before ++ new :: after;
      trace := trace w ++ uploadCalls first ++ uploadCalls second
               ++ [FindOneAndUpdate r update] |}) /\
  (update_phone body = None -> phone new = phone old) /\
  (forall number, update_phone body = Some number -> phone new = Some number) /\
  ((Js.truthy (update_socialLinks body) = false /\ links = JSON.JObject []) \/
   (exists text,
       update_socialLinks body = Some text /\ JSON.parse text = Some links)) /\
  (isPlain key = true ->
   forall u, RegExp.test r true u = true <-> Spec.equalIgnoringCase key u).
Proof.
  intros n first second update new Hparse Hcast H1 H2 Hre Hsel Hfree.
  split; [| split; [| split; [| split]]].
  - rewrite (update_run upload_stream key body files w links Hparse).
    cbv zeta. fold n first second. rewrite H1, H2, Hre. fold update.
    unfold update. rewrite (castUpdate_document body _ _ links _ Hcast).
    rewrite (replaceFirst_selected _ _ _ _ _ _ Hsel []).
    cbn [app].
    change (Store.set (updateDocument body profileImageUrl headerImageUrl
                         declaredLinks) old) with new.
    rewrite Hfree, <- !app_assoc. reflexivity.
  - intros Hphone. cbn [phone new]. now rewrite Hphone.
  - intros number Hphone. cbn [phone new]. now rewrite Hphone.
  - exact (parseSocialLinks_value _ _ _ Hparse).
  - intros Hplain u. unfold updatePattern in Hre.
    rewrite (construct_plain key Hplain) in Hre. injection Hre as <-.
    apply test_plain.
Qed.

Lemma update_sets_supplied_fields_witness :
  firstSelected (Store.usernameMatches (anchored "JANE-DOE") true)
    (db Sample.stocked) [Sample.john] Sample.janeWithPhone [] /\
  JSON.parse (JSON.text "{'website':'https://jane.example','blog':'none'}") =
  Some Sample.partialLinks /\
  update_profile Sample.host "JANE-DOE" Sample.partial Sample.noFiles
    Sample.stocked =
  (Val {| status := 200; json := Document Sample.merged |},
   {| db := [Sample.john; Sample.merged];
      trace := [FindOneAndUpdate (anchored "JANE-DOE") Sample.partialUpdate] |}) /\
  phone Sample.merged = phone Sample.janeWithPhone.
Proof.
  assert (Hsel : firstSelected (Store.usernameMatches (anchored "JANE-DOE") true)
                   (db Sample.stocked) [Sample.john] Sample.janeWithPhone []).
  { split; [reflexivity |]. split; [reflexivity |].
    constructor; [reflexivity | constructor]. }
  split; [exact Hsel |]. split; [reflexivity |].
  destruct (update_sets_supplied_fields Sample.host "JANE-DOE" Sample.partial
              Sample.noFiles Sample.stocked Sample.partialLinks
              (JSON.JObject
                 [(JSON.units "website",
                   JSON.JString (JSON.units "https://jane.example"))])
              (anchored "JANE-DOE") (Some "https://img.example/old.jpg") None
              [Sample.john] Sample.janeWithPhone []
              eq_refl eq_refl eq_refl eq_refl eq_refl Hsel eq_refl)
    as (Hrun & Hphone & _).
  split; [exact Hrun | exact (Hphone eq_refl)].
Defined.

(** C1, as the claim has it, fails: an update of Jane's profile that leaves
    [phone] out is answered 200 and her stored [phone] is still there, as
    are her [email], her header image and her [isCompany] flag; the profile
    as updated is not the update document. *)
Lemma update_keeps_omitted_phone :
  update_phone Sample.partial = None /\
  phone Sample.janeWithPhone = Some "555-0100" /\
  update_profile Sample.host "jane-doe" Sample.partial Sample.noFiles
    Sample.stocked =
  (Val {| status := 200; json := Document Sample.merged |},
   {| db := [Sample.john; Sample.merged];
      trace := [FindOneAndUpdate (anchored "jane-doe") Sample.partialUpdate] |}) /\
  phone Sample.merged = Some "555-0100" /\
  phone Sample.merged <> None /\
  email Sample.merged = email Sample.janeWithPhone /\
  headerImage Sample.merged = headerImage Sample.janeWithPhone /\
  isCompany Sample.merged = isCompany Sample.janeWithPhone /\
  Sample.merged <> Sample.partialUpdate.
Proof.
  repeat split; discriminate.
Qed.

(** C5, as the code has it: a [socialLinks] text that is not empty and that
    [JSON.parse] rejects makes the update route fail with the [SyntaxError]
    of the parse before anything else is done: no upload, no call to the
    store, no stored profile changed. *)
Theorem update_malformed_socialLinks
  (upload_stream : nat -> Buffer -> string + string)
  (key : string) (body : UpdateBody) (files : Files) (w : World)
  (text : string) :
  update_socialLinks body = Some text ->
  text <> EmptyString ->
  JSON.parse text = None ->
  update_profile upload_stream key body files w = (Exn SyntaxError, w).
Proof.
  intros Hbody Hne Hparse. unfold update_profile, bind, parseSocialLinks.
  rewrite Hbody, Hparse. destruct text; [congruence | reflexivity].
Qed.

Lemma update_malformed_socialLinks_witness :
  (update_socialLinks Sample.broken = Some "{" /\ JSON.parse "{" = None) /\
  update_profile Sample.host "jane-doe" Sample.broken Sample.withPhoto
    Sample.stocked = (Exn SyntaxError, Sample.stocked).
Proof.
  split; [split; reflexivity |].
  apply (update_malformed_socialLinks Sample.host "jane-doe" Sample.broken
           Sample.withPhoto Sample.stocked "{" eq_refl);
    [discriminate | reflexivity].
Defined.

(** C5, as the claim has it, fails: the update of "jane-doe" with the
    [socialLinks] text "{" ends in the [SyntaxError] of the parse, and the
    handler answers no 400. The empty text, which [JSON.parse] rejects as
    well, is not parsed at all: that update goes through. *)
Lemma update_malformed_socialLinks_is_not_400 :
  (update_socialLinks Sample.broken = Some "{" /\
   JSON.parse "{" = None /\
   update_profile Sample.host "jane-doe" Sample.broken Sample.noFiles
     Sample.stocked = (Exn SyntaxError, Sample.stocked) /\
   ~ (exists r w',
        update_profile Sample.host "jane-doe" Sample.broken Sample.noFiles
          Sample.stocked = (Val r, w') /\ status r = 400)) /\
  (update_socialLinks Sample.blank = Some EmptyString /\
   JSON.parse EmptyString = None /\
   fst (update_profile Sample.host "jane-doe" Sample.blank Sample.noFiles
          Sample.stocked) =
   Val {| status := 200; json := Document Sample.edited |}).
Proof.
  split; [| repeat split].
  repeat split. intros (r & w' & Hrun & _). vm_compute in Hrun. discriminate Hrun.
Qed.

(** C10: both routes put the path key into the pattern as it comes, so a
    syntax character in the key is read as syntax. The key "jane.doe"
    selects the profile named "jane-doe", whose name it does not equal even
    up to letter case, and that profile is updated by the one route and
    deleted by the other. *)
Theorem unescaped_key_matches_other_names :
  (forall key, updatePattern key = ("^" ++ key ++ "$")%string) /\
  (forall key,
      deletePattern key = ("^" ++ Js.replaceFirstHyphen key ++ "$")%string) /\
  Js.replaceFirstHyphen "jane.doe" = "jane.doe" /\
  ~ Spec.equalIgnoringCase "jane.doe" "jane-doe" /\
  (exists r,
      RegExp.construct (updatePattern "jane.doe") "i" = (RegExp.Pattern r, true) /\
      update_profile Sample.host "jane.doe" Sample.edit Sample.noFiles
        Sample.stocked =
      (Val {| status := 200; json := Document Sample.edited |},
       {| db := [Sample.john; Sample.edited];
          trace := [FindOneAndUpdate r Sample.edited] |})) /\
  (exists r,
      RegExp.construct (deletePattern "jane.doe") "i" = (RegExp.Pattern r, true) /\
      delete_profile "jane.doe" Sample.stocked =
      (Val {| status := 200; json := Message "Profile deleted successfully" |},
       {| db := [Sample.john]; trace := [FindOneAndDelete r] |})).
Proof.
  split; [reflexivity |]. split; [reflexivity |]. split; [reflexivity |].
  split; [intros H; vm_compute in H; discriminate H |].
  split; eexists; split; reflexivity.
Qed.

(** ** Further properties of the routes *)

(** X1: the read route looks the path key up as it comes, by equality with
    [username], without folding case or touching hyphens: it answers 200
    with a stored profile of exactly that name, or 404 when no stored
    profile has exactly that name. It makes the one call [findOne] and
    leaves the store as it was. *)
Theorem read_is_exact_match (key : string) (w : World) :
  exists resp,
    get_profile key w =
    (Val resp, {| db := db w; trace := trace w ++ [FindOne key] |}) /\
    ((status resp = 200 /\
      exists p, json resp = Document p /\ In p (db w) /\
                username p = Some key) \/
     (status resp = 404 /\ json resp = Message "Profile not found" /\
      forall p, In p (db w) -> username p <> Some key)).
Proof.
  unfold get_profile, try_catch, bind, Store.findOne.
  destruct (find (Store.hasUsername key) (db w)) as [p |] eqn:Hfind.
  - eexists. split; [reflexivity |]. left. split; [reflexivity |].
    exists p. apply find_some in Hfind. destruct Hfind as [Hin Hp].
    unfold Store.hasUsername in Hp.
    destruct (username p) as [v |]; [| discriminate Hp].
    apply String.eqb_eq in Hp. subst v. auto.
  - eexists. split; [reflexivity |]. right. split; [reflexivity |].
    split; [reflexivity |]. intros p Hin Hp.
    pose proof (List.find_none _ _ Hfind p Hin) as Hno.
    unfold Store.hasUsername in Hno. rewrite Hp, String.eqb_refl in Hno.
    discriminate Hno.
Qed.

Lemma taken_find (u : string) (docs : list Profile) :
  Store.taken (Some u) docs = false -> find (Store.hasUsername u) docs = None.
Proof.
  intros H. induction docs as [| p rest IH]; [reflexivity |].
  cbn in *. apply orb_false_elim in H. destruct H as [Hp Hrest].
  unfold Store.hasUsername. unfold Store.sameUsername in Hp.
  destruct (username p); [rewrite Hp |]; auto.
Qed.

(** X3: after a create request has been answered 201, a second create
    request for the same [username] is answered with the conflict of the
    pre-check, and the store is left as the first request left it. *)
Theorem create_twice
  (upload_stream upload_stream' : nat -> Buffer -> string + string)
  (others others' : list Profile -> list Profile)
  (body body' : CreateBody) (files files' : Files) (w created : World)
  (u : string) (r : Response) :
  create_username body = Some u ->
  create_username body' = Some u ->
  save_profile upload_stream others body files w = (Val r, created) ->
  status r = 201 ->
  save_profile upload_stream' others' body' files' created =
  (Val {| status := 400; json := Message "Username is already taken." |},
   {| db := db created; trace := trace created ++ [FindOne u] |}).
Proof.
  intros Hu Hu' Hrun Hstatus.
  destruct (usernameRejected (Some u)) eqn:Hrej.
  { rewrite create_rejected in Hrun by now rewrite Hu.
    injection Hrun as <- _. discriminate Hstatus. }
  destruct (find (Store.hasUsername u) (db w)) as [p |] eqn:Hfind.
  { rewrite (create_taken upload_stream others body files w u p Hu Hrej Hfind)
      in Hrun.
    injection Hrun as <- _. discriminate Hstatus. }
  rewrite (create_after_precheck upload_stream others body files w u Hu Hrej Hfind)
    in Hrun.
  cbv zeta in Hrun.
  destruct (createImage upload_stream (List.length (trace w) + 1)
              (files_profileImage files)) as [url1 | m1];
    [| injection Hrun as <- _; discriminate Hstatus].
  destruct (createImage upload_stream _ (files_headerImage files))
    as [url2 | m2];
    [| injection Hrun as <- _; discriminate Hstatus].
  destruct (Store.missingPaths (createDocument u body url1 url2));
    [| injection Hrun as <- _; discriminate Hstatus].
  destruct (Store.taken (Some u) (others (db w))) eqn:Hfree;
    [injection Hrun as <- _; discriminate Hstatus |].
  injection Hrun as _ <-.
  apply (create_taken upload_stream' others' body' files' _ u
           (createDocument u body url1 url2) Hu' Hrej).
  cbn [db]. apply find_app_last; [now apply taken_find |].
  unfold Store.hasUsername. cbn. apply String.eqb_refl.
Qed.

Lemma create_twice_witness :
  status {| status := 201;
            json := Saved "Profile saved successfully" "jane-doe"
                      Sample.janeDoc |} = 201 /\
  save_profile Sample.down Sample.alone Sample.jane Sample.withPhoto
    {| db := [Sample.janeDoc];
       trace := [FindOne "jane-doe"; Save Sample.janeDoc] |} =
  (Val {| status := 400; json := Message "Username is already taken." |},
   {| db := [Sample.janeDoc];
      trace := [FindOne "jane-doe"; Save Sample.janeDoc; FindOne "jane-doe"] |}).
Proof.
  split; [reflexivity |].
  exact (create_twice Sample.host Sample.down Sample.alone Sample.alone
           Sample.jane Sample.jane Sample.noFiles Sample.withPhoto
           Sample.empty _ "jane-doe" _ eq_refl eq_refl eq_refl eq_refl).
Defined.

(** X4: whatever the request, an answer of the update route has status
    200, 404 or 500; the route has no 400. *)
Theorem update_status
  (upload_stream : nat -> Buffer -> string + string)
  (key : string) (body : UpdateBody) (files : Files) (w w' : World)
  (r : Response) :
  update_profile upload_stream key body files w = (Val r, w') ->
  status r = 200 \/ status r = 404 \/ status r = 500.
Proof.
  intros Hrun.
  destruct (parseSocialLinks (update_socialLinks body) w) as [res w0] eqn:Hparse.
  pose proof (parseSocialLinks_world (update_socialLinks body) w) as Hw.
  rewrite Hparse in Hw. cbn in Hw. subst w0.
  destruct res as [links | e |].
  - rewrite (update_run upload_stream key body files w links Hparse) in Hrun.
    cbv zeta in Hrun.
    destruct (updateImage upload_stream _ (files_profileImage files) _);
      [| injection Hrun as <- _; auto].
    destruct (updateImage upload_stream _ (files_headerImage files) _);
      [| injection Hrun as <- _; auto].
    destruct (RegExp.construct (updatePattern key) "i") as [[p | |] ic];
      [| injection Hrun as <- _; auto | discriminate Hrun].
    destruct (Store.castUpdate _) as [cast |]; [| discriminate Hrun].
    destruct (Store.replaceFirst _ _ _ _) as [[[q |] | e |] docs];
      try discriminate Hrun; injection Hrun as <- _; auto.
  - unfold update_profile, bind in Hrun. rewrite Hparse in Hrun.
    discriminate Hrun.
  - unfold update_profile, bind in Hrun. rewrite Hparse in Hrun.
    discriminate Hrun.
Qed.

Lemma update_status_witness :
  update_profile Sample.host "nobody" Sample.edit Sample.noFiles Sample.stocked =
  (Val {| status := 404; json := Message "Profile not found" |},
   {| db := db Sample.stocked;
      trace := [FindOneAndUpdate (anchored "nobody") Sample.edited] |}) /\
  (404 = 200 \/ 404 = 404 \/ 404 = 500).
Proof.
  split; [reflexivity |].
  exact (update_status Sample.host "nobody" Sample.edit Sample.noFiles
           Sample.stocked _ _ eq_refl).
Defined.

(** ** The derived key *)

Lemma lowerChar_idempotent (c : ascii) :
  Js.lowerChar (Js.lowerChar c) = Js.lowerChar c.
Proof. destruct c as [[] [] [] [] [] [] [] []]; reflexivity. Qed.

Lemma isWhiteSpace_lowerChar (c : ascii) :
  Js.isWhiteSpace (Js.lowerChar c) = Js.isWhiteSpace c.
Proof. destruct c as [[] [] [] [] [] [] [] []]; reflexivity. Qed.

Lemma toLowerCase_idempotent (s : string) :
  Js.toLowerCase (Js.toLowerCase s) = Js.toLowerCase s.
Proof.
  induction s as [| c t IH]; [reflexivity |].
  cbn. now rewrite lowerChar_idempotent, IH.
Qed.

Lemma replaceRuns_notSpace (s : string) :
  forall inRun, allChars notSpace (Js.replaceRuns inRun s) = true.
Proof.
  induction s as [| c t IH]; intros inRun; [reflexivity |].
  cbn [Js.replaceRuns]. destruct (Js.isWhiteSpace c) eqn:Hc.
  - destruct inRun; [apply IH |]. cbn [allChars]. now rewrite IH.
  - cbn [allChars]. unfold notSpace at 1. now rewrite Hc, IH.
Qed.

Lemma replaceRuns_without_space (s : string) :
  forall inRun, allChars notSpace s = true -> Js.replaceRuns inRun s = s.
Proof.
  induction s as [| c t IH]; intros inRun H; [reflexivity |].
  cbn in H. apply andb_prop in H. destruct H as [Hc Ht].
  unfold notSpace in Hc. apply negb_true_iff in Hc.
  cbn. now rewrite Hc, IH.
Qed.

Lemma toLowerCase_replaceRuns (s : string) :
  forall inRun,
    Js.toLowerCase (Js.replaceRuns inRun s) =
    Js.replaceRuns inRun (Js.toLowerCase s).
Proof.
  induction s as [| c t IH]; intros inRun; [reflexivity |].
  cbn [Js.replaceRuns Js.toLowerCase]. rewrite isWhiteSpace_lowerChar.
  destruct (Js.isWhiteSpace c); [destruct inRun |]; cbn [Js.toLowerCase];
    now rewrite ?IH.
Qed.

(** X7: the key of the create response holds no white space and no capital
    letter and is its own key; it is the username itself exactly when the
    username holds no white space and no capital letter. *)
Theorem profileKey_shape (u : string) :
  allChars notSpace (profileKey u) = true /\
  Js.toLowerCase (profileKey u) = profileKey u /\
  profileKey (profileKey u) = profileKey u /\
  (profileKey u = u <->
   allChars notSpace u = true /\ Js.toLowerCase u = u).
Proof.
  unfold profileKey, Js.replaceWhitespaceRuns.
  assert (Hlow : Js.toLowerCase (Js.replaceRuns false (Js.toLowerCase u)) =
                 Js.replaceRuns false (Js.toLowerCase u)).
  { now rewrite toLowerCase_replaceRuns, toLowerCase_idempotent. }
  split; [apply replaceRuns_notSpace |]. split; [exact Hlow |].
  split.
  { rewrite Hlow. apply replaceRuns_without_space, replaceRuns_notSpace. }
  split.
  - intros H.
    assert (Hspace : allChars notSpace u = true)
      by (rewrite <- H; apply replaceRuns_notSpace).
    split; [exact Hspace |].
    transitivity (Js.toLowerCase (Js.replaceRuns false (Js.toLowerCase u)));
      [now rewrite H | now rewrite Hlow].
  - intros [Hspace Hlower]. rewrite Hlower.
    now apply replaceRuns_without_space.
Qed.

(** ** What a run does to the store *)

Lemma sameUsername_eq (a b : option string) :
  Store.sameUsername a b = true <-> a = b.
Proof.
  destruct a as [x |], b as [y |]; cbn; try (split; congruence).
  rewrite String.eqb_eq. split; congruence.
Qed.

Lemma taken_In (u : option string) (docs : list Profile) :
  Store.taken u docs = true <-> In u (map username docs).
Proof.
  unfold Store.taken. rewrite existsb_exists, in_map_iff. split.
  - intros (p & Hin & Hp). exists p. split; [| exact Hin].
    symmetry. now apply sameUsername_eq.
  - intros (p & Hp & Hin). exists p. split; [exact Hin |].
    apply sameUsername_eq. now symmetry.
Qed.

Lemma not_taken_In (u : option string) (docs : list Profile) :
  Store.taken u docs = false <-> ~ In u (map username docs).
Proof.
  rewrite <- taken_In. destruct (Store.taken u docs); split; congruence.
Qed.

Lemma unique_removed (before after : list Profile) (p : Profile) :
  uniqueUsernames (before ++ p :: after) -> uniqueUsernames (before ++ after).
Proof.
  unfold uniqueUsernames. rewrite !map_app. cbn [map]. apply NoDup_remove_1.
Qed.

Lemma unique_replaced (before after : list Profile) (old new : Profile) :
  uniqueUsernames (before ++ old :: after) ->
  Store.taken (username new) (before ++ after) = false ->
  uniqueUsernames (before ++ new :: after).
Proof.
  intros Hu Hfree. apply unique_removed in Hu. apply not_taken_In in Hfree.
  unfold uniqueUsernames in *. rewrite map_app in *. cbn [map].
  apply (Permutation_NoDup (Permutation_middle _ _ _)).
  constructor; assumption.
Qed.

Lemma unique_added (docs : list Profile) (doc : Profile) :
  uniqueUsernames docs ->
  Store.taken (username doc) docs = false ->
  uniqueUsernames (docs ++ [doc]).
Proof.
  intros Hu Hfree.
  apply (unique_replaced docs [] doc doc); rewrite ?app_nil_r; [| exact Hfree].
  unfold uniqueUsernames in *. rewrite map_app. cbn [map].
  apply (Permutation_NoDup (Permutation_middle _ _ _)). rewrite app_nil_r.
  constructor; [now apply not_taken_In | exact Hu].
Qed.

(** The ways a run of the create route can end. *)
Lemma create_outcome
  (upload_stream : nat -> Buffer -> string + string)
  (others : list Profile -> list Profile)
  (body : CreateBody) (files : Files) (w : World) :
  exists resp w',
    save_profile upload_stream others body files w = (Val resp, w') /\
    ((status resp = 201 /\
      exists u profileImageUrl headerImageUrl,
        let doc := createDocument u body profileImageUrl headerImageUrl in
        create_username body = Some u /\
        usernameRejected (Some u) = false /\
        Store.missingPaths doc = [] /\
        Store.taken (Some u) (others (db w)) = false /\
        json resp = Saved "Profile saved successfully" (profileKey u) doc /\
        db w' = others (db w) ++ [doc]) \/
     ((status resp = 400 \/ status resp = 500) /\
      (db w' = db w \/ db w' = others (db w)))).
Proof.
  destruct (usernameRejected (create_username body)) eqn:Hrej.
  { eexists _, _. split; [now apply create_rejected |]. right. cbn. auto. }
  destruct (create_username body) as [u |] eqn:Hu; [| discriminate Hrej].
  destruct (find (Store.hasUsername u) (db w)) as [p |] eqn:Hfind.
  { eexists _, _.
    split; [exact (create_taken upload_stream others body files w u p Hu Hrej Hfind) |].
    right. cbn. auto. }
  rewrite (create_after_precheck upload_stream others body files w u Hu Hrej Hfind).
  cbv zeta.
  destruct (createImage upload_stream (List.length (trace w) + 1)
              (files_profileImage files)) as [url1 | m1];
    [| eexists _, _; split; [reflexivity |]; right; cbn; auto].
  destruct (createImage upload_stream _ (files_headerImage files))
    as [url2 | m2];
    [| eexists _, _; split; [reflexivity |]; right; cbn; auto].
  destruct (Store.missingPaths (createDocument u body url1 url2)) eqn:Hreq;
    [| eexists _, _; split; [reflexivity |]; right; cbn; auto].
  destruct (Store.taken (Some u) (others (db w))) eqn:Hfree;
    [eexists _, _; split; [reflexivity |]; right; cbn; auto |].
  eexists _, _. split; [reflexivity |]. left. split; [reflexivity |].
  exists u, url1, url2. cbv zeta. cbn [json db]. repeat split; assumption.
Qed.

(** The ways a run of the delete route can end. *)
Lemma delete_outcome (key : string) (w : World) :
  (exists r before p after,
      RegExp.construct (deletePattern key) "i" = (RegExp.Pattern r, true) /\
      firstSelected (Store.usernameMatches r true) (db w) before p after /\
      delete_profile key w =
      (Val {| status := 200; json := Message "Profile deleted successfully" |},
       {| db := before ++ after; trace := trace w ++ [FindOneAndDelete r] |})) \/
  (exists r,
      RegExp.construct (deletePattern key) "i" = (RegExp.Pattern r, true) /\
      noneSelected (Store.usernameMatches r true) (db w) /\
      delete_profile key w =
      (Val {| status := 404; json := Message "Profile not found" |},
       {| db := db w; trace := trace w ++ [FindOneAndDelete r] |})) \/
  delete_profile key w =
  (Val {| status := 500; json := MessageOf SyntaxError |}, w) \/
  delete_profile key w = (Beyond, w).
Proof.
  rewrite delete_run.
  assert (Hflag : snd (RegExp.construct (deletePattern key) "i") = true).
  { unfold RegExp.construct. cbn. destruct (RegExp.lex _); reflexivity. }
  destruct (RegExp.construct (deletePattern key) "i") as [[r | |] ic];
    cbn in Hflag; subst; auto.
  destruct (selected_or_none (Store.usernameMatches r true) (db w))
    as [(before & p & after & Hsel) | Hnone].
  - left. exists r, before, p, after. split; [reflexivity |].
    split; [exact Hsel |]. now rewrite (removeFirst_selected _ _ _ _ _ Hsel).
  - right. left. exists r. split; [reflexivity |]. split; [exact Hnone |].
    now rewrite (removeFirst_none _ _ Hnone).
Qed.

Lemma parseSocialLinks_cases (socialLinks : option string) (w : World) :
  (exists links, parseSocialLinks socialLinks w = (Val links, w)) \/
  (parseSocialLinks socialLinks w = (Exn SyntaxError, w) /\
   exists text,
     socialLinks = Some text /\ text <> EmptyString /\ JSON.parse text = None).
Proof.
  unfold parseSocialLinks. destruct socialLinks as [text |].
  - destruct text as [| c t] eqn:Htext.
    + left. now eexists.
    + cbn [Js.isEmpty]. rewrite <- Htext.
      destruct (JSON.parse text) eqn:Hparse.
      * left. now eexists.
      * right. split; [reflexivity |]. exists text. subst text.
        repeat split; [discriminate | exact Hparse].
  - left. now eexists.
Qed.

(** The ways a run of the update route can end. *)
Lemma update_outcome
  (upload_stream : nat -> Buffer -> string + string)
  (key : string) (body : UpdateBody) (files : Files) (w w' : World)
  (r : result Response) :
  update_profile upload_stream key body files w = (r, w') ->
  (r = Exn SyntaxError /\ w' = w /\
   exists text,
     update_socialLinks body = Some text /\ text <> EmptyString /\
     JSON.parse text = None) \/
  (db w' = db w /\
   (r = Beyond \/
    exists resp, r = Val resp /\ (status resp = 404 \/ status resp = 500))) \/
  (exists pattern before old after links declaredLinks
          profileImageUrl headerImageUrl,
      let n := List.length (trace w) in
      let first := files_profileImage files in
      let second := files_headerImage files in
      let new :=
        Store.set
          (updateDocument body profileImageUrl headerImageUrl declaredLinks)
          old in
      RegExp.construct (updatePattern key) "i" = (RegExp.Pattern pattern, true) /\
      firstSelected (Store.usernameMatches pattern true) (db w) before old after /\
      parseSocialLinks (update_socialLinks body) w = (Val links, w) /\
      Store.castLinks links = Some declaredLinks /\
      updateImage upload_stream n first (update_profileImage body)
        = inl profileImageUrl /\
      updateImage upload_stream (n + List.length (uploadCalls first)) second
        (update_headerImage body) = inl headerImageUrl /\
      Store.taken (username new) (before ++ after) = false /\
      r = Val {| status := 200; json := Document new |} /\
      db w' = before ++ new :: after).
Proof.
  intros Hrun.
  destruct (parseSocialLinks_cases (update_socialLinks body) w)
    as [(links & Hparse) | (Hparse & Hbad)].
  2:{ left. unfold update_profile, bind in Hrun. rewrite Hparse in Hrun.
      injection Hrun as <- <-. auto. }
  right.
  rewrite (update_run upload_stream key body files w links Hparse) in Hrun.
  cbv zeta in Hrun.
  destruct (updateImage upload_stream _ (files_profileImage files) _)
    as [url1 | m1] eqn:H1;
    [| injection Hrun as <- <-; left; split; [reflexivity |]; right;
       eexists; split; [reflexivity |]; cbn; auto].
  destruct (updateImage upload_stream _ (files_headerImage files) _)
    as [url2 | m2] eqn:H2;
    [| injection Hrun as <- <-; left; split; [reflexivity |]; right;
       eexists; split; [reflexivity |]; cbn; auto].
  assert (Hflag : snd (RegExp.construct (updatePattern key) "i") = true).
  { unfold RegExp.construct. cbn. destruct (RegExp.lex _); reflexivity. }
  destruct (RegExp.construct (updatePattern key) "i") as [[p | |] ic] eqn:Hre;
    cbn in Hflag; subst ic.
  - destruct (castUpdate_cases body url1 url2 links)
      as [(cast & Hcast & Hdoc) | Hdoc]; rewrite Hdoc in Hrun.
    2:{ injection Hrun as <- <-. left. split; [reflexivity |]. now left. }
    destruct (selected_or_none (Store.usernameMatches p true) (db w))
      as [(before & old & after & Hsel) | Hnone].
    + rewrite (replaceFirst_selected _ _ _ _ _ _ Hsel []) in Hrun.
      cbn [app] in Hrun.
      destruct (Store.taken _ (before ++ after)) eqn:Hfree.
      * injection Hrun as <- <-. left. split; [reflexivity |]. right.
        eexists. split; [reflexivity |]. cbn. auto.
      * injection Hrun as <- <-. right.
        exists p, before, old, after, links, cast, url1, url2. cbv zeta.
        repeat split; try assumption; apply Hsel.
    + rewrite (replaceFirst_none _ _ _ Hnone []) in Hrun.
      injection Hrun as <- <-. left. split; [reflexivity |]. right.
      eexists. split; [reflexivity |]. cbn. auto.
  - injection Hrun as <- <-. left. split; [reflexivity |]. right.
    eexists. split; [reflexivity |]. cbn. auto.
  - injection Hrun as <- <-. left. split; [reflexivity |]. left. reflexivity.
Qed.

(** X8: the unique index holds along every route. When no two stored
    profiles share a [username] before a request (and, for a create
    request, the other requests in flight leave it so), none do after it,
    whatever the request and however it ends. *)
Theorem routes_keep_usernames_unique :
  (forall upload_stream others body files w r w',
      uniqueUsernames (db w) -> uniqueUsernames (others (db w)) ->
      save_profile upload_stream others body files w = (r, w') ->
      uniqueUsernames (db w')) /\
  (forall key w r w',
      uniqueUsernames (db w) -> get_profile key w = (r, w') ->
      uniqueUsernames (db w')) /\
  (forall key w r w',
      uniqueUsernames (db w) -> delete_profile key w = (r, w') ->
      uniqueUsernames (db w')) /\
  (forall upload_stream key body files w r w',
      uniqueUsernames (db w) ->
      update_profile upload_stream key body files w = (r, w') ->
      uniqueUsernames (db w')).
Proof.
  repeat split.
  - intros upload_stream others body files w r w' Hu Ho Hrun.
    destruct (create_outcome upload_stream others body files w)
      as (resp & w1 & Hrun1 & Hcase).
    rewrite Hrun1 in Hrun. injection Hrun as _ <-.
    destruct Hcase as [(_ & u & url1 & url2 & Hdoc) | (_ & [-> | ->])];
      try assumption.
    cbv zeta in Hdoc. destruct Hdoc as (_ & _ & _ & Hfree & _ & ->).
    apply unique_added; assumption.
  - intros key w r w' Hu Hrun.
    unfold get_profile, try_catch, bind, Store.findOne in Hrun.
    destruct (find (Store.hasUsername key) (db w));
      injection Hrun as _ <-; exact Hu.
  - intros key w r w' Hu Hrun.
    destruct (delete_outcome key w)
      as [(p & before & q & after & _ & Hsel & Hrun1)
         | [(p & _ & _ & Hrun1) | [Hrun1 | Hrun1]]];
      rewrite Hrun1 in Hrun; injection Hrun as _ <-; try exact Hu.
    cbn [db]. destruct Hsel as (Hdb & _). rewrite Hdb in Hu.
    exact (unique_removed _ _ _ Hu).
  - intros upload_stream key body files w r w' Hu Hrun.
    destruct (update_outcome upload_stream key body files w w' r Hrun)
      as [(_ & -> & _) | [(-> & _) | Hdone]]; try exact Hu.
    destruct Hdone as (p & before & old & after & l & c & u1 & u2 & Hdone).
    cbv zeta in Hdone.
    destruct Hdone as (_ & Hsel & _ & _ & _ & _ & Hfree & _ & ->).
    destruct Hsel as (Hdb & _). rewrite Hdb in Hu.
    exact (unique_replaced _ _ _ _ Hu Hfree).
Qed.

(** X9: for a body whose fields are strings or missing, as [CreateBody]
    has them, the create route always answers, with 201, 400 or 500. Only an
    answer 201 goes with a saved profile: one document, added at the end of
    the store, with its required fields, both flags set and the [username]
    of the request. With any other answer this request has saved nothing. *)
Theorem create_saves_only_on_201
  (upload_stream : nat -> Buffer -> string + string)
  (others : list Profile -> list Profile)
  (body : CreateBody) (files : Files) (w : World) :
  exists resp w',
    save_profile upload_stream others body files w = (Val resp, w') /\
    (status resp = 201 \/ status resp = 400 \/ status resp = 500) /\
    (status resp = 201 ->
     exists doc,
       db w' = others (db w) ++ [doc] /\
       username doc = create_username body /\
       Store.missingPaths doc = [] /\
       isVerified doc <> None /\ isCompany doc <> None) /\
    (status resp <> 201 -> db w' = db w \/ db w' = others (db w)).
Proof.
  destruct (create_outcome upload_stream others body files w)
    as (resp & w' & Hrun & Hcase).
  exists resp, w'. split; [exact Hrun |].
  destruct Hcase as [(Hst & u & url1 & url2 & Hdoc) | (Hst & Hdb)].
  - cbv zeta in Hdoc. destruct Hdoc as (Hu & _ & Hreq & _ & _ & Hdb).
    split; [auto |]. split; [| congruence].
    intros _. exists (createDocument u body url1 url2).
    repeat split; try assumption; try discriminate. now rewrite Hu.
  - split; [destruct Hst; auto |]. split; [| auto].
    intros H. destruct Hst as [Hst | Hst]; rewrite Hst in H; discriminate H.
Qed.

(** X10: the one exception that leaves a handler uncaught is the
    [SyntaxError] of the parse of [socialLinks] in the update route, thrown
    for a text that is not empty and is no JSON, before any call is made.
    The read and delete routes, and the create route on a body whose fields
    are strings or missing, catch whatever is thrown. *)
Theorem uncaught_only_from_socialLinks :
  (forall upload_stream key body files w w' e,
      update_profile upload_stream key body files w = (Exn e, w') ->
      e = SyntaxError /\ w' = w /\
      exists text,
        update_socialLinks body = Some text /\ text <> EmptyString /\
        JSON.parse text = None) /\
  (forall upload_stream others body files w e,
      fst (save_profile upload_stream others body files w) <> Exn e) /\
  (forall key w e, fst (get_profile key w) <> Exn e) /\
  (forall key w e, fst (delete_profile key w) <> Exn e).
Proof.
  repeat split.
  - destruct (update_outcome upload_stream key body files w w' (Exn e) H)
      as [(He & _) | [(_ & [Hb | (resp & Hr & _)]) | Hdone]];
      try congruence.
    destruct Hdone as (p & b & o & a & l & c & u1 & u2 & Hdone).
    cbv zeta in Hdone. destruct Hdone as (_ & _ & _ & _ & _ & _ & _ & Hr & _).
    discriminate Hr.
  - destruct (update_outcome upload_stream key body files w w' (Exn e) H)
      as [(_ & Hw & _) | [(_ & [Hb | (resp & Hr & _)]) | Hdone]];
      try congruence.
    destruct Hdone as (p & b & o & a & l & c & u1 & u2 & Hdone).
    cbv zeta in Hdone. destruct Hdone as (_ & _ & _ & _ & _ & _ & _ & Hr & _).
    discriminate Hr.
  - destruct (update_outcome upload_stream key body files w w' (Exn e) H)
      as [(_ & _ & Ht) | [(_ & [Hb | (resp & Hr & _)]) | Hdone]];
      try congruence.
    destruct Hdone as (p & b & o & a & l & c & u1 & u2 & Hdone).
    cbv zeta in Hdone. destruct Hdone as (_ & _ & _ & _ & _ & _ & _ & Hr & _).
    discriminate Hr.
  - intros upload_stream others body files w e.
    destruct (create_outcome upload_stream others body files w)
      as (resp & w' & -> & _). discriminate.
  - intros key w e. unfold get_profile, try_catch, bind, Store.findOne.
    destruct (find (Store.hasUsername key) (db w)); discriminate.
  - intros key w e.
    destruct (delete_outcome key w)
      as [(p & before & q & after & _ & _ & ->)
         | [(p & _ & _ & ->) | [-> | ->]]]; discriminate.
Qed.

(** X11: the update route never adds or removes a document, the read route
    leaves the store as it is, and the delete route removes one document
    when it answers 200 and none otherwise. *)
Theorem store_size :
  (forall upload_stream key body files w r w',
      update_profile upload_stream key body files w = (r, w') ->
      List.length (db w') = List.length (db w)) /\
  (forall key w r w', get_profile key w = (r, w') -> db w' = db w) /\
  (forall key w r w',
      delete_profile key w = (r, w') ->
      (exists resp, r = Val resp /\ status resp = 200 /\
                    S (List.length (db w')) = List.length (db w)) \/
      ((forall resp, r = Val resp -> status resp <> 200) /\ db w' = db w)).
Proof.
  repeat split.
  - intros upload_stream key body files w r w' Hrun.
    destruct (update_outcome upload_stream key body files w w' r Hrun)
      as [(_ & -> & _) | [(-> & _) | Hdone]]; try reflexivity.
    destruct Hdone as (p & before & old & after & l & c & u1 & u2 & Hdone).
    cbv zeta in Hdone. destruct Hdone as (_ & Hsel & _ & _ & _ & _ & _ & _ & ->).
    destruct Hsel as (-> & _). rewrite !length_app. reflexivity.
  - intros key w r w'. unfold get_profile, try_catch, bind, Store.findOne.
    destruct (find (Store.hasUsername key) (db w)); intros [= _ <-];
      reflexivity.
  - intros key w r w' Hrun.
    destruct (delete_outcome key w)
      as [(p & before & q & after & _ & Hsel & Hrun1)
         | [(p & _ & _ & Hrun1) | [Hrun1 | Hrun1]]];
      rewrite Hrun1 in Hrun; injection Hrun as <- <-.
    + left. eexists. split; [reflexivity |]. split; [reflexivity |].
      destruct Hsel as (-> & _). cbn [db]. rewrite !length_app. cbn. lia.
    + right. split; [| reflexivity]. intros resp [= <-]. discriminate.
    + right. split; [| reflexivity]. intros resp [= <-]. discriminate.
    + right. split; [| reflexivity]. intros resp. discriminate.
Qed.

(** X2: in an update that went through, an image field holds the URL the
    image host returned when the request brought a new file for it; without
    a file it holds the URL of the request body, and what was stored when
    the body has none. *)
Theorem update_image_urls
  (upload_stream : nat -> Buffer -> string + string)
  (key : string) (body : UpdateBody) (files : Files) (w updated : World)
  (new : Profile) :
  update_profile upload_stream key body files w =
  (Val {| status := 200; json := Document new |}, updated) ->
  exists before old after,
    db w = before ++ old :: after /\
    db updated = before ++ new :: after /\
    match files_profileImage files with
    | Some buffer =>
        exists url,
          upload_stream (List.length (trace w)) buffer = inl url /\
          profileImage new = Some url
    | None =>
        profileImage new =
        match update_profileImage body with
        | Some url => Some url
        | None => profileImage old
        end
    end /\
    match files_headerImage files with
    | Some buffer =>
        exists url,
          upload_stream
            (List.length (trace w)
             + List.length (uploadCalls (files_profileImage files))) buffer =
          inl url /\
          headerImage new = Some url
    | None =>
        headerImage new =
        match update_headerImage body with
        | Some url => Some url
        | None => headerImage old
        end
    end.
Proof.
  intros Hrun.
  destruct (update_outcome upload_stream key body files w updated _ Hrun)
    as [(Hr & _) | [(_ & [Hr | (resp & Hr & Hst)]) | Hdone]];
    try discriminate Hr.
  { injection Hr as <-. cbn in Hst. destruct Hst; discriminate. }
  destruct Hdone as (p & before & old & after & links & cast & u1 & u2 & Hdone).
  cbv zeta in Hdone.
  destruct Hdone as (_ & Hsel & _ & _ & H1 & H2 & _ & Hr & Hdb).
  injection Hr as ->. exists before, old, after.
  split; [apply Hsel |]. split; [exact Hdb |].
  cbn [Store.set updateDocument profileImage headerImage].
  unfold updateImage in H1, H2. split.
  - destruct (files_profileImage files) as [buffer |].
    + destruct (upload_stream _ buffer) as [url | message];
        [| discriminate H1].
      injection H1 as <-. now exists url.
    + injection H1 as <-. reflexivity.
  - destruct (files_headerImage files) as [buffer |].
    + destruct (upload_stream _ buffer) as [url | message];
        [| discriminate H2].
      injection H2 as <-. now exists url.
    + injection H2 as <-. reflexivity.
Qed.

Lemma update_image_urls_witness :
  update_profile Sample.host "jane-doe" Sample.partial Sample.noFiles
    Sample.stocked =
  (Val {| status := 200; json := Document Sample.merged |},
   {| db := [Sample.john; Sample.merged];
      trace := [FindOneAndUpdate (anchored "jane-doe") Sample.partialUpdate] |}) /\
  exists before old after,
    db Sample.stocked = before ++ old :: after /\
    [Sample.john; Sample.merged] = before ++ Sample.merged :: after /\
    profileImage Sample.merged =
    match update_profileImage Sample.partial with
    | Some url => Some url
    | None => profileImage old
    end /\
    headerImage Sample.merged =
    match update_headerImage Sample.partial with
    | Some url => Some url
    | None => headerImage old
    end.
Proof.
  split; [reflexivity |].
  exact (update_image_urls Sample.host "jane-doe" Sample.partial Sample.noFiles
           Sample.stocked _ Sample.merged eq_refl).
Defined.

(** ** Plain keys in the update and delete routes *)

Lemma plain_selects (s : string) (p : Profile) :
  Store.usernameMatches (anchored s) true p = true <->
  exists u, username p = Some u /\ Spec.equalIgnoringCase s u.
Proof.
  unfold Store.usernameMatches. destruct (username p) as [v |].
  - rewrite test_plain. split.
    + intros H. now exists v.
    + intros (u & [= ->] & H). exact H.
  - split; [discriminate | intros (u & Hu & _); discriminate Hu].
Qed.

Lemma plain_noneSelected (s : string) (docs : list Profile) :
  (forall p u, In p docs -> username p = Some u ->
               ~ Spec.equalIgnoringCase s u) ->
  noneSelected (Store.usernameMatches (anchored s) true) docs.
Proof.
  intros H. apply Forall_forall. intros p Hin.
  apply not_true_is_false. intros Hsel.
  apply plain_selects in Hsel. destruct Hsel as (u & Hu & Heq).
  exact (H p u Hin Hu Heq).
Qed.

Lemma replaceFirstHyphen_without_hyphen (s : string) :
  Spec.hasHyphen s = false -> Js.replaceFirstHyphen s = s.
Proof.
  induction s as [| c t IH]; [reflexivity |]. cbn.
  intros H. apply orb_false_elim in H. destruct H as [Hc Ht].
  now rewrite Hc, IH.
Qed.

Lemma replaceFirstHyphen_differs (s : string) :
  Spec.hasHyphen s = true ->
  ~ Spec.equalIgnoringCase (Js.replaceFirstHyphen s) s.
Proof.
  unfold Spec.equalIgnoringCase. induction s as [| c t IH]; [discriminate |].
  cbn. destruct (Ascii.eqb c "-") eqn:Hc.
  - apply Ascii.eqb_eq in Hc. subst c. intros _. cbn. discriminate.
  - cbn. intros Ht [= H]. now apply IH.
Qed.

Lemma equalIgnoringCase_sym (a b : string) :
  Spec.equalIgnoringCase a b -> Spec.equalIgnoringCase b a.
Proof. unfold Spec.equalIgnoringCase. congruence. Qed.

Lemma equalIgnoringCase_trans (a b c : string) :
  Spec.equalIgnoringCase a b -> Spec.equalIgnoringCase b c ->
  Spec.equalIgnoringCase a c.
Proof. unfold Spec.equalIgnoringCase. congruence. Qed.

(** X12: an update under a plain key that no stored [username] equals up to
    letter case, with [socialLinks] an object of strings, is answered 404
    and stores nothing; by then the new files of the request have been
    uploaded. *)
Theorem update_missing_profile
  (upload_stream : nat -> Buffer -> string + string)
  (key : string) (body : UpdateBody) (files : Files) (w : World)
  (links declaredLinks : JSON.json)
  (profileImageUrl headerImageUrl : option string) :
  let n := List.length (trace w) in
  let first := files_profileImage files in
  let second := files_headerImage files in
  isPlain key = true ->
  (forall p u, In p (db w) -> username p = Some u ->
               ~ Spec.equalIgnoringCase key u) ->
  parseSocialLinks (update_socialLinks body) w = (Val links, w) ->
  Store.castLinks links = Some declaredLinks ->
  updateImage upload_stream n first (update_profileImage body)
    = inl profileImageUrl ->
  updateImage upload_stream (n + List.length (uploadCalls first)) second
    (update_headerImage body) = inl headerImageUrl ->
  update_profile upload_stream key body files w =
  (Val {| status := 404; json := Message "Profile not found" |},
   {| db := db w;
      trace := trace w ++ uploadCalls first ++ uploadCalls second
               ++ [FindOneAndUpdate (anchored key)
                     (updateDocument body profileImageUrl headerImageUrl
                        links)] |}).
Proof.
  intros n first second Hplain Hnone Hparse Hcast H1 H2.
  rewrite (update_run upload_stream key body files w links Hparse).
  cbv zeta. fold n first second. rewrite H1, H2.
  unfold updatePattern. rewrite (construct_plain key Hplain).
  rewrite (castUpdate_document body _ _ links _ Hcast).
  rewrite (replaceFirst_none _ _ _ (plain_noneSelected key (db w) Hnone) []).
  now rewrite <- !app_assoc.
Qed.

Lemma update_missing_profile_witness :
  isPlain "nobody" = true /\
  update_profile Sample.host "nobody" Sample.edit Sample.withPhoto
    Sample.stocked =
  (Val {| status := 404; json := Message "Profile not found" |},
   {| db := db Sample.stocked;
      trace := [Upload Sample.photo;
                FindOneAndUpdate (anchored "nobody")
                  (updateDocument Sample.edit
                     (Some "https://img.example/p.jpg") (Some EmptyString)
                     (JSON.JObject []))] |}).
Proof.
  split; [reflexivity |].
  apply (update_missing_profile Sample.host "nobody" Sample.edit
           Sample.withPhoto Sample.stocked (JSON.JObject []) (JSON.JObject [])
           (Some "https://img.example/p.jpg") (Some EmptyString) eq_refl);
    try reflexivity.
  intros p u [<- | [<- | []]] [= <-] H; vm_compute in H; discriminate H.
Defined.

(** X13: an update that sets a [username] another stored profile holds is
    answered 500 with the duplicate-key error of the store, and no profile
    is changed. *)
Theorem update_username_collision
  (upload_stream : nat -> Buffer -> string + string)
  (key name : string) (body : UpdateBody) (files : Files) (w : World)
  (links declaredLinks : JSON.json) (r : RegExp.regex)
  (profileImageUrl headerImageUrl : option string)
  (before : list Profile) (old : Profile) (after : list Profile) :
  let n := List.length (trace w) in
  let first := files_profileImage files in
  let second := files_headerImage files in
  let update := updateDocument body profileImageUrl headerImageUrl links in
  parseSocialLinks (update_socialLinks body) w = (Val links, w) ->
  Store.castLinks links = Some declaredLinks ->
  updateImage upload_stream n first (update_profileImage body)
    = inl profileImageUrl ->
  updateImage upload_stream (n + List.length (uploadCalls first)) second
    (update_headerImage body) = inl headerImageUrl ->
  RegExp.construct (updatePattern key) "i" = (RegExp.Pattern r, true) ->
  firstSelected (Store.usernameMatches r true) (db w) before old after ->
  update_username body = Some name ->
  (exists other, In other (before ++ after) /\ username other = Some name) ->
  update_profile upload_stream key body files w =
  (Val {| status := 500;
          json := MessageError "Error updating profile" DuplicateKey |},
   {| db := db w;
      trace := trace w ++ uploadCalls first ++ uploadCalls second
               ++ [FindOneAndUpdate r update] |}).
Proof.
  intros n first second update Hparse Hcast H1 H2 Hre Hsel Hname
    (other & Hin & Hother).
  rewrite (update_selected upload_stream key body files w links declaredLinks r
             profileImageUrl headerImageUrl before old after
             Hparse Hcast H1 H2 Hre Hsel).
  cbn [Store.set updateDocument username]. rewrite Hname. cbn [Store.given].
  assert (Htaken : Store.taken (Some name) (before ++ after) = true).
  { apply taken_In. apply in_map_iff. exists other. split; [| exact Hin].
    exact Hother. }
  rewrite Htaken. reflexivity.
Qed.

Lemma update_username_collision_witness :
  (exists other, In other ([] ++ [Sample.janeWithPhone]) /\
                 username other = Some "jane-doe") /\
  update_profile Sample.host "john smith" Sample.edit Sample.noFiles
    Sample.stocked =
  (Val {| status := 500;
          json := MessageError "Error updating profile" DuplicateKey |},
   {| db := db Sample.stocked;
      trace := [FindOneAndUpdate (anchored "john smith") Sample.edited] |}).
Proof.
  assert (H : exists other, In other ([] ++ [Sample.janeWithPhone]) /\
                            username other = Some "jane-doe").
  { exists Sample.janeWithPhone. split; [now left | reflexivity]. }
  split; [exact H |].
  apply (update_username_collision Sample.host "john smith" "jane-doe"
           Sample.edit Sample.noFiles Sample.stocked (JSON.JObject [])
           (JSON.JObject []) (anchored "john smith")
           (Some "https://img.example/old.jpg") (Some EmptyString)
           [] Sample.john [Sample.janeWithPhone]);
    try reflexivity; [| exact H].
  split; [reflexivity |]. split; [reflexivity | constructor].
Defined.

(** ** Routes in sequence *)

Lemma not_taken_hasUsername (u : string) (docs : list Profile) :
  Store.taken (Some u) docs = false ->
  Forall (fun q => Store.hasUsername u q = false) docs.
Proof.
  intros H. apply Forall_forall. intros q Hin.
  apply not_true_is_false. intros Hq. unfold Store.hasUsername in Hq.
  destruct (username q) as [v |] eqn:Hv; [| discriminate Hq].
  apply String.eqb_eq in Hq. subst v.
  apply not_taken_In in H. apply H. rewrite <- Hv. now apply in_map.
Qed.

Lemma read_run (key : string) (w : World) :
  get_profile key w =
  (Val match find (Store.hasUsername key) (db w) with
       | Some p => {| status := 200; json := Document p |}
       | None => {| status := 404; json := Message "Profile not found" |}
       end,
   {| db := db w; trace := trace w ++ [FindOne key] |}).
Proof.
  unfold get_profile, try_catch, bind, Store.findOne.
  destruct (find (Store.hasUsername key) (db w)); reflexivity.
Qed.

(** X14: after an update that went through, reading the [username] the
    update set returns the updated document; and when the update changed the
    name, in a store without duplicate names, reading the former name is
    answered 404. *)
Theorem update_then_read
  (upload_stream : nat -> Buffer -> string + string)
  (key : string) (body : UpdateBody) (files : Files) (w updated : World)
  (new : Profile) (name : string) :
  update_profile upload_stream key body files w =
  (Val {| status := 200; json := Document new |}, updated) ->
  update_username body = Some name ->
  fst (get_profile name updated) =
  Val {| status := 200; json := Document new |} /\
  (uniqueUsernames (db w) ->
   exists before old after former,
     db w = before ++ old :: after /\
     db updated = before ++ new :: after /\
     username old = Some former /\
     (former <> name ->
      fst (get_profile former updated) =
      Val {| status := 404; json := Message "Profile not found" |})).
Proof.
  intros Hrun Hname.
  destruct (update_outcome upload_stream key body files w updated _ Hrun)
    as [(Hr & _) | [(_ & [Hr | (resp & Hr & Hst)]) | Hdone]];
    try discriminate Hr.
  { injection Hr as <-. cbn in Hst. destruct Hst; discriminate. }
  destruct Hdone as (p & before & old & after & l & c & u1 & u2 & Hdone).
  cbv zeta in Hdone.
  destruct Hdone as (Hre & Hsel & _ & _ & _ & _ & Hfree & Hr & Hdb).
  injection Hr as Hr. rewrite <- Hr in Hfree, Hdb.
  assert (Hnew : username new = Some name).
  { rewrite Hr. cbn [Store.set updateDocument username]. now rewrite Hname. }
  rewrite Hnew in Hfree.
  assert (Hself : Store.hasUsername name new = true).
  { unfold Store.hasUsername. rewrite Hnew. apply String.eqb_refl. }
  pose proof (not_taken_hasUsername name _ Hfree) as Hnone.
  apply Forall_app in Hnone. destruct Hnone as [Hb Ha].
  split.
  - rewrite read_run, Hdb. cbn [fst].
    now rewrite (find_selected (Store.hasUsername name) _ before new after
                   (conj eq_refl (conj Hself Hb))).
  - intros Hunique. destruct Hsel as (Hw & Hold & _).
    unfold Store.usernameMatches in Hold.
    destruct (username old) as [former |] eqn:Hformer; [| discriminate Hold].
    exists before, old, after, former. split; [exact Hw |].
    split; [exact Hdb |]. split; [exact Hformer |]. intros Hdiff.
    rewrite read_run, Hdb. cbn [fst].
    rewrite find_noneSelected; [reflexivity |].
    rewrite Hw in Hunique. unfold uniqueUsernames in Hunique.
    rewrite map_app in Hunique. cbn [map] in Hunique.
    apply NoDup_remove_2 in Hunique. rewrite Hformer, <- map_app in Hunique.
    apply not_taken_In, not_taken_hasUsername in Hunique.
    apply Forall_app in Hunique. destruct Hunique as [Hb' Ha'].
    apply Forall_app. split; [exact Hb' |]. constructor; [| exact Ha'].
    unfold Store.hasUsername. rewrite Hnew. apply String.eqb_neq. exact Hdiff.
Qed.

Lemma update_then_read_witness :
  update_profile Sample.host "JANE-DOE" Sample.edit Sample.noFiles
    Sample.stocked =
  (Val {| status := 200; json := Document Sample.edited |},
   {| db := [Sample.john; Sample.edited];
      trace := [FindOneAndUpdate (anchored "JANE-DOE") Sample.edited] |}) /\
  fst (get_profile "jane-doe"
         {| db := [Sample.john; Sample.edited];
            trace := [FindOneAndUpdate (anchored "JANE-DOE") Sample.edited] |}) =
  Val {| status := 200; json := Document Sample.edited |}.
Proof.
  split; [reflexivity |].
  exact (proj1 (update_then_read Sample.host "JANE-DOE" Sample.edit
                  Sample.noFiles Sample.stocked _ Sample.edited "jane-doe"
                  eq_refl eq_refl)).
Defined.

(** X15: in a store without duplicate names, after a delete request that
    was answered 200 the name of the removed profile reads 404. *)
Theorem delete_then_read (key : string) (w deleted : World) :
  uniqueUsernames (db w) ->
  delete_profile key w =
  (Val {| status := 200; json := Message "Profile deleted successfully" |},
   deleted) ->
  exists before removed after name,
    db w = before ++ removed :: after /\
    db deleted = before ++ after /\
    username removed = Some name /\
    fst (get_profile name deleted) =
    Val {| status := 404; json := Message "Profile not found" |}.
Proof.
  intros Hunique Hrun.
  destruct (delete_outcome key w)
    as [(p & before & q & after & _ & Hsel & Hrun1)
       | [(p & _ & _ & Hrun1) | [Hrun1 | Hrun1]]];
    rewrite Hrun1 in Hrun; try discriminate Hrun.
  injection Hrun as <-. destruct Hsel as (Hw & Hq & _).
  unfold Store.usernameMatches in Hq.
  destruct (username q) as [name |] eqn:Hname; [| discriminate Hq].
  exists before, q, after, name. repeat split; try assumption.
  rewrite read_run. cbn [fst db].
  rewrite find_noneSelected; [reflexivity |].
  rewrite Hw in Hunique. unfold uniqueUsernames in Hunique.
  rewrite map_app in Hunique. cbn [map] in Hunique.
  apply NoDup_remove_2 in Hunique. rewrite Hname, <- map_app in Hunique.
  now apply not_taken_In, not_taken_hasUsername in Hunique.
Qed.

Lemma delete_then_read_witness :
  uniqueUsernames (db Sample.stocked) /\
  exists before removed after name,
    db Sample.stocked = before ++ removed :: after /\
    [Sample.janeWithPhone] = before ++ after /\
    username removed = Some name /\
    fst (get_profile name
           {| db := [Sample.janeWithPhone];
              trace := [FindOneAndDelete (anchored "john smith")] |}) =
    Val {| status := 404; json := Message "Profile not found" |}.
Proof.
  assert (H : uniqueUsernames (db Sample.stocked)).
  { repeat constructor; cbn; intuition discriminate. }
  split; [exact H |].
  exact (delete_then_read "john-smith" Sample.stocked _ H eq_refl).
Defined.

(** X16: with no other request in flight, creating a profile under a plain
    name without a hyphen that no stored name equals up to letter case, and
    then deleting that name, is answered 201 and 200 and leaves the store as
    it was before the two requests. *)
Theorem create_then_delete
  (upload_stream : nat -> Buffer -> string + string)
  (body : CreateBody) (files : Files) (w : World) (u : string)
  (profileImageUrl headerImageUrl : string) :
  let n := List.length (trace w) + 1 in
  let first := files_profileImage files in
  let second := files_headerImage files in
  let doc := createDocument u body profileImageUrl headerImageUrl in
  create_username body = Some u ->
  usernameRejected (Some u) = false ->
  isPlain u = true ->
  Spec.hasHyphen u = false ->
  (forall p v, In p (db w) -> username p = Some v ->
               ~ Spec.equalIgnoringCase u v) ->
  createImage upload_stream n first = inl profileImageUrl ->
  createImage upload_stream (n + List.length (uploadCalls first)) second
    = inl headerImageUrl ->
  Store.missingPaths doc = [] ->
  exists created deleted,
    save_profile upload_stream Sample.alone body files w =
    (Val {| status := 201;
            json := Saved "Profile saved successfully" (profileKey u) doc |},
     created) /\
    delete_profile u created =
    (Val {| status := 200; json := Message "Profile deleted successfully" |},
     deleted) /\
    db deleted = db w.
Proof.
  intros n first second doc Hu Hok Hplain Hhyphen Hfresh H1 H2 Hreq.
  pose proof (plain_noneSelected u (db w) Hfresh) as Hnone.
  assert (Hfind : find (Store.hasUsername u) (db w) = None).
  { destruct (find (Store.hasUsername u) (db w)) as [p |] eqn:E; [| reflexivity].
    apply find_some in E. destruct E as [Hin Hp].
    unfold Store.hasUsername in Hp.
    destruct (username p) as [v |] eqn:Hv; [| discriminate Hp].
    apply String.eqb_eq in Hp. subst v.
    destruct (Hfresh p u Hin Hv). reflexivity. }
  assert (Hfree : Store.taken (Some u) (db w) = false).
  { apply not_taken_In. intros Hin. apply in_map_iff in Hin.
    destruct Hin as (p & Hp & Hin). destruct (Hfresh p u Hin Hp). reflexivity. }
  rewrite (create_after_precheck upload_stream Sample.alone body files w u
             Hu Hok Hfind).
  cbv zeta. fold n first second. rewrite H1, H2. fold doc.
  unfold Sample.alone. rewrite Hreq, Hfree.
  eexists _, _. split; [reflexivity |].
  rewrite delete_run. unfold deletePattern.
  rewrite (replaceFirstHyphen_without_hyphen u Hhyphen).
  rewrite (construct_plain u Hplain). cbn [db trace].
  assert (Hsel : firstSelected (Store.usernameMatches (anchored u) true)
                   (db w ++ [doc]) (db w) doc []).
  { split; [reflexivity |]. split; [| exact Hnone].
    apply plain_selects. exists u. split; reflexivity. }
  rewrite (removeFirst_selected _ _ _ _ _ Hsel).
  split; [reflexivity |]. cbn [db]. apply app_nil_r.
Qed.

Lemma create_then_delete_witness :
  isPlain "Jane  Van Doe" = true /\ Spec.hasHyphen "Jane  Van Doe" = false /\
  exists created deleted,
    save_profile Sample.host Sample.alone Sample.spaced Sample.noFiles
      Sample.withJane =
    (Val {| status := 201;
            json := Saved "Profile saved successfully" "jane-van-doe"
                      (createDocument "Jane  Van Doe" Sample.spaced
                         EmptyString EmptyString) |},
     created) /\
    delete_profile "Jane  Van Doe" created =
    (Val {| status := 200; json := Message "Profile deleted successfully" |},
     deleted) /\
    db deleted = db Sample.withJane.
Proof.
  split; [reflexivity |]. split; [reflexivity |].
  apply (create_then_delete Sample.host Sample.spaced Sample.noFiles
           Sample.withJane "Jane  Van Doe" EmptyString EmptyString);
    try reflexivity.
  intros p v [<- | []] [= <-] H. vm_compute in H. discriminate H.
Defined.

(** X17: the delete route never removes a profile under its own name when
    that name is plain and holds a hyphen: the first hyphen of the key has
    become a space, which no such name matches. Every stored profile whose
    [username] equals the key up to letter case is still stored after the
    request. *)
Theorem delete_spares_hyphenated_name
  (key : string) (w w' : World) (r : result Response) (p : Profile)
  (u : string) :
  isPlain key = true ->
  Spec.hasHyphen key = true ->
  delete_profile key w = (r, w') ->
  In p (db w) -> username p = Some u -> Spec.equalIgnoringCase key u ->
  In p (db w').
Proof.
  intros Hplain Hhyphen Hrun Hin Hu Heq.
  rewrite delete_run in Hrun. unfold deletePattern in Hrun.
  rewrite (construct_plain _ (isPlain_replaceFirstHyphen key Hplain)) in Hrun.
  assert (Hp : Store.usernameMatches
                 (anchored (Js.replaceFirstHyphen key)) true p = false).
  { apply not_true_is_false. intros Hsel. apply plain_selects in Hsel.
    destruct Hsel as (v & Hv & Hci). rewrite Hu in Hv. injection Hv as <-.
    apply (replaceFirstHyphen_differs key Hhyphen).
    apply (equalIgnoringCase_trans _ u _ Hci).
    now apply equalIgnoringCase_sym. }
  destruct (selected_or_none
              (Store.usernameMatches (anchored (Js.replaceFirstHyphen key)) true)
              (db w)) as [(before & q & after & Hsel) | Hnone].
  - rewrite (removeFirst_selected _ _ _ _ _ Hsel) in Hrun.
    injection Hrun as _ <-. cbn [db].
    destruct Hsel as (Hw & Hq & _). rewrite Hw in Hin.
    apply in_app_or in Hin. apply in_or_app.
    destruct Hin as [Hin | [<- | Hin]]; auto. congruence.
  - rewrite (removeFirst_none _ _ Hnone) in Hrun.
    injection Hrun as _ <-. exact Hin.
Qed.

Lemma delete_spares_hyphenated_name_witness :
  (isPlain "Jane-Doe" = true /\ Spec.hasHyphen "Jane-Doe" = true /\
   Spec.equalIgnoringCase "Jane-Doe" "jane-doe") /\
  delete_profile "Jane-Doe" Sample.withJane =
  (Val {| status := 404; json := Message "Profile not found" |},
   {| db := [Sample.janeDoc];
      trace := [FindOneAndDelete (anchored "Jane Doe")] |}) /\
  In Sample.janeDoc [Sample.janeDoc].
Proof.
  split; [repeat split |]. split; [reflexivity |].
  exact (delete_spares_hyphenated_name "Jane-Doe" Sample.withJane _ _
           Sample.janeDoc "jane-doe" eq_refl eq_refl eq_refl
           (or_introl eq_refl) eq_refl eq_refl).
Defined.

(** ** Keys that are patterns *)

Lemma star_dot_matches (ignoreCase : bool) (rest : list ascii) :
  forall before,
    Forall (fun c => Js.isLineTerminator c = false) rest ->
    RegExp.Matches ignoreCase (before ++ rest) (RegExp.Star RegExp.Dot)
      (List.length before) (List.length (before ++ rest)).
Proof.
  induction rest as [| d rest IH]; intros before Hall.
  - rewrite app_nil_r. constructor.
  - inversion Hall as [| d' rest' Hd Hrest]; subst.
    apply RegExp.MatchStarStep with (j := S (List.length before)).
    + apply RegExp.MatchDot with (d := d); [| exact Hd].
      rewrite nth_error_app2 by lia. now rewrite Nat.sub_diag.
    + specialize (IH (before ++ [d]) Hrest).
      rewrite <- app_assoc, length_app in IH. cbn in IH.
      now rewrite Nat.add_1_r in IH.
Qed.

Lemma allChars_Forall (f : ascii -> bool) (s : string) :
  allChars f s = true -> Forall (fun c => f c = true) (list_ascii_of_string s).
Proof.
  induction s as [| c t IH]; cbn; [constructor |].
  intros H. apply andb_prop in H. destruct H as [Hc Ht].
  constructor; auto.
Qed.

(** [^.*$] accepts every string without a line terminator. *)
Lemma test_anything (u : string) :
  allChars notLineTerminator u = true -> RegExp.test anything true u = true.
Proof.
  intros H. apply allChars_Forall in H.
  assert (Hall : Forall (fun c => Js.isLineTerminator c = false)
                   (list_ascii_of_string u)).
  { eapply Forall_impl; [| exact H]. intros c Hc.
    unfold notLineTerminator in Hc. now apply negb_true_iff in Hc. }
  pose proof (star_dot_matches true (list_ascii_of_string u) [] Hall) as Hstar.
  cbn [app List.length] in Hstar.
  assert (Hm : RegExp.Matches true (list_ascii_of_string u) anything 0
                 (List.length (list_ascii_of_string u))).
  { unfold anything. apply RegExp.MatchCat with (j := 0); [constructor |].
    apply RegExp.MatchCat with (j := List.length (list_ascii_of_string u));
      [exact Hstar |].
    apply RegExp.MatchCat with (j := List.length (list_ascii_of_string u));
      constructor. }
  apply ends_Matches in Hm.
  unfold RegExp.test, RegExp.search. cbn [seq existsb].
  unfold RegExp.matchesAt at 1.
  destruct (RegExp.ends true (list_ascii_of_string u) anything 0);
    [destruct Hm | reflexivity].
Qed.

(** X18: the key [.*] is the pattern [^.*$], which every name without a
    line terminator matches. Whatever the store holds, a delete request
    under that key removes the first stored profile with such a name, and
    an update request under it (without files, with [socialLinks] an object
    of strings) sets the fields it supplies in that profile, whatever the
    profile is called. *)
Theorem wildcard_key
  (w : World) (first : Profile) (rest : list Profile) (u : string) :
  db w = first :: rest ->
  username first = Some u ->
  allChars notLineTerminator u = true ->
  delete_profile ".*" w =
  (Val {| status := 200; json := Message "Profile deleted successfully" |},
   {| db := rest; trace := trace w ++ [FindOneAndDelete anything] |}) /\
  (forall upload_stream body links declaredLinks,
      parseSocialLinks (update_socialLinks body) w = (Val links, w) ->
      Store.castLinks links = Some declaredLinks ->
      let update := updateDocument body (update_profileImage body)
                      (update_headerImage body) links in
      let new := Store.set
                   (updateDocument body (update_profileImage body)
                      (update_headerImage body) declaredLinks) first in
      Store.taken (username new) rest = false ->
      update_profile upload_stream ".*" body Sample.noFiles w =
      (Val {| status := 200; json := Document new |},
       {| db := new :: rest;
          trace := trace w ++ [FindOneAndUpdate anything update] |})).
Proof.
  intros Hdb Hu Hline.
  assert (Hsel : firstSelected (Store.usernameMatches anything true) (db w)
                   [] first rest).
  { split; [exact Hdb |]. split; [| constructor].
    unfold Store.usernameMatches. rewrite Hu. now apply test_anything. }
  split.
  - rewrite delete_run.
    change (RegExp.construct (deletePattern ".*") "i")
      with (RegExp.Pattern anything, true).
    cbv beta iota. now rewrite (removeFirst_selected _ _ _ _ _ Hsel).
  - intros upload_stream body links declaredLinks Hparse Hcast update new Hfree.
    rewrite (update_selected upload_stream ".*" body Sample.noFiles w links
               declaredLinks anything (update_profileImage body)
               (update_headerImage body) [] first rest
               Hparse Hcast eq_refl eq_refl eq_refl Hsel).
    cbn [app]. fold new. rewrite Hfree.
    cbn [Sample.noFiles files_profileImage files_headerImage uploadCalls app].
    reflexivity.
Qed.

Lemma wildcard_key_witness :
  allChars notLineTerminator "john smith" = true /\
  delete_profile ".*" Sample.stocked =
  (Val {| status := 200; json := Message "Profile deleted successfully" |},
   {| db := [Sample.janeWithPhone];
      trace := [FindOneAndDelete anything] |}) /\
  update_profile Sample.host ".*" Sample.retire Sample.noFiles Sample.stocked =
  (Val {| status := 200;
          json := Document
                    {| username := Some "john smith";
                       name := Some "John";
                       jobTitle := Some "Retired";
                       profileImage := Some EmptyString;
                       headerImage := Some EmptyString;
                       phone := None;
                       email := None;
                       isVerified := Some false;
                       isCompany := Some false;
                       socialLinks := Some (JSON.JObject []) |} |},
   {| db := [{| username := Some "john smith";
                name := Some "John";
                jobTitle := Some "Retired";
                profileImage := Some EmptyString;
                headerImage := Some EmptyString;
                phone := None;
                email := None;
                isVerified := Some false;
                isCompany := Some false;
                socialLinks := Some (JSON.JObject []) |};
             Sample.janeWithPhone];
      trace := [FindOneAndUpdate anything
                  {| username := None;
                     name := None;
                     jobTitle := Some "Retired";
                     profileImage := None;
                     headerImage := None;
                     phone := None;
                     email := None;
                     isVerified := None;
                     isCompany := None;
                     socialLinks := Some (JSON.JObject []) |}] |}).
Proof.
  split; [reflexivity |].
  destruct (wildcard_key Sample.stocked Sample.john [Sample.janeWithPhone]
              "john smith" eq_refl eq_refl eq_refl) as [Hdelete Hupdate].
  split; [exact Hdelete |].
  exact (Hupdate Sample.host Sample.retire (JSON.JObject []) (JSON.JObject [])
           eq_refl eq_refl eq_refl).
Defined.

Lemma lex_open (d : ascii) (t : string) :
  d <> "?"%char ->
  RegExp.lex (String "(" (String d t)) =
  option_map (cons RegExp.TOpen) (RegExp.lex (String d t)).
Proof.
  intros Hd. destruct d as [[] [] [] [] [] [] [] []];
    try reflexivity. now destruct Hd.
Qed.

Lemma plain_first_not_quest (d : ascii) (t : string) :
  isPlain (String d t) = true -> d <> "?"%char.
Proof. intros H ->. discriminate H. Qed.

(** A key that starts with one of these characters and is plain after it
    makes no pattern. *)
Lemma construct_broken (c : ascii) (rest : string) :
  breaksPattern c = true -> isPlain rest = true ->
  RegExp.construct ("^" ++ String c rest ++ "$") "i" =
  (RegExp.SyntaxError, true).
Proof.
  intros Hc Hrest. unfold RegExp.construct.
  change (String.eqb "i" "i") with true. cbn [orb].
  change ("^" ++ String c rest ++ "$")%string
    with (String "^" (String c (rest ++ "$"))).
  pose proof (lex_plain rest "$" [RegExp.TEol] Hrest eq_refl) as Hlex.
  unfold breaksPattern in Hc. cbn [existsb] in Hc.
  repeat (apply orb_prop in Hc; destruct Hc as [Hc | Hc]);
    try discriminate Hc; apply Ascii.eqb_eq in Hc; subst c.
  - cbn -[String.append]. rewrite Hlex. reflexivity.
  - cbn -[String.append]. rewrite Hlex. reflexivity.
  - cbn -[String.append]. rewrite Hlex. reflexivity.
  - destruct rest as [| d t].
    + reflexivity.
    + change (String d t ++ "$")%string with (String d (t ++ "$")).
      change (RegExp.lex (String "^" (String "(" (String d (t ++ "$")))))
        with (option_map (cons RegExp.TBol)
                (RegExp.lex (String "(" (String d (t ++ "$"))))).
      rewrite (lex_open d (t ++ "$") (plain_first_not_quest d t Hrest)).
      change (String d (t ++ "$")) with (String d t ++ "$")%string.
      rewrite Hlex. cbn [option_map RegExp.parse].
      rewrite parse_chars by discriminate. reflexivity.
  - cbn -[String.append]. rewrite Hlex. reflexivity.
Qed.

(** X5: a path key that starts with a quantifier ([*], [+], [?]) or with a
    parenthesis, and is plain after it, makes the pattern ill-formed: the
    delete route answers 500 with the [SyntaxError], and so does the update
    route; the store is not asked and stays as it was. *)
Theorem invalid_pattern_key (c : ascii) (rest : string) (w : World) :
  breaksPattern c = true ->
  isPlain rest = true ->
  delete_profile (String c rest) w =
  (Val {| status := 500; json := MessageOf SyntaxError |}, w) /\
  (forall upload_stream body links,
      parseSocialLinks (update_socialLinks body) w = (Val links, w) ->
      update_profile upload_stream (String c rest) body Sample.noFiles w =
      (Val {| status := 500;
              json := MessageError "Error updating profile" SyntaxError |}, w)).
Proof.
  intros Hc Hrest. split.
  - rewrite delete_run. unfold deletePattern.
    assert (Hsub : Js.replaceFirstHyphen (String c rest) =
                   String c (Js.replaceFirstHyphen rest)).
    { cbn. destruct (Ascii.eqb c "-") eqn:E; [| reflexivity].
      apply Ascii.eqb_eq in E. subst c. discriminate Hc. }
    rewrite Hsub.
    now rewrite (construct_broken c _ Hc (isPlain_replaceFirstHyphen rest Hrest)).
  - intros upload_stream body links Hparse.
    rewrite (update_run upload_stream _ body Sample.noFiles w links Hparse).
    cbv zeta.
    cbn [Sample.noFiles files_profileImage files_headerImage updateImage
         uploadCalls].
    unfold updatePattern. rewrite (construct_broken c rest Hc Hrest).
    destruct w as [docs calls]. cbn [db trace]. now rewrite !app_nil_r.
Qed.

Lemma invalid_pattern_key_witness :
  (breaksPattern "(" = true /\ isPlain "jane" = true) /\
  delete_profile "(jane" Sample.stocked =
  (Val {| status := 500; json := MessageOf SyntaxError |}, Sample.stocked) /\
  update_profile Sample.host "(jane" Sample.edit Sample.noFiles Sample.stocked =
  (Val {| status := 500;
          json := MessageError "Error updating profile" SyntaxError |},
   Sample.stocked).
Proof.
  split; [split; reflexivity |].
  destruct (invalid_pattern_key "(" "jane" Sample.stocked eq_refl eq_refl)
    as [Hdelete Hupdate].
  split; [exact Hdelete |].
  exact (Hupdate Sample.host Sample.edit (JSON.JObject []) eq_refl).
Defined.

(** X6: with no other request in flight, after a create answered 201 the
    [username] of the request reads the new profile back. The key of the
    response does so only when it is the [username] itself: when it differs
    and is the name of no profile stored before, reading the key is answered
    404. *)
Theorem read_by_returned_key
  (upload_stream : nat -> Buffer -> string + string)
  (body : CreateBody) (files : Files) (w created : World) (resp : Response) :
  save_profile upload_stream Sample.alone body files w = (Val resp, created) ->
  status resp = 201 ->
  exists u doc,
    create_username body = Some u /\
    json resp = Saved "Profile saved successfully" (profileKey u) doc /\
    fst (get_profile u created) =
    Val {| status := 200; json := Document doc |} /\
    (profileKey u <> u ->
     (forall p, In p (db w) -> username p <> Some (profileKey u)) ->
     fst (get_profile (profileKey u) created) =
     Val {| status := 404; json := Message "Profile not found" |}).
Proof.
  intros Hrun Hstatus.
  destruct (create_outcome upload_stream Sample.alone body files w)
    as (resp' & w' & Hrun' & Hcase).
  rewrite Hrun' in Hrun. injection Hrun as -> ->.
  destruct Hcase as [(_ & u & url1 & url2 & Hdoc) | ([Hst | Hst] & _)];
    [| rewrite Hst in Hstatus; discriminate Hstatus
     | rewrite Hst in Hstatus; discriminate Hstatus].
  cbv zeta in Hdoc. destruct Hdoc as (Hu & _ & _ & Hfree & Hjson & Hdb).
  unfold Sample.alone in Hfree, Hdb.
  exists u, (createDocument u body url1 url2).
  split; [exact Hu |]. split; [exact Hjson |]. split.
  - rewrite read_run, Hdb. cbn [fst].
    rewrite (find_app_last (Store.hasUsername u) (db w) _
               (taken_find u (db w) Hfree)); [reflexivity |].
    unfold Store.hasUsername. cbn. apply String.eqb_refl.
  - intros Hkey Hnone. rewrite read_run, Hdb. cbn [fst].
    rewrite find_noneSelected; [reflexivity |].
    apply Forall_app. split.
    + apply Forall_forall. intros p Hin. unfold Store.hasUsername.
      destruct (username p) as [v |] eqn:Hv; [| reflexivity].
      apply String.eqb_neq. intros <-. exact (Hnone p Hin Hv).
    + constructor; [| constructor]. unfold Store.hasUsername. cbn.
      now apply String.eqb_neq.
Qed.

Lemma read_by_returned_key_witness :
  status {| status := 201;
            json := Saved "Profile saved successfully" "jane-van-doe"
                      (createDocument "Jane  Van Doe" Sample.spaced
                         EmptyString EmptyString) |} = 201 /\
  fst (get_profile "jane-van-doe"
         {| db := [Sample.janeDoc;
                   createDocument "Jane  Van Doe" Sample.spaced
                     EmptyString EmptyString];
            trace := [FindOne "Jane  Van Doe";
                      Save (createDocument "Jane  Van Doe" Sample.spaced
                              EmptyString EmptyString)] |}) =
  Val {| status := 404; json := Message "Profile not found" |}.
Proof.
  split; [reflexivity |].
  destruct (read_by_returned_key Sample.host Sample.spaced Sample.noFiles
              Sample.withJane _ _ eq_refl eq_refl)
    as (u & doc & Hu & _ & _ & Hkey).
  injection Hu as <-. apply Hkey; [discriminate |].
  intros p [<- | []]. discriminate.
Defined.

(** X19: under a plain key without a hyphen the delete route removes the
    first stored profile whose [username] equals the key up to letter case,
    also when a later profile is named exactly like the key; when no stored
    name equals the key up to letter case it answers 404 and removes
    nothing. *)
Theorem delete_by_plain_key (key : string) (w : World) :
  isPlain key = true ->
  Spec.hasHyphen key = false ->
  (forall before p after u,
      db w = before ++ p :: after ->
      username p = Some u -> Spec.equalIgnoringCase key u ->
      (forall q v, In q before -> username q = Some v ->
                   ~ Spec.equalIgnoringCase key v) ->
      delete_profile key w =
      (Val {| status := 200; json := Message "Profile deleted successfully" |},
       {| db := before ++ after;
          trace := trace w ++ [FindOneAndDelete (anchored key)] |})) /\
  ((forall q v, In q (db w) -> username q = Some v ->
                ~ Spec.equalIgnoringCase key v) ->
   delete_profile key w =
   (Val {| status := 404; json := Message "Profile not found" |},
    {| db := db w; trace := trace w ++ [FindOneAndDelete (anchored key)] |})).
Proof.
  intros Hplain Hhyphen.
  assert (Hrun : delete_profile key w =
                 let (found, rest) :=
                   Store.removeFirst (Store.usernameMatches (anchored key) true)
                     (db w) in
                 (Val match found with
                      | Some _ =>
                          {| status := 200;
                             json := Message "Profile deleted successfully" |}
                      | None =>
                          {| status := 404;
                             json := Message "Profile not found" |}
                      end,
                  {| db := rest;
                     trace := trace w ++ [FindOneAndDelete (anchored key)] |})).
  { rewrite delete_run. unfold deletePattern.
    rewrite (replaceFirstHyphen_without_hyphen key Hhyphen).
    now rewrite (construct_plain key Hplain). }
  split.
  - intros before p after u Hdb Hu Heq Hnone.
    assert (Hsel : firstSelected (Store.usernameMatches (anchored key) true)
                     (db w) before p after).
    { split; [exact Hdb |]. split.
      - apply plain_selects. now exists u.
      - exact (plain_noneSelected key before Hnone). }
    now rewrite Hrun, (removeFirst_selected _ _ _ _ _ Hsel).
  - intros Hnone.
    now rewrite Hrun, (removeFirst_none _ _ (plain_noneSelected key (db w) Hnone)).
Qed.

Lemma delete_by_plain_key_witness :
  (isPlain "JOHN SMITH" = true /\ Spec.hasHyphen "JOHN SMITH" = false /\
   Spec.equalIgnoringCase "JOHN SMITH" "john smith") /\
  delete_profile "JOHN SMITH" Sample.stocked =
  (Val {| status := 200; json := Message "Profile deleted successfully" |},
   {| db := [Sample.janeWithPhone];
      trace := [FindOneAndDelete (anchored "JOHN SMITH")] |}).
Proof.
  split; [repeat split |].
  apply (proj1 (delete_by_plain_key "JOHN SMITH" Sample.stocked
                  eq_refl eq_refl)
           [] Sample.john [Sample.janeWithPhone] "john smith");
    try reflexivity.
  intros q v [].
Defined.

Lemma parseSocialLinks_anywhere (socialLinks : option string) (w w' : World)
  (links : JSON.json) :
  parseSocialLinks socialLinks w = (Val links, w) ->
  parseSocialLinks socialLinks w' = (Val links, w').
Proof.
  unfold parseSocialLinks, ret, throw.
  destruct socialLinks as [text |]; [| intros [= <-]; reflexivity].
  destruct (Js.isEmpty text); [intros [= <-]; reflexivity |].
  destruct (JSON.parse text); [| discriminate]. intros [= <-]. reflexivity.
Qed.

(** X20: an update without new files that went through, under a plain key
    that the [username] it sets equals up to letter case, can be sent again:
    the second request hands the store the same update document, is
    answered with the same profile and leaves the store as the first left
    it. *)
Theorem update_twice
  (upload_stream upload_stream' : nat -> Buffer -> string + string)
  (key name : string) (body : UpdateBody) (w updated : World) (new : Profile) :
  isPlain key = true ->
  update_username body = Some name ->
  Spec.equalIgnoringCase key name ->
  update_profile upload_stream key body Sample.noFiles w =
  (Val {| status := 200; json := Document new |}, updated) ->
  exists update,
    trace updated = trace w ++ [FindOneAndUpdate (anchored key) update] /\
    update_profile upload_stream' key body Sample.noFiles updated =
    (Val {| status := 200; json := Document new |},
     {| db := db updated;
        trace := trace updated ++ [FindOneAndUpdate (anchored key) update] |}).
Proof.
  intros Hplain Hname Heq Hrun.
  destruct (update_outcome upload_stream key body Sample.noFiles w updated _ Hrun)
    as [(Hr & _) | [(_ & [Hr | (resp & Hr & Hst)]) | Hdone]];
    try discriminate Hr.
  { injection Hr as <-. cbn in Hst. destruct Hst; discriminate. }
  destruct Hdone as (p & before & old & after & links & cast & u1 & u2 & Hdone).
  cbv zeta in Hdone.
  destruct Hdone as (Hre & Hsel & Hparse & Hcast & H1 & H2 & Hfree & _ & _).
  unfold updatePattern in Hre. rewrite (construct_plain key Hplain) in Hre.
  injection Hre as <-.
  cbn in H1, H2. injection H1 as <-. injection H2 as <-.
  rewrite (update_selected upload_stream key body Sample.noFiles w links cast
             (anchored key) (update_profileImage body) (update_headerImage body)
             before old after Hparse Hcast eq_refl eq_refl
             (construct_plain key Hplain) Hsel) in Hrun.
  rewrite Hfree in Hrun. injection Hrun as <- <-.
  set (doc := Store.set (updateDocument body (update_profileImage body)
                           (update_headerImage body) cast) old) in *.
  match goal with
  | |- exists _, _ /\ update_profile _ _ _ _ ?updated = _ =>
      set (w2 := updated)
  end.
  exists (updateDocument body (update_profileImage body)
            (update_headerImage body) links).
  split; [reflexivity |].
  assert (Hsel' : firstSelected (Store.usernameMatches (anchored key) true)
                    (before ++ doc :: after) before doc after).
  { split; [reflexivity |]. split; [| apply Hsel].
    apply plain_selects. exists name. split; [| exact Heq].
    unfold doc. cbn [Store.set updateDocument username].
    now rewrite Hname. }
  rewrite (update_selected upload_stream' key body Sample.noFiles w2 links cast
             (anchored key) (update_profileImage body) (update_headerImage body)
             before doc after
             (parseSocialLinks_anywhere _ w w2 links Hparse) Hcast
             eq_refl eq_refl (construct_plain key Hplain) Hsel').
  unfold doc at 1 2 3. rewrite set_idempotent. fold doc.
  rewrite Hfree. reflexivity.
Qed.

Lemma update_twice_witness :
  (isPlain "JANE-DOE" = true /\
   Spec.equalIgnoringCase "JANE-DOE" "jane-doe") /\
  exists update,
    [FindOneAndUpdate (anchored "JANE-DOE") Sample.partialUpdate] =
    trace Sample.stocked ++ [FindOneAndUpdate (anchored "JANE-DOE") update] /\
    update_profile Sample.down "JANE-DOE" Sample.partial Sample.noFiles
      {| db := [Sample.john; Sample.merged];
         trace := [FindOneAndUpdate (anchored "JANE-DOE")
                     Sample.partialUpdate] |} =
    (Val {| status := 200; json := Document Sample.merged |},
     {| db := [Sample.john; Sample.merged];
        trace := [FindOneAndUpdate (anchored "JANE-DOE") Sample.partialUpdate]
                 ++ [FindOneAndUpdate (anchored "JANE-DOE") update] |}).
Proof.
  split; [split; reflexivity |].
  exact (update_twice Sample.host Sample.down "JANE-DOE" "jane-doe"
           Sample.partial Sample.stocked _ Sample.merged
           eq_refl eq_refl eq_refl eq_refl).
Defined.

(** X21: the create route does not undo an upload. When both files are
    there and the image host stores the first and refuses the second, or
    stores both and the insert is then refused because another request has
    taken the name, the answer is an error and nothing is saved, while the
    uploads have been made and no further call follows them. *)
Theorem create_leaves_uploads
  (upload_stream : nat -> Buffer -> string + string)
  (others : list Profile -> list Profile)
  (body : CreateBody) (w : World) (u : string)
  (profileImage headerImage : Buffer) (profileImageUrl : string) :
  let n := List.length (trace w) + 1 in
  let files := {| files_profileImage := Some profileImage;
                  files_headerImage := Some headerImage |} in
  create_username body = Some u ->
  usernameRejected (Some u) = false ->
  find (Store.hasUsername u) (db w) = None ->
  upload_stream n profileImage = inl profileImageUrl ->
  (forall message,
      upload_stream (n + 1) headerImage = inr message ->
      save_profile upload_stream others body files w =
      (Val {| status := 500;
              json := MessageError "Server error" (UploadError message) |},
       {| db := db w;
          trace := trace w ++ [FindOne u; Upload profileImage;
                               Upload headerImage] |})) /\
  (forall headerImageUrl,
      upload_stream (n + 1) headerImage = inl headerImageUrl ->
      let doc := createDocument u body profileImageUrl headerImageUrl in
      Store.missingPaths doc = [] ->
      Store.taken (Some u) (others (db w)) = true ->
      save_profile upload_stream others body files w =
      (Val {| status := 400;
              json := Message "Profile key or username already exists." |},
       {| db := others (db w);
          trace := trace w ++ [FindOne u; Upload profileImage;
                               Upload headerImage; Save doc] |})).
Proof.
  intros n files Hu Hok Hfind H1.
  pose proof (create_after_precheck upload_stream others body files w u
                Hu Hok Hfind) as Hrun.
  cbv zeta in Hrun.
  cbn [files files_profileImage files_headerImage createImage uploadCalls
       List.length] in Hrun.
  fold n in Hrun. rewrite H1 in Hrun. split.
  - intros message H2. rewrite H2 in Hrun. exact Hrun.
  - intros headerImageUrl H2 doc Hreq Htaken. rewrite H2 in Hrun.
    fold doc in Hrun. rewrite Hreq, Htaken in Hrun. exact Hrun.
Qed.

Lemma create_leaves_uploads_witness :
  find (Store.hasUsername "jane-doe") (db Sample.empty) = None /\
  save_profile Sample.host Sample.racing Sample.jane
    {| files_profileImage := Some Sample.photo;
       files_headerImage := Some Sample.photo |} Sample.empty =
  (Val {| status := 400;
          json := Message "Profile key or username already exists." |},
   {| db := [Sample.janeDoc];
      trace := [FindOne "jane-doe"; Upload Sample.photo; Upload Sample.photo;
                Save (createDocument "jane-doe" Sample.jane
                        "https://img.example/p.jpg"
                        "https://img.example/p.jpg")] |}).
Proof.
  split; [reflexivity |].
  exact (proj2 (create_leaves_uploads Sample.host Sample.racing Sample.jane
                  Sample.empty "jane-doe" Sample.photo Sample.photo
                  "https://img.example/p.jpg" eq_refl eq_refl eq_refl eq_refl)
           "https://img.example/p.jpg" eq_refl eq_refl eq_refl).
Defined.
